(** * A2DP stream-setup coordinator and HID dual-channel connector

    A shallow embedding of [audio/a2dp.c] and [android/hid.c] of BlueZ.
    C integers are [Z] with their truncation written out, pointers are
    [option] handles, [GSList]s are lists, and every call into a library the
    daemon does not own (AVDTP, GLib, btio, IPC) is appended to an explicit
    trace of effects; what such a call returns is an input of the model. *)

From Stdlib Require Import ZArith List Bool Lia Permutation.
Import ListNotations.
Open Scope Z_scope.

(** ** C scalar conventions *)

(** Storing into a [uint8_t]. *)
Definition uint8 (z : Z) : Z := z mod 256.

(** [unsigned int] arithmetic wraps modulo 2^32. *)
Definition UINT_MAX : Z := 4294967295.
Definition uint32 (z : Z) : Z := z mod 4294967296.

(** Storing an [unsigned int] into an [int] (two's complement). *)
Definition int_of_uint (z : Z) : Z :=
  if z <? 2147483648 then z else z - 4294967296.

(** The test [if (x & MASK)]. *)
Definition has_bit (x mask : Z) : bool := negb (Z.land x mask =? 0).

(** ** List helpers for [GSList] *)

(** Overwrite the element at a position (a store through a pointer into the
    list); out of range leaves the list as it is. *)
Fixpoint update_nth {A : Type} (n : nat) (x : A) (l : list A) : list A :=
  match l, n with
  | [], _ => []
  | _ :: t, O => x :: t
  | h :: t, S k => h :: update_nth k x t
  end.

(** [g_slist_remove] of the node at a position. *)
Fixpoint remove_nth {A : Type} (n : nat) (l : list A) : list A :=
  match l, n with
  | [], _ => []
  | _ :: t, O => t
  | h :: t, S k => h :: remove_nth k t
  end.

(** First element satisfying a test, with its position counted from [i]. *)
Fixpoint find_from {A : Type} (p : A -> bool) (l : list A) (i : nat)
  : option (nat * A) :=
  match l with
  | [] => None
  | x :: t => if p x then Some (i, x) else find_from p t (S i)
  end.

(** [g_slist_remove] of the first element that passes a test (the node
    whose data pointer a search has just returned). *)
Fixpoint remove_first {A : Type} (p : A -> bool) (l : list A) : list A :=
  match l with
  | [] => []
  | x :: t => if p x then t else x :: remove_first p t
  end.

(** Equality of two nullable handles. *)
Definition handle_eqb (a b : option Z) : bool :=
  match a, b with
  | Some x, Some y => x =? y
  | None, None => true
  | _, _ => false
  end.

Module A2dp.

(** ** Constants *)

Definition MAX_BITPOOL : Z := 64.
Definition MIN_BITPOOL : Z := 2.

(** The duration that streams without users may stay in STREAMING state. *)
Definition SUSPEND_TIMEOUT : Z := 5000.

Definition MIN (x y : Z) : Z := if x <? y then x else y.
Definition MAX (x y : Z) : Z := if x >? y then x else y.

(** Modelled from the spec: the SBC capability masks of [a2dp.h], which is
    not among the sources; values as the capability encoding lists them
    (16k=0x8, 32k=0x4, 44.1k=0x2, 48k=0x1; mono=0x8, dual=0x4, stereo=0x2,
    joint=0x1; block 4=0x8, 8=0x4, 12=0x2, 16=0x1; subbands 4=0x2, 8=0x1;
    SNR=0x2, loudness=0x1; media type AUDIO and codec type SBC are 0x00). *)
Definition A2DP_SAMPLING_FREQ_16000 : Z := 8.
Definition A2DP_SAMPLING_FREQ_32000 : Z := 4.
Definition A2DP_SAMPLING_FREQ_44100 : Z := 2.
Definition A2DP_SAMPLING_FREQ_48000 : Z := 1.
Definition A2DP_CHANNEL_MODE_MONO : Z := 8.
Definition A2DP_CHANNEL_MODE_DUAL_CHANNEL : Z := 4.
Definition A2DP_CHANNEL_MODE_STEREO : Z := 2.
Definition A2DP_CHANNEL_MODE_JOINT_STEREO : Z := 1.
Definition A2DP_BLOCK_LENGTH_4 : Z := 8.
Definition A2DP_BLOCK_LENGTH_8 : Z := 4.
Definition A2DP_BLOCK_LENGTH_12 : Z := 2.
Definition A2DP_BLOCK_LENGTH_16 : Z := 1.
Definition A2DP_SUBBANDS_4 : Z := 2.
Definition A2DP_SUBBANDS_8 : Z := 1.
Definition A2DP_ALLOCATION_SNR : Z := 2.
Definition A2DP_ALLOCATION_LOUDNESS : Z := 1.
Definition AVDTP_MEDIA_TYPE_AUDIO : Z := 0.
Definition A2DP_CODEC_SBC : Z := 0.

(** ** The SBC capability structure *)

(** [struct sbc_codec_cap]: the embedded [struct avdtp_media_codec_capability]
    header ([cap.media_type], [cap.media_codec_type]) followed by the SBC
    bit fields and the two bitpool bytes. *)
Record sbc_codec_cap : Type := mk_sbc_codec_cap {
  cap_media_type : Z;
  cap_media_codec_type : Z;
  frequency : Z;
  channel_mode : Z;
  block_length : Z;
  subbands : Z;
  allocation_method : Z;
  min_bitpool : Z;
  max_bitpool : Z
}.

(** The values the C type can hold: 4-bit and 2-bit fields, [uint8_t]
    bitpools. *)
Definition sbc_cap_wf (c : sbc_codec_cap) : Prop :=
  0 <= frequency c < 16 /\ 0 <= channel_mode c < 16 /\
  0 <= block_length c < 16 /\ 0 <= subbands c < 4 /\
  0 <= allocation_method c < 4 /\
  0 <= min_bitpool c < 256 /\ 0 <= max_bitpool c < 256.

(** [memset(cap, 0, sizeof(struct sbc_codec_cap))]. *)
Definition sbc_cap_zero : sbc_codec_cap :=
  mk_sbc_codec_cap 0 0 0 0 0 0 0 0 0.

Definition set_cap_header (c : sbc_codec_cap) (mt ct : Z) : sbc_codec_cap :=
  mk_sbc_codec_cap mt ct (frequency c) (channel_mode c) (block_length c)
    (subbands c) (allocation_method c) (min_bitpool c) (max_bitpool c).

Definition set_frequency (c : sbc_codec_cap) (v : Z) : sbc_codec_cap :=
  mk_sbc_codec_cap (cap_media_type c) (cap_media_codec_type c) v
    (channel_mode c) (block_length c) (subbands c) (allocation_method c)
    (min_bitpool c) (max_bitpool c).

Definition set_channel_mode (c : sbc_codec_cap) (v : Z) : sbc_codec_cap :=
  mk_sbc_codec_cap (cap_media_type c) (cap_media_codec_type c) (frequency c)
    v (block_length c) (subbands c) (allocation_method c)
    (min_bitpool c) (max_bitpool c).

Definition set_block_length (c : sbc_codec_cap) (v : Z) : sbc_codec_cap :=
  mk_sbc_codec_cap (cap_media_type c) (cap_media_codec_type c) (frequency c)
    (channel_mode c) v (subbands c) (allocation_method c)
    (min_bitpool c) (max_bitpool c).

Definition set_subbands (c : sbc_codec_cap) (v : Z) : sbc_codec_cap :=
  mk_sbc_codec_cap (cap_media_type c) (cap_media_codec_type c) (frequency c)
    (channel_mode c) (block_length c) v (allocation_method c)
    (min_bitpool c) (max_bitpool c).

Definition set_allocation_method (c : sbc_codec_cap) (v : Z) : sbc_codec_cap :=
  mk_sbc_codec_cap (cap_media_type c) (cap_media_codec_type c) (frequency c)
    (channel_mode c) (block_length c) (subbands c) v
    (min_bitpool c) (max_bitpool c).

(** The two [uint8_t] stores that end [select_sbc_params]. *)
Definition set_bitpool (c : sbc_codec_cap) (lo hi : Z) : sbc_codec_cap :=
  mk_sbc_codec_cap (cap_media_type c) (cap_media_codec_type c) (frequency c)
    (channel_mode c) (block_length c) (subbands c) (allocation_method c)
    (uint8 lo) (uint8 hi).

(** ** Codec selector *)

(** [default_bitpool]: the nested [switch] on frequency and channel mode,
    with its [default:] arms. *)
Definition default_bitpool (freq mode : Z) : Z :=
  if (freq =? A2DP_SAMPLING_FREQ_16000) || (freq =? A2DP_SAMPLING_FREQ_32000)
  then 53
  else if freq =? A2DP_SAMPLING_FREQ_44100 then
    if (mode =? A2DP_CHANNEL_MODE_MONO)
       || (mode =? A2DP_CHANNEL_MODE_DUAL_CHANNEL) then 31
    else if (mode =? A2DP_CHANNEL_MODE_STEREO)
            || (mode =? A2DP_CHANNEL_MODE_JOINT_STEREO) then 53
    else 53
  else if freq =? A2DP_SAMPLING_FREQ_48000 then
    if (mode =? A2DP_CHANNEL_MODE_MONO)
       || (mode =? A2DP_CHANNEL_MODE_DUAL_CHANNEL) then 29
    else if (mode =? A2DP_CHANNEL_MODE_STEREO)
            || (mode =? A2DP_CHANNEL_MODE_JOINT_STEREO) then 51
    else 51
  else 53.

(** The [if / else if] chain over [supported->frequency]; [None] is the
    final [else] that reports "No supported frequencies". *)
Definition pick_frequency (f : Z) : option Z :=
  if has_bit f A2DP_SAMPLING_FREQ_44100 then Some A2DP_SAMPLING_FREQ_44100
  else if has_bit f A2DP_SAMPLING_FREQ_48000 then Some A2DP_SAMPLING_FREQ_48000
  else if has_bit f A2DP_SAMPLING_FREQ_32000 then Some A2DP_SAMPLING_FREQ_32000
  else if has_bit f A2DP_SAMPLING_FREQ_16000 then Some A2DP_SAMPLING_FREQ_16000
  else None.

Definition pick_channel_mode (m : Z) : option Z :=
  if has_bit m A2DP_CHANNEL_MODE_JOINT_STEREO
  then Some A2DP_CHANNEL_MODE_JOINT_STEREO
  else if has_bit m A2DP_CHANNEL_MODE_STEREO
  then Some A2DP_CHANNEL_MODE_STEREO
  else if has_bit m A2DP_CHANNEL_MODE_DUAL_CHANNEL
  then Some A2DP_CHANNEL_MODE_DUAL_CHANNEL
  else if has_bit m A2DP_CHANNEL_MODE_MONO
  then Some A2DP_CHANNEL_MODE_MONO
  else None.

Definition pick_block_length (b : Z) : option Z :=
  if has_bit b A2DP_BLOCK_LENGTH_16 then Some A2DP_BLOCK_LENGTH_16
  else if has_bit b A2DP_BLOCK_LENGTH_12 then Some A2DP_BLOCK_LENGTH_12
  else if has_bit b A2DP_BLOCK_LENGTH_8 then Some A2DP_BLOCK_LENGTH_8
  else if has_bit b A2DP_BLOCK_LENGTH_4 then Some A2DP_BLOCK_LENGTH_4
  else None.

Definition pick_subbands (s : Z) : option Z :=
  if has_bit s A2DP_SUBBANDS_8 then Some A2DP_SUBBANDS_8
  else if has_bit s A2DP_SUBBANDS_4 then Some A2DP_SUBBANDS_4
  else None.

(** The allocation chain has no final [else]: [None] leaves the field as
    [memset] wrote it and the function goes on. *)
Definition pick_allocation_method (a : Z) : option Z :=
  if has_bit a A2DP_ALLOCATION_LOUDNESS then Some A2DP_ALLOCATION_LOUDNESS
  else if has_bit a A2DP_ALLOCATION_SNR then Some A2DP_ALLOCATION_SNR
  else None.

(** [select_sbc_params (cap, supported)]: the returned pair is the
    [gboolean] result and the contents of [*cap] when the function returns
    (partly filled on the failing paths). *)
Definition select_sbc_params (supported : sbc_codec_cap)
  : bool * sbc_codec_cap :=
  let cap := sbc_cap_zero in
  let cap := set_cap_header cap AVDTP_MEDIA_TYPE_AUDIO A2DP_CODEC_SBC in
  match pick_frequency (frequency supported) with
  | None => (false, cap)
  | Some f =>
    let cap := set_frequency cap f in
    match pick_channel_mode (channel_mode supported) with
    | None => (false, cap)
    | Some m =>
      let cap := set_channel_mode cap m in
      match pick_block_length (block_length supported) with
      | None => (false, cap)
      | Some b =>
        let cap := set_block_length cap b in
        match pick_subbands (subbands supported) with
        | None => (false, cap)
        | Some s =>
          let cap := set_subbands cap s in
          let cap :=
            match pick_allocation_method (allocation_method supported) with
            | Some a => set_allocation_method cap a
            | None => cap
            end in
          let min_bp := MAX MIN_BITPOOL (min_bitpool supported) in
          let max_bp :=
            MIN (default_bitpool (frequency cap) (channel_mode cap))
                (max_bitpool supported) in
          (true, set_bitpool cap min_bp max_bp)
        end
      end
    end
  end.

(** The capability [getcap_ind] advertises: the full local set. *)
Definition local_sbc_cap : sbc_codec_cap :=
  mk_sbc_codec_cap AVDTP_MEDIA_TYPE_AUDIO A2DP_CODEC_SBC
    (Z.lor A2DP_SAMPLING_FREQ_48000
       (Z.lor A2DP_SAMPLING_FREQ_44100
          (Z.lor A2DP_SAMPLING_FREQ_32000 A2DP_SAMPLING_FREQ_16000)))
    (Z.lor A2DP_CHANNEL_MODE_JOINT_STEREO
       (Z.lor A2DP_CHANNEL_MODE_STEREO
          (Z.lor A2DP_CHANNEL_MODE_DUAL_CHANNEL A2DP_CHANNEL_MODE_MONO)))
    (Z.lor A2DP_BLOCK_LENGTH_16
       (Z.lor A2DP_BLOCK_LENGTH_12
          (Z.lor A2DP_BLOCK_LENGTH_8 A2DP_BLOCK_LENGTH_4)))
    (Z.lor A2DP_SUBBANDS_8 A2DP_SUBBANDS_4)
    (Z.lor A2DP_ALLOCATION_LOUDNESS A2DP_ALLOCATION_SNR)
    MIN_BITPOOL MAX_BITPOOL.


(** ** Handles and collaborators *)

(** A [struct avdtp *] session, a [struct avdtp_stream *], a
    [struct device *] and a GLib source id; a nullable pointer is an
    [option]. *)
Definition avdtp : Type := Z.
Definition avdtp_stream : Type := Z.
Definition device : Type := Z.
Definition guint : Type := Z.

(** Modelled from the spec: [avdtp_state_t] of [avdtp.h], which is not among
    the sources; the states are those the data model lists. *)
Inductive avdtp_state_t : Type :=
| AVDTP_STATE_IDLE
| AVDTP_STATE_CONFIGURED
| AVDTP_STATE_OPEN
| AVDTP_STATE_STREAMING
| AVDTP_STATE_CLOSING
| AVDTP_STATE_ABORTING.

(** Modelled from the spec: the role of a stream end point,
    [AVDTP_SEP_TYPE_SOURCE] or [AVDTP_SEP_TYPE_SINK] of [avdtp.h]. *)
Inductive avdtp_sep_type : Type :=
| AVDTP_SEP_TYPE_SOURCE
| AVDTP_SEP_TYPE_SINK.

Definition is_source (t : avdtp_sep_type) : bool :=
  match t with AVDTP_SEP_TYPE_SOURCE => true | AVDTP_SEP_TYPE_SINK => false end.

(** Modelled from the spec: the service categories and the error code of
    [avdtp.h]. The spec names them (media transport, media codec,
    UNSUPPORTED_CONFIGURATION) without their numbers; the numbers are the
    ones the AVDTP signalling tables assign. *)
Definition AVDTP_MEDIA_TRANSPORT : Z := 1.
Definition AVDTP_MEDIA_CODEC : Z := 7.
Definition AVDTP_UNSUPPORTED_CONFIGURATION : Z := 41.

(** Modelled from the spec: a [struct avdtp_local_sep *] is owned by the
    AVDTP library; the daemon reads its state through
    [avdtp_sep_get_state] and never writes it. *)
Record avdtp_local_sep : Type := mk_avdtp_local_sep {
  lsep_handle : Z;
  lsep_state : avdtp_state_t
}.

Definition avdtp_sep_get_state (sep : avdtp_local_sep) : avdtp_state_t :=
  lsep_state sep.

(** [struct avdtp_service_capability]: [data] is read only after the tests
    [category == AVDTP_MEDIA_CODEC], through the casts to
    [struct avdtp_media_codec_capability] and [struct sbc_codec_cap]. *)
Record avdtp_service_capability : Type := mk_avdtp_service_capability {
  category : Z;
  data : sbc_codec_cap
}.

(** What the collaborators answer. Each field is one external function of
    the source; the [rc_] fields are the [int] a request returns. *)
Record environment : Type := mk_environment {
  avdtp_get_peers : avdtp -> Z;
  manager_device_connected : Z -> option device;
  avdtp_has_stream : avdtp -> avdtp_stream -> bool;
  avdtp_stream_has_capability :
    option avdtp_stream -> avdtp_service_capability -> bool;
  rc_discover : avdtp -> Z;
  rc_start : avdtp -> option avdtp_stream -> Z;
  rc_suspend : option avdtp -> option avdtp_stream -> Z;
  rc_close : avdtp -> option avdtp_stream -> Z
}.

(** The calls the daemon makes, in the order it makes them. *)
Inductive effect : Type :=
| avdtp_ref (session : avdtp)
| avdtp_unref (session : avdtp)
| avdtp_discover (session : avdtp)
| avdtp_start (session : avdtp) (stream : option avdtp_stream)
| avdtp_suspend (session : option avdtp) (stream : option avdtp_stream)
| avdtp_close (session : avdtp) (stream : option avdtp_stream)
| avdtp_stream_add_cb (session : avdtp) (stream : option avdtp_stream)
    (user_data : avdtp_local_sep)
| sink_new_stream (dev : device) (session : avdtp)
    (stream : option avdtp_stream)
| g_idle_add_finalize (session : avdtp)
| g_source_remove (timer : guint)
| g_timeout_add (interval : Z) (user_data : avdtp_local_sep)
| setup_callback (cb : Z) (session : option avdtp) (sep : option nat)
    (stream : option avdtp_stream) (user_data : Z).

(** ** Daemon state *)

Record a2dp_sep : Type := mk_a2dp_sep {
  sep_type : avdtp_sep_type;
  sep_lsep : avdtp_local_sep;
  sep_session : option avdtp;
  sep_stream : option avdtp_stream;
  sep_suspend_timer : guint;
  sep_locked : bool;
  sep_suspending : bool;
  sep_starting : bool
}.

Record a2dp_stream_cb : Type := mk_a2dp_stream_cb {
  cb_fn : Z;
  cb_user_data : Z;
  cb_ident : Z
}.

(** [setup_sep] points into the [sources] list: the index of the SEP. *)
Record a2dp_stream_setup : Type := mk_a2dp_stream_setup {
  setup_session : option avdtp;
  setup_sep : option nat;
  setup_stream : option avdtp_stream;
  setup_media_codec : option avdtp_service_capability;
  setup_start : bool;
  setup_canceled : bool;
  setup_cb : list a2dp_stream_cb
}.

(** The file-scope variables [sources] and [setups] and the function-static
    counter [cb_id] of [a2dp_source_request_stream]. *)
Record a2dp_state : Type := mk_a2dp_state {
  sources : list a2dp_sep;
  setups : list a2dp_stream_setup;
  cb_id : Z
}.

Definition set_sep_stream (s : a2dp_sep) (v : option avdtp_stream) : a2dp_sep :=
  mk_a2dp_sep (sep_type s) (sep_lsep s) (sep_session s) v
    (sep_suspend_timer s) (sep_locked s) (sep_suspending s) (sep_starting s).

Definition set_sep_session (s : a2dp_sep) (v : option avdtp) : a2dp_sep :=
  mk_a2dp_sep (sep_type s) (sep_lsep s) v (sep_stream s)
    (sep_suspend_timer s) (sep_locked s) (sep_suspending s) (sep_starting s).

Definition set_sep_suspend_timer (s : a2dp_sep) (v : guint) : a2dp_sep :=
  mk_a2dp_sep (sep_type s) (sep_lsep s) (sep_session s) (sep_stream s)
    v (sep_locked s) (sep_suspending s) (sep_starting s).

Definition set_sep_locked (s : a2dp_sep) (v : bool) : a2dp_sep :=
  mk_a2dp_sep (sep_type s) (sep_lsep s) (sep_session s) (sep_stream s)
    (sep_suspend_timer s) v (sep_suspending s) (sep_starting s).

Definition set_sep_suspending (s : a2dp_sep) (v : bool) : a2dp_sep :=
  mk_a2dp_sep (sep_type s) (sep_lsep s) (sep_session s) (sep_stream s)
    (sep_suspend_timer s) (sep_locked s) v (sep_starting s).

(** ** Stream setups *)

Definition a2dp_get_dev (env : environment) (session : avdtp) : option device :=
  manager_device_connected env (avdtp_get_peers env session).

(** [setup->session == session]. *)
Definition setup_has_session (session : avdtp) (s : a2dp_stream_setup) : bool :=
  match setup_session s with
  | Some s' => s' =? session
  | None => false
  end.

(** [find_setup_by_session]: the first setup of [setups] for the session,
    with its position in the list (the pointer the C function returns). *)
Definition find_setup_by_session (session : avdtp)
    (l : list a2dp_stream_setup) : option (nat * a2dp_stream_setup) :=
  find_from (setup_has_session session) l 0.

(** [stream_setup_free (s)]: [at_] is where [s] stands in [setups], [None]
    for a setup not yet appended (then [g_slist_remove] finds nothing). *)
Definition stream_setup_free (s : a2dp_stream_setup) (at_ : option nat)
    (l : list a2dp_stream_setup) : list a2dp_stream_setup * list effect :=
  let l' := match at_ with Some i => remove_nth i l | None => l end in
  (l', match setup_session s with
       | Some session => [avdtp_unref session]
       | None => []
       end).

(** [finalize_stream_setup (s)]: every callback record is invoked in list
    order through [setup_callback], then the setup is freed. *)
Definition finalize_stream_setup (s : a2dp_stream_setup) (at_ : option nat)
    (l : list a2dp_stream_setup) : list a2dp_stream_setup * list effect :=
  let calls :=
    map (fun c => setup_callback (cb_fn c) (setup_session s) (setup_sep s)
                    (setup_stream s) (cb_user_data c)) (setup_cb s) in
  let '(l', freed) := stream_setup_free s at_ l in
  (l', calls ++ freed).

(** ** Stream state listener *)

Definition avdtp_state_is_idle (s : avdtp_state_t) : bool :=
  match s with AVDTP_STATE_IDLE => true | _ => false end.

Definition stream_state_changed (new_state : avdtp_state_t) (sep : a2dp_sep)
  : a2dp_sep * list effect :=
  if negb (avdtp_state_is_idle new_state) then (sep, [])
  else
    let '(sep, e1) :=
      if negb (sep_suspend_timer sep =? 0)
      then (set_sep_suspend_timer sep 0, [g_source_remove (sep_suspend_timer sep)])
      else (sep, []) in
    let '(sep, e2) :=
      match sep_session sep with
      | Some s => (set_sep_session sep None, [avdtp_unref s])
      | None => (sep, [])
      end in
    (set_sep_stream sep None, e1 ++ e2).

(** ** Indications and confirmations *)

(** What an indication hands back: [TRUE], or [FALSE] with [*err] and
    [*category] filled in. *)
Inductive ind_result : Type :=
| Accept
| Reject (err : Z) (cat : Z).

(** The loop "Check bipool range" of [setconf_ind]: [true] when it hits the
    [return FALSE]. It stops at the first media-codec capability. *)
Fixpoint bitpool_out_of_range (caps : list avdtp_service_capability) : bool :=
  match caps with
  | [] => false
  | cap :: rest =>
    if category cap =? AVDTP_MEDIA_CODEC then
      if cap_media_codec_type (data cap) =? A2DP_CODEC_SBC then
        (min_bitpool (data cap) <? MIN_BITPOOL)
        || (max_bitpool (data cap) >? MAX_BITPOOL)
      else false
    else bitpool_out_of_range rest
  end.

Definition setconf_ind (env : environment) (session : avdtp)
    (stream : option avdtp_stream) (caps : list avdtp_service_capability)
    (a2dp_sep_ : a2dp_sep) : ind_result * a2dp_sep * list effect :=
  match a2dp_get_dev env session with
  | None => (Reject AVDTP_UNSUPPORTED_CONFIGURATION 0, a2dp_sep_, [])
  | Some dev =>
    if bitpool_out_of_range caps then
      (Reject AVDTP_UNSUPPORTED_CONFIGURATION AVDTP_MEDIA_CODEC, a2dp_sep_, [])
    else
      (Accept, set_sep_stream a2dp_sep_ stream,
       avdtp_stream_add_cb session stream (sep_lsep a2dp_sep_)
       :: (if is_source (sep_type a2dp_sep_)
           then [sink_new_stream dev session stream] else []))
  end.

(** [suspend_cfm]: [err] is the [struct avdtp_error *] of the confirmation,
    [None] for NULL. *)
Definition suspend_cfm (env : environment) (session : avdtp)
    (stream : option avdtp_stream) (err : option Z) (a2dp_sep_ : a2dp_sep)
    (l : list a2dp_stream_setup)
  : a2dp_sep * list a2dp_stream_setup * list effect :=
  let a2dp_sep_ := set_sep_suspending a2dp_sep_ false in
  match find_setup_by_session session l with
  | None => (a2dp_sep_, l, [])
  | Some (i, setup) =>
    match err with
    | Some _ =>
      let '(l', e) := finalize_stream_setup setup (Some i) l in
      (a2dp_sep_, l', e)
    | None =>
      if setup_start setup then
        if rc_start env session stream <? 0 then
          let '(l', e) := finalize_stream_setup setup (Some i) l in
          (a2dp_sep_, l', avdtp_start session stream :: e)
        else (a2dp_sep_, l, [avdtp_start session stream])
      else (a2dp_sep_, l, [])
    end
  end.

(** ** Lock and unlock *)

Definition a2dp_sep_lock (sep : a2dp_sep) (session : avdtp) : bool * a2dp_sep :=
  if sep_locked sep then (false, sep)
  else (true, set_sep_locked sep true).

Definition a2dp_sep_unlock (env : environment) (sep : a2dp_sep)
    (session : avdtp) : bool * a2dp_sep * list effect :=
  let state := avdtp_sep_get_state (sep_lsep sep) in
  let sep := set_sep_locked sep false in
  match sep_stream sep, state with
  | None, _ => (true, sep, [])
  | Some _, AVDTP_STATE_IDLE => (true, sep, [])
  | Some _, AVDTP_STATE_OPEN =>
    (* Set timer here *)
    (true, sep, [])
  | Some _, AVDTP_STATE_STREAMING =>
    if rc_suspend env (Some session) (sep_stream sep) =? 0
    then (true, set_sep_suspending sep true,
          [avdtp_suspend (Some session) (sep_stream sep)])
    else (true, sep, [avdtp_suspend (Some session) (sep_stream sep)])
  | Some _, _ => (true, sep, [])
  end.

(** ** Timer-driven suspend *)

Definition suspend_timeout (env : environment) (sep : a2dp_sep)
  : bool * a2dp_sep * list effect :=
  let call := avdtp_suspend (sep_session sep) (sep_stream sep) in
  let sep1 :=
    if rc_suspend env (sep_session sep) (sep_stream sep) =? 0
    then set_sep_suspending sep true else sep in
  let sep2 := set_sep_suspend_timer sep1 0 in
  (false, set_sep_session sep2 None,
   call :: match sep_session sep with
           | Some s => [avdtp_unref s]
           | None => []
           end).

(** [start_ind]: [timer] is the source id [g_timeout_add] returns. *)
Definition start_ind (session : avdtp) (timer : guint) (a2dp_sep_ : a2dp_sep)
  : ind_result * a2dp_sep * list effect :=
  (Accept,
   set_sep_suspend_timer (set_sep_session a2dp_sep_ (Some session)) timer,
   [avdtp_ref session; g_timeout_add SUSPEND_TIMEOUT (sep_lsep a2dp_sep_)]).

(** ** Requesting a stream *)

(** The test of the scan over [sources]: the SEP is passed over when
    [tmp->locked], and taken when
    [!tmp->stream || avdtp_has_stream(session, tmp->stream)]. *)
Definition sep_available (env : environment) (session : avdtp)
    (tmp : a2dp_sep) : bool :=
  if sep_locked tmp then false
  else match sep_stream tmp with
       | None => true
       | Some st => avdtp_has_stream env session st
       end.

(** What the [switch] on the SEP state leaves behind: the SEP as updated
    and the calls made, for the paths that reach the end of the function
    ([inl]) and for those that [goto failed] ([inr]). *)
Definition request_dispatch (env : environment) (session : avdtp)
    (start : bool) (sep : a2dp_sep) (setup : a2dp_stream_setup)
  : (a2dp_sep * list effect) + list effect :=
  match avdtp_sep_get_state (sep_lsep sep) with
  | AVDTP_STATE_IDLE =>
    if rc_discover env session <? 0 then inr [avdtp_discover session]
    else inl (sep, [avdtp_discover session])
  | AVDTP_STATE_OPEN =>
    if negb start then inl (sep, [g_idle_add_finalize session])
    else if sep_starting sep then inl (sep, [])
    else
      match setup_media_codec setup with
      | Some mc =>
        if avdtp_stream_has_capability env (setup_stream setup) mc then
          if rc_start env session (sep_stream sep) <? 0
          then inr [avdtp_start session (sep_stream sep)]
          else inl (sep, [avdtp_start session (sep_stream sep)])
        else
          if rc_close env session (sep_stream sep) <? 0
          then inr [avdtp_close session (sep_stream sep)]
          else inl (sep, [avdtp_close session (sep_stream sep)])
      | None =>
        if rc_start env session (sep_stream sep) <? 0
        then inr [avdtp_start session (sep_stream sep)]
        else inl (sep, [avdtp_start session (sep_stream sep)])
      end
  | AVDTP_STATE_STREAMING =>
    if negb start || negb (sep_suspending sep) then
      if negb (sep_suspend_timer sep =? 0) then
        inl (set_sep_suspend_timer sep 0,
             [g_source_remove (sep_suspend_timer sep);
              g_idle_add_finalize session])
      else inl (sep, [g_idle_add_finalize session])
    else inl (sep, [])
  | _ => inr []
  end.

(** [a2dp_source_request_stream]: the returned triple is the [unsigned int]
    result, the daemon state afterwards and the calls made. *)
Definition a2dp_source_request_stream (env : environment) (session : avdtp)
    (start : bool) (cb user_data : Z)
    (media_codec : option avdtp_service_capability) (st : a2dp_state)
  : Z * a2dp_state * list effect :=
  match find_from (sep_available env session) (sources st) 0 with
  | None => (0, st, [])
  | Some (i, sep) =>
    let found := find_setup_by_session session (setups st) in
    let cb_id' := uint32 (cb_id st + 1) in
    let cb_data := mk_a2dp_stream_cb cb user_data (int_of_uint cb_id') in
    match found with
    | Some (k, setup) =>
      let setup' :=
        mk_a2dp_stream_setup (setup_session setup) (Some i)
          (setup_stream setup) (setup_media_codec setup)
          (if start then true else setup_start setup)
          false (setup_cb setup ++ [cb_data]) in
      (uint32 (cb_ident cb_data),
       mk_a2dp_state (sources st) (update_nth k setup' (setups st)) cb_id',
       [])
    | None =>
      let setup :=
        mk_a2dp_stream_setup (Some session) (Some i) (sep_stream sep)
          media_codec start false [cb_data] in
      match request_dispatch env session start sep setup with
      | inl (sep', calls) =>
        (uint32 (cb_ident cb_data),
         mk_a2dp_state (update_nth i sep' (sources st))
           (setups st ++ [setup]) cb_id',
         avdtp_ref session :: calls)
      | inr calls =>
        let '(l', freed) := stream_setup_free setup None (setups st) in
        (0,
         mk_a2dp_state (sources st) l' (uint32 (cb_id' - 1)),
         avdtp_ref session :: calls ++ freed)
      end
    end
  end.

(** ** The selection policy as the specification words it *)

(** The single highest-preference bit set in both the local and the remote
    mask: the first entry of the preference order found in the
    intersection. *)
Definition spec_first_common (order : list Z) (local remote : Z) : option Z :=
  find (fun b => has_bit (Z.land local remote) b) order.

Definition spec_frequency_order : list Z :=
  [A2DP_SAMPLING_FREQ_44100; A2DP_SAMPLING_FREQ_48000;
   A2DP_SAMPLING_FREQ_32000; A2DP_SAMPLING_FREQ_16000].

Definition spec_channel_mode_order : list Z :=
  [A2DP_CHANNEL_MODE_JOINT_STEREO; A2DP_CHANNEL_MODE_STEREO;
   A2DP_CHANNEL_MODE_DUAL_CHANNEL; A2DP_CHANNEL_MODE_MONO].

Definition spec_block_length_order : list Z :=
  [A2DP_BLOCK_LENGTH_16; A2DP_BLOCK_LENGTH_12;
   A2DP_BLOCK_LENGTH_8; A2DP_BLOCK_LENGTH_4].

Definition spec_subbands_order : list Z :=
  [A2DP_SUBBANDS_8; A2DP_SUBBANDS_4].

Definition spec_allocation_order : list Z :=
  [A2DP_ALLOCATION_LOUDNESS; A2DP_ALLOCATION_SNR].

(** The lookup table of the specification: 53 at 16 kHz and 32 kHz; 31
    (mono, dual) or 53 (stereo, joint) at 44.1 kHz; 29 or 51 at 48 kHz. *)
Definition spec_default_bitpool (freq mode : Z) : option Z :=
  let mono_or_dual :=
    (mode =? A2DP_CHANNEL_MODE_MONO)
    || (mode =? A2DP_CHANNEL_MODE_DUAL_CHANNEL) in
  let stereo_or_joint :=
    (mode =? A2DP_CHANNEL_MODE_STEREO)
    || (mode =? A2DP_CHANNEL_MODE_JOINT_STEREO) in
  if (freq =? A2DP_SAMPLING_FREQ_16000) || (freq =? A2DP_SAMPLING_FREQ_32000)
  then (if mono_or_dual || stereo_or_joint then Some 53 else None)
  else if freq =? A2DP_SAMPLING_FREQ_44100
  then (if mono_or_dual then Some 31
        else if stereo_or_joint then Some 53 else None)
  else if freq =? A2DP_SAMPLING_FREQ_48000
  then (if mono_or_dual then Some 29
        else if stereo_or_joint then Some 51 else None)
  else None.

(** The first media-codec capability of a configuration, the only one
    [setconf_ind] looks at. *)
Definition first_media_codec (caps : list avdtp_service_capability)
  : option avdtp_service_capability :=
  find (fun c => category c =? AVDTP_MEDIA_CODEC) caps.

(** The offered bitpool range leaves [2, 64]: the first media-codec
    capability is SBC with a minimum under 2 or a maximum over 64. *)
Definition spec_bitpool_leaves_range (caps : list avdtp_service_capability)
  : bool :=
  match first_media_codec caps with
  | Some c =>
    (cap_media_codec_type (data c) =? A2DP_CODEC_SBC)
    && ((min_bitpool (data c) <? 2) || (max_bitpool (data c) >? 64))
  | None => false
  end.

(** Eligible = not locked and (stream slot empty or the session already
    owns that stream). *)
Definition spec_eligible (env : environment) (session : avdtp)
    (sep : a2dp_sep) : bool :=
  negb (sep_locked sep)
  && match sep_stream sep with
     | None => true
     | Some st => avdtp_has_stream env session st
     end.

(** ** Cancelling a request *)

(** [find_setup_by_dev]: the first setup whose session's peer is [dev];
    both sides of [setup_dev == dev] are nullable pointers. *)
Definition setup_has_dev (env : environment) (dev : option device)
    (s : a2dp_stream_setup) : bool :=
  match setup_session s with
  | Some session => handle_eqb (a2dp_get_dev env session) dev
  | None => false
  end.

Definition find_setup_by_dev (env : environment) (dev : option device)
    (l : list a2dp_stream_setup) : option (nat * a2dp_stream_setup) :=
  find_from (setup_has_dev env dev) l 0.

(** [cb->id == id]: the [int] field against the [unsigned int]
    argument, compared as unsigned. *)
Definition cb_has_id (id : Z) (c : a2dp_stream_cb) : bool :=
  uint32 (cb_ident c) =? id.

Definition set_setup_stream (s : a2dp_stream_setup)
    (v : option avdtp_stream) : a2dp_stream_setup :=
  mk_a2dp_stream_setup (setup_session s) (setup_sep s) v
    (setup_media_codec s) (setup_start s) (setup_canceled s) (setup_cb s).

Definition set_setup_cb (s : a2dp_stream_setup)
    (v : list a2dp_stream_cb) : a2dp_stream_setup :=
  mk_a2dp_stream_setup (setup_session s) (setup_sep s) (setup_stream s)
    (setup_media_codec s) (setup_start s) (setup_canceled s) v.

(** The two stores under [if (!setup->cb)]. *)
Definition mark_canceled (s : a2dp_stream_setup) : a2dp_stream_setup :=
  mk_a2dp_stream_setup (setup_session s) None (setup_stream s)
    (setup_media_codec s) (setup_start s) true (setup_cb s).

Definition a2dp_source_cancel_stream (env : environment)
    (dev : option device) (id : Z) (st : a2dp_state) : bool * a2dp_state :=
  match find_setup_by_dev env dev (setups st) with
  | None => (false, st)
  | Some (k, setup) =>
    match find (cb_has_id id) (setup_cb setup) with
    | None => (false, st)
    | Some _ =>
      let setup1 :=
        set_setup_cb setup (remove_first (cb_has_id id) (setup_cb setup)) in
      let setup2 :=
        match setup_cb setup1 with
        | [] => mark_canceled setup1
        | _ :: _ => setup1
        end in
      (true,
       mk_a2dp_state (sources st) (update_nth k setup2 (setups st))
         (cb_id st))
    end
  end.

(** ** The other confirmations *)

(** The common head of [open_cfm], [start_cfm] and [reconf_cfm] for a
    canceled setup: close the stream unless the confirmation carries an
    error, then free the setup. *)
Definition drop_canceled (session : avdtp) (stream : option avdtp_stream)
    (err : option Z) (setup : a2dp_stream_setup) (i : nat)
    (l : list a2dp_stream_setup) : list a2dp_stream_setup * list effect :=
  let '(l', freed) := stream_setup_free setup (Some i) l in
  (l', match err with
       | None => avdtp_close session stream :: freed
       | Some _ => freed
       end).

Definition open_cfm (env : environment) (session : avdtp)
    (stream : option avdtp_stream) (err : option Z)
    (l : list a2dp_stream_setup) : list a2dp_stream_setup * list effect :=
  match find_setup_by_session session l with
  | None => (l, [])
  | Some (i, setup) =>
    if setup_canceled setup then drop_canceled session stream err setup i l
    else
      match err with
      | Some _ =>
        finalize_stream_setup (set_setup_stream setup None) (Some i) l
      | None =>
        if setup_start setup then
          if rc_start env session stream =? 0
          then (l, [avdtp_start session stream])
          else
            let '(l', e) :=
              finalize_stream_setup (set_setup_stream setup None) (Some i) l in
            (l', avdtp_start session stream :: e)
        else finalize_stream_setup setup (Some i) l
      end
  end.

Definition start_cfm (session : avdtp) (stream : option avdtp_stream)
    (err : option Z) (l : list a2dp_stream_setup)
  : list a2dp_stream_setup * list effect :=
  match find_setup_by_session session l with
  | None => (l, [])
  | Some (i, setup) =>
    if setup_canceled setup then drop_canceled session stream err setup i l
    else
      match err with
      | Some _ =>
        finalize_stream_setup (set_setup_stream setup None) (Some i) l
      | None => finalize_stream_setup setup (Some i) l
      end
  end.

Definition close_cfm (env : environment) (session : avdtp)
    (stream : option avdtp_stream) (err : option Z)
    (l : list a2dp_stream_setup) : list a2dp_stream_setup * list effect :=
  match find_setup_by_session session l with
  | None => (l, [])
  | Some (i, setup) =>
    if setup_canceled setup then stream_setup_free setup (Some i) l
    else
      match err with
      | Some _ =>
        finalize_stream_setup (set_setup_stream setup None) (Some i) l
      | None =>
        if setup_start setup then
          if rc_discover env session =? 0
          then (l, [avdtp_discover session])
          else
            let '(l', e) :=
              finalize_stream_setup (set_setup_stream setup None) (Some i) l in
            (l', avdtp_discover session :: e)
        else finalize_stream_setup setup (Some i) l
      end
  end.

Definition reconf_cfm (env : environment) (session : avdtp)
    (stream : option avdtp_stream) (err : option Z)
    (l : list a2dp_stream_setup) : list a2dp_stream_setup * list effect :=
  match find_setup_by_session session l with
  | None => (l, [])
  | Some (i, setup) =>
    if setup_canceled setup then drop_canceled session stream err setup i l
    else
      match err with
      | Some _ =>
        finalize_stream_setup (set_setup_stream setup None) (Some i) l
      | None =>
        if setup_start setup then
          if rc_start env session stream =? 0
          then (l, [avdtp_start session stream])
          else
            let '(l', e) :=
              finalize_stream_setup (set_setup_stream setup None) (Some i) l in
            (l', avdtp_start session stream :: e)
        else finalize_stream_setup setup (Some i) l
      end
  end.

Definition abort_ind (a2dp_sep_ : a2dp_sep) : ind_result * a2dp_sep :=
  (Accept, set_sep_stream a2dp_sep_ None).

(** ** Starting and suspending by session *)

(** Modelled from the spec: the order of the enumerators of
    [avdtp_state_t], as the data model lists them; [state < AVDTP_STATE_OPEN]
    compares these numbers. *)
Definition avdtp_state_rank (s : avdtp_state_t) : Z :=
  match s with
  | AVDTP_STATE_IDLE => 0
  | AVDTP_STATE_CONFIGURED => 1
  | AVDTP_STATE_OPEN => 2
  | AVDTP_STATE_STREAMING => 3
  | AVDTP_STATE_CLOSING => 4
  | AVDTP_STATE_ABORTING => 5
  end.

Definition avdtp_state_is_streaming (s : avdtp_state_t) : bool :=
  match s with AVDTP_STATE_STREAMING => true | _ => false end.

(** [tmp->session && tmp->session == session]. *)
Definition sep_bound_to (session : avdtp) (tmp : a2dp_sep) : bool :=
  match sep_session tmp with
  | Some s => s =? session
  | None => false
  end.

Definition a2dp_source_suspend (env : environment) (session : avdtp)
    (l : list a2dp_sep) : bool * list a2dp_sep * list effect :=
  match find_from (sep_bound_to session) l 0 with
  | None => (false, l, [])
  | Some (i, sep) =>
    let state := avdtp_sep_get_state (sep_lsep sep) in
    match sep_stream sep with
    | None => (true, l, [])
    | Some _ =>
      if negb (avdtp_state_is_streaming state) then (true, l, [])
      else if rc_suspend env (Some session) (sep_stream sep) =? 0
      then (true, update_nth i (set_sep_suspending sep true) l,
            [avdtp_suspend (Some session) (sep_stream sep)])
      else (false, l, [avdtp_suspend (Some session) (sep_stream sep)])
    end
  end.

Definition a2dp_source_start_stream (env : environment) (session : avdtp)
    (l : list a2dp_sep) : bool * list effect :=
  match find_from (sep_bound_to session) l 0 with
  | None => (false, [])
  | Some (_, sep) =>
    let state := avdtp_sep_get_state (sep_lsep sep) in
    if avdtp_state_rank state <? avdtp_state_rank AVDTP_STATE_OPEN
    then (false, [])
    else if avdtp_state_is_streaming state then (true, [])
    else if rc_start env session (sep_stream sep) <? 0
    then (false, [avdtp_start session (sep_stream sep)])
    else (true, [avdtp_start session (sep_stream sep)])
  end.

(** ** Capabilities offered and selected *)

(** [getcap_ind]: the list written through [caps], a media transport
    followed by the SBC media codec with the full local set. *)
Definition getcap_ind : ind_result * list avdtp_service_capability :=
  (Accept,
   [mk_avdtp_service_capability AVDTP_MEDIA_TRANSPORT sbc_cap_zero;
    mk_avdtp_service_capability AVDTP_MEDIA_CODEC local_sbc_cap]).

(** A [struct avdtp_remote_sep *]. *)
Definition avdtp_remote_sep : Type := Z.

(** What the AVDTP library answers to the calls of the discovery path:
    the pair of matching SEPs ([None] for a negative return), the codec
    capability of a remote SEP ([None] for NULL), the [int] returned by
    [avdtp_open], and for [avdtp_set_configuration] the [int] returned
    together with the stream left behind its last argument, given the
    stream that was there. *)
Record discovery_environment : Type := mk_discovery_environment {
  avdtp_get_seps : avdtp -> option (avdtp_local_sep * avdtp_remote_sep);
  avdtp_get_codec : avdtp_remote_sep -> option avdtp_service_capability;
  rc_open : avdtp -> option avdtp_stream -> Z;
  set_configuration_result :
    avdtp -> avdtp_remote_sep -> avdtp_local_sep ->
    list avdtp_service_capability -> option avdtp_stream ->
    Z * option avdtp_stream
}.

(** The calls of the discovery path: those of [effect], and three more. *)
Inductive call : Type :=
| made (e : effect)
| avdtp_open (session : avdtp) (stream : option avdtp_stream)
| avdtp_set_configuration (session : avdtp) (rsep : avdtp_remote_sep)
    (lsep : avdtp_local_sep) (caps : list avdtp_service_capability)
| sink_new_stream_to (dev : option device) (session : avdtp)
    (stream : option avdtp_stream).

(** [a2dp_select_capabilities]: the result and the list behind [caps].
    The value [select_sbc_params] returns is not looked at. *)
Definition a2dp_select_capabilities (denv : discovery_environment)
    (session : avdtp) (rsep : avdtp_remote_sep)
    (caps : list avdtp_service_capability) (l : list a2dp_stream_setup)
  : bool * list avdtp_service_capability :=
  match find_setup_by_session session l with
  | None => (false, caps)
  | Some (_, setup) =>
    let chosen :=
      match setup_media_codec setup with
      | Some preferred => Some (data preferred)
      | None =>
        match avdtp_get_codec denv rsep with
        | None => None
        | Some media_codec => Some (snd (select_sbc_params (data media_codec)))
        end
      end in
    match chosen with
    | None => (false, caps)
    | Some sbc_cap =>
      (true,
       (caps ++ [mk_avdtp_service_capability AVDTP_MEDIA_TRANSPORT
                   sbc_cap_zero])
       ++ [mk_avdtp_service_capability AVDTP_MEDIA_CODEC sbc_cap])
    end
  end.

Definition finalize_calls (r : list a2dp_stream_setup * list effect)
  : list a2dp_stream_setup * list call :=
  (fst r, map made (snd r)).

(** [discovery_complete]: [err] is the [int] the discovery ended with. *)
Definition discovery_complete (denv : discovery_environment)
    (session : avdtp) (err : Z) (l : list a2dp_stream_setup)
  : list a2dp_stream_setup * list call :=
  match find_setup_by_session session l with
  | None => (l, [])
  | Some (i, setup) =>
    if (err <? 0) || setup_canceled setup then
      finalize_calls
        (finalize_stream_setup (set_setup_stream setup None) (Some i) l)
    else
      match avdtp_get_seps denv session with
      | None => finalize_calls (finalize_stream_setup setup (Some i) l)
      | Some (lsep, rsep) =>
        match a2dp_select_capabilities denv session rsep [] l with
        | (false, _) =>
          finalize_calls (finalize_stream_setup setup (Some i) l)
        | (true, caps) =>
          let '(rc, stream') :=
            set_configuration_result denv session rsep lsep caps
              (setup_stream setup) in
          let setup' := set_setup_stream setup stream' in
          let issued := avdtp_set_configuration session rsep lsep caps in
          if rc <? 0 then
            let '(l', e) :=
              finalize_calls (finalize_stream_setup setup' (Some i) l) in
            (l', issued :: e)
          else (update_nth i setup' l, [issued])
        end
      end
  end.

Definition setconf_cfm (env : environment) (denv : discovery_environment)
    (session : avdtp) (stream : option avdtp_stream) (err : option Z)
    (a2dp_sep_ : a2dp_sep) (l : list a2dp_stream_setup)
  : a2dp_sep * list a2dp_stream_setup * list call :=
  let found := find_setup_by_session session l in
  match err with
  | Some _ =>
    match found with
    | Some (i, setup) =>
      let '(l', e) :=
        finalize_calls (finalize_stream_setup setup (Some i) l) in
      (a2dp_sep_, l', e)
    | None => (a2dp_sep_, l, [])
    end
  | None =>
    let listener :=
      made (avdtp_stream_add_cb session stream (sep_lsep a2dp_sep_)) in
    let sep' := set_sep_stream a2dp_sep_ stream in
    match found with
    | None => (sep', l, [listener])
    | Some (i, setup) =>
      let notified :=
        sink_new_stream_to (a2dp_get_dev env session) session
          (setup_stream setup) in
      if rc_open denv session stream <? 0 then
        let '(l', e) :=
          finalize_calls
            (finalize_stream_setup (set_setup_stream setup None) (Some i) l) in
        (sep', l', listener :: notified :: avdtp_open session stream :: e)
      else (sep', l, [listener; notified; avdtp_open session stream])
    end
  end.

(** ** Registration *)

(** The file-scope variables [sources], [sinks], [source_record_id] and
    [sink_record_id], and the number of registrations attempted so far,
    which tells the answers of the collaborators apart. *)
Record a2dp_pool : Type := mk_a2dp_pool {
  pool_sources : list a2dp_sep;
  pool_sinks : list a2dp_sep;
  source_record_id : Z;
  sink_record_id : Z;
  attempts : nat
}.

(** What the collaborators answer to the n-th registration:
    [avdtp_register_sep] (NULL is [None]), [sdp_gen_record_pdu] and
    [add_service_record]. *)
Record registration_environment : Type := mk_registration_environment {
  avdtp_register_sep_result : nat -> avdtp_sep_type -> option avdtp_local_sep;
  sdp_gen_record_pdu_result : nat -> Z;
  add_service_record_result : nat -> avdtp_sep_type -> Z
}.

Inductive registration_call : Type :=
| dbus_connection_ref
| dbus_connection_unref
| avdtp_init
| avdtp_register_sep (type : avdtp_sep_type)
    (answer : option avdtp_local_sep)
| avdtp_unregister_sep (lsep : avdtp_local_sep)
| sdp_gen_record_pdu
| add_service_record (type : avdtp_sep_type)
| remove_service_record (id : Z).

(** What the record builder called through [create_record] returns, and
    whether it has written the caller's [sdp_buf_t]. [a2dp_source_record]
    returns -1 when [sdp_gen_record_pdu] fails and 0 when it has filled
    the buffer; [a2dp_sink_record] returns 0 and never touches the
    buffer. *)
Definition create_record (renv : registration_environment) (n : nat)
    (type : avdtp_sep_type) : Z * bool * list registration_call :=
  match type with
  | AVDTP_SEP_TYPE_SOURCE =>
    let failed := sdp_gen_record_pdu_result renv n <? 0 in
    (if failed then -1 else 0, negb failed, [sdp_gen_record_pdu])
  | AVDTP_SEP_TYPE_SINK => (0, false, [])
  end.

Definition record_id_of (type : avdtp_sep_type) (p : a2dp_pool) : Z :=
  match type with
  | AVDTP_SEP_TYPE_SOURCE => source_record_id p
  | AVDTP_SEP_TYPE_SINK => sink_record_id p
  end.

(** [g_new0] followed by the stores of [sep->sep] and [sep->type]. *)
Definition new_sep (type : avdtp_sep_type) (lsep : avdtp_local_sep) : a2dp_sep :=
  mk_a2dp_sep type lsep None None 0 false false false.

(** The label [add] of [a2dp_add_sep], with the record id to keep. *)
Definition pool_add (type : avdtp_sep_type) (sep : a2dp_sep) (id : Z)
    (p : a2dp_pool) : a2dp_pool :=
  match type with
  | AVDTP_SEP_TYPE_SOURCE =>
    mk_a2dp_pool (pool_sources p ++ [sep]) (pool_sinks p) id
      (sink_record_id p) (S (attempts p))
  | AVDTP_SEP_TYPE_SINK =>
    mk_a2dp_pool (pool_sources p) (pool_sinks p ++ [sep])
      (source_record_id p) id (S (attempts p))
  end.

(** A failing path of [a2dp_add_sep]: the pools stay, the record id may
    have been overwritten with 0. *)
Definition pool_skip (type : avdtp_sep_type) (id : Z) (p : a2dp_pool)
  : a2dp_pool :=
  match type with
  | AVDTP_SEP_TYPE_SOURCE =>
    mk_a2dp_pool (pool_sources p) (pool_sinks p) id (sink_record_id p)
      (S (attempts p))
  | AVDTP_SEP_TYPE_SINK =>
    mk_a2dp_pool (pool_sources p) (pool_sinks p) (source_record_id p) id
      (S (attempts p))
  end.

(** [a2dp_add_sep]. The buffer [buf] is declared without an initialiser,
    so when the record builder has returned without writing it, the calls
    [add_service_record (conn, &buf)] and [free (buf.data)] read an
    indeterminate object: the C run has no defined result, which is
    [None] here. *)
Definition a2dp_add_sep (renv : registration_environment)
    (type : avdtp_sep_type) (p : a2dp_pool)
  : option (option a2dp_sep * a2dp_pool * list registration_call) :=
  let n := attempts p in
  match avdtp_register_sep_result renv n type with
  | None =>
    Some (None, pool_skip type (record_id_of type p) p,
          [avdtp_register_sep type None])
  | Some lsep =>
    let sep := new_sep type lsep in
    if negb (record_id_of type p =? 0) then
      Some (Some sep, pool_add type sep (record_id_of type p) p,
            [avdtp_register_sep type (Some lsep)])
    else
      let '(rc, written, built) := create_record renv n type in
      if rc <? 0 then
        Some (None, pool_skip type (record_id_of type p) p,
              avdtp_register_sep type (Some lsep)
              :: built ++ [avdtp_unregister_sep lsep])
      else if negb written then None
      else
        let id := uint32 (add_service_record_result renv n type) in
        if id =? 0 then
          Some (None, pool_skip type id p,
                avdtp_register_sep type (Some lsep)
                :: built ++ [add_service_record type;
                             avdtp_unregister_sep lsep])
        else
          Some (Some sep, pool_add type sep id p,
                avdtp_register_sep type (Some lsep)
                :: built ++ [add_service_record type])
  end.

(** The loop [for (i = 0; i < count; i++) a2dp_add_sep(conn, type)]. *)
Fixpoint add_seps (renv : registration_environment) (type : avdtp_sep_type)
    (count : nat) (p : a2dp_pool)
  : option (a2dp_pool * list registration_call) :=
  match count with
  | O => Some (p, [])
  | S k =>
    match a2dp_add_sep renv type p with
    | None => None
    | Some (_, p1, c1) =>
      match add_seps renv type k p1 with
      | None => None
      | Some (p2, c2) => Some (p2, c1 ++ c2)
      end
    end
  end.

(** [a2dp_init (conn, sources, sinks)]; the counts are [int]s. *)
Definition a2dp_init (renv : registration_environment) (n_sources n_sinks : Z)
    (p : a2dp_pool) : option (Z * a2dp_pool * list registration_call) :=
  if (n_sources =? 0) && (n_sinks =? 0) then Some (0, p, [])
  else
    match add_seps renv AVDTP_SEP_TYPE_SOURCE (Z.to_nat n_sources) p with
    | None => None
    | Some (p1, c1) =>
      match add_seps renv AVDTP_SEP_TYPE_SINK (Z.to_nat n_sinks) p1 with
      | None => None
      | Some (p2, c2) =>
        Some (0, p2, dbus_connection_ref :: avdtp_init :: c1 ++ c2)
      end
    end.

Definition a2dp_exit (p : a2dp_pool) : a2dp_pool * list registration_call :=
  (mk_a2dp_pool [] [] 0 0 (attempts p),
   map (fun s => avdtp_unregister_sep (sep_lsep s)) (pool_sinks p)
   ++ map (fun s => avdtp_unregister_sep (sep_lsep s)) (pool_sources p)
   ++ (if negb (source_record_id p =? 0)
       then [remove_service_record (source_record_id p)] else [])
   ++ (if negb (sink_record_id p =? 0)
       then [remove_service_record (sink_record_id p)] else [])
   ++ [dbus_connection_unref]).

(** ** Invariants of the setup list *)

(** At most one setup per session. *)
Definition sessions_distinct (l : list a2dp_stream_setup) : Prop :=
  NoDup (map setup_session l).

(** A canceled setup has no waiting callback. *)
Definition canceled_is_empty (s : a2dp_stream_setup) : Prop :=
  setup_canceled s = true -> setup_cb s = [].

Definition canceled_are_empty (l : list a2dp_stream_setup) : Prop :=
  Forall canceled_is_empty l.

(** The four ways in which an operation of the coordinator changes the
    setup list: not at all, by freeing one setup, by storing into one
    setup without touching its session, or by appending a setup, not
    canceled, for a session that had none. *)
Inductive setups_step (l : list a2dp_stream_setup)
  : list a2dp_stream_setup -> Prop :=
| step_same : setups_step l l
| step_removed (i : nat) : setups_step l (remove_nth i l)
| step_replaced (k : nat) (s s' : a2dp_stream_setup) :
    nth_error l k = Some s ->
    setup_session s' = setup_session s ->
    (canceled_is_empty s -> canceled_is_empty s') ->
    setups_step l (update_nth k s' l)
| step_appended (session : avdtp) (s' : a2dp_stream_setup) :
    find_setup_by_session session l = None ->
    setup_session s' = Some session ->
    setup_canceled s' = false ->
    setups_step l (l ++ [s']).

(** The client callbacks invoked in a trace, in order: callback, stream
    handed over, user data. *)
Definition callbacks_invoked (l : list effect)
  : list (Z * option avdtp_stream * Z) :=
  flat_map (fun e => match e with
                     | setup_callback cb _ _ stream user_data =>
                       [(cb, stream, user_data)]
                     | _ => []
                     end) l.

(** ** Reading a trace *)

(** References taken on a session minus references released. *)
Fixpoint ref_balance (session : avdtp) (l : list effect) : Z :=
  match l with
  | [] => 0
  | avdtp_ref s :: t =>
    (if s =? session then 1 else 0) + ref_balance session t
  | avdtp_unref s :: t =>
    (if s =? session then -1 else 0) + ref_balance session t
  | _ :: t => ref_balance session t
  end.

(** The calls of the first kind among those of the discovery path. *)
Definition effects_of (l : list call) : list effect :=
  flat_map (fun c => match c with made e => [e] | _ => [] end) l.

(** The configurations sent. *)
Definition configurations_sent (l : list call)
  : list (list avdtp_service_capability) :=
  flat_map (fun c => match c with
                     | avdtp_set_configuration _ _ _ caps => [caps]
                     | _ => []
                     end) l.

(** Registrations that yielded a SEP, and SEPs unregistered. *)
Definition registered (l : list registration_call) : list avdtp_local_sep :=
  flat_map (fun c => match c with
                     | avdtp_register_sep _ (Some lsep) => [lsep]
                     | _ => []
                     end) l.

Definition unregistered (l : list registration_call) : list avdtp_local_sep :=
  flat_map (fun c => match c with
                     | avdtp_unregister_sep lsep => [lsep]
                     | _ => []
                     end) l.


(** The SEPs of both pools, by their AVDTP handles. *)
Definition pooled (p : a2dp_pool) : list avdtp_local_sep :=
  map sep_lsep (pool_sources p) ++ map sep_lsep (pool_sinks p).

(** Two capabilities that agree on all that the bitpool check reads:
    category, codec type and the two bitpool bytes. *)
Definition same_bitpool_view (a b : avdtp_service_capability) : Prop :=
  category a = category b /\
  cap_media_codec_type (data a) = cap_media_codec_type (data b) /\
  min_bitpool (data a) = min_bitpool (data b) /\
  max_bitpool (data a) = max_bitpool (data b).

End A2dp.

Module Hid.

(** ** Constants *)

Definition L2CAP_PSM_HIDP_CTRL : Z := 17.
Definition L2CAP_PSM_HIDP_INTR : Z := 19.
Definition MAX_READ_BUFFER : Z := 4096.

(** GLib's [GIOCondition] bits. *)
Definition G_IO_IN : Z := 1.
Definition G_IO_ERR : Z := 8.
Definition G_IO_HUP : Z := 16.
Definition G_IO_NVAL : Z := 32.

(** Modelled from the spec: the statuses and opcodes of [hal-msg.h], which
    is not among the sources. The command surface names three statuses and
    two opcodes; every other opcode byte is [HAL_OP_OTHER]. *)
Inductive hal_status : Type :=
| HAL_STATUS_SUCCESS
| HAL_STATUS_FAILED
| HAL_STATUS_INVALID.

Inductive hal_opcode : Type :=
| HAL_OP_HID_CONNECT
| HAL_OP_HID_DISCONNECT
| HAL_OP_OTHER (opcode : Z).

(** Modelled from the spec: [struct hal_cmd_hid_connect] holds the six
    bytes of the peer address and nothing else, so this is its [sizeof]. *)
Definition sizeof_hal_cmd_hid_connect : Z := 6.

(** The service id of [hal-msg.h] under which the responses are sent. *)
Definition HAL_SERVICE_ID_HIDHOST : Z := 3.

(** ** Data *)

Definition GIOChannel : Type := Z.
Definition guint : Type := Z.

(** A [bdaddr_t]: six bytes. *)
Definition bdaddr_t : Type := list Z.

(** [bacmp]: [memcmp] over the six bytes; the callers only test it against
    zero. *)
Definition bacmp (a b : bdaddr_t) : Z :=
  if list_eq_dec Z.eq_dec a b then 0 else 1.

Record hid_device : Type := mk_hid_device {
  dst : bdaddr_t;
  ctrl_io : option GIOChannel;
  intr_io : option GIOChannel;
  ctrl_watch : guint;
  intr_watch : guint
}.

(** What the collaborators answer: the address conversion of [utils.h],
    the two [bt_io_connect] calls (the channel returned and whether [err]
    was set), the ids [g_io_add_watch] hands out and what [read] returns. *)
Record environment : Type := mk_environment {
  android2bdaddr : list Z -> bdaddr_t;
  bt_io_connect_ctrl : bdaddr_t -> option GIOChannel * bool;
  bt_io_connect_intr : bdaddr_t -> option GIOChannel;
  g_io_add_watch_id : GIOChannel -> guint;
  read_result : GIOChannel -> Z
}.

Inductive effect : Type :=
| bt_io_connect (psm : Z) (dest : bdaddr_t)
| g_io_add_watch (chan : option GIOChannel) (cond : Z)
| g_io_channel_shutdown (chan : GIOChannel) (flush : bool)
| g_io_channel_unref (chan : GIOChannel)
| g_source_remove (id : guint)
| read_fd (chan : GIOChannel) (count : Z)
| ipc_send_rsp (io : GIOChannel) (service_id : Z) (status : hal_status).

Definition set_ctrl_io (h : hid_device) (v : option GIOChannel) : hid_device :=
  mk_hid_device (dst h) v (intr_io h) (ctrl_watch h) (intr_watch h).

Definition set_intr_io (h : hid_device) (v : option GIOChannel) : hid_device :=
  mk_hid_device (dst h) (ctrl_io h) v (ctrl_watch h) (intr_watch h).

Definition set_ctrl_watch (h : hid_device) (v : guint) : hid_device :=
  mk_hid_device (dst h) (ctrl_io h) (intr_io h) v (intr_watch h).

Definition set_intr_watch (h : hid_device) (v : guint) : hid_device :=
  mk_hid_device (dst h) (ctrl_io h) (intr_io h) (ctrl_watch h) v.

(** [g_io_channel_unref] of a nullable field. *)
Definition unref_opt (c : option GIOChannel) : list effect :=
  match c with Some ch => [g_io_channel_unref ch] | None => [] end.

(** ** Device table *)

(** [device_cmp] as [g_slist_find_custom] uses it. *)
Definition device_cmp (hdev : hid_device) (addr : bdaddr_t) : Z :=
  bacmp (dst hdev) addr.

Fixpoint g_slist_find_custom (l : list hid_device) (addr : bdaddr_t)
  : option hid_device :=
  match l with
  | [] => None
  | h :: t => if device_cmp h addr =? 0 then Some h
              else g_slist_find_custom t addr
  end.

(** [hid_device_free]: [at_] is where the record stands in [devices],
    [None] when it was never appended. *)
Definition hid_device_free (hdev : hid_device) (at_ : option nat)
    (devices : list hid_device) : list hid_device * list effect :=
  ((match at_ with
    | Some i => remove_nth i devices
    | None => devices
    end),
   (if ctrl_watch hdev >? 0 then [g_source_remove (ctrl_watch hdev)] else [])
   ++ (if intr_watch hdev >? 0 then [g_source_remove (intr_watch hdev)] else [])
   ++ unref_opt (intr_io hdev) ++ unref_opt (ctrl_io hdev)).

(** ** Watches *)

Definition intr_io_watch_cb (env : environment) (chan : GIOChannel)
  : bool * list effect :=
  if read_result env chan <? 0 then (true, [read_fd chan MAX_READ_BUFFER])
  else (true, [read_fd chan MAX_READ_BUFFER]).

Definition intr_watch_cb (env : environment) (chan : GIOChannel) (cond : Z)
    (hdev : hid_device) : bool * hid_device * list effect :=
  if has_bit cond G_IO_IN then
    let '(r, e) := intr_io_watch_cb env chan in (r, hdev, e)
  else
    let e1 :=
      if has_bit cond (Z.lor G_IO_HUP G_IO_ERR)
         && negb (ctrl_watch hdev =? 0)
      then [g_io_channel_shutdown chan true] else [] in
    let hdev1 := set_intr_watch hdev 0 in
    let e2 := unref_opt (intr_io hdev1) in
    let hdev2 :=
      match intr_io hdev1 with
      | Some _ => set_intr_io hdev1 None
      | None => hdev1
      end in
    let e3 :=
      match ctrl_io hdev2 with
      | Some c => if negb (has_bit cond G_IO_NVAL)
                  then [g_io_channel_shutdown c true] else []
      | None => []
      end in
    (false, hdev2, e1 ++ e2 ++ e3).

Definition ctrl_watch_cb (chan : GIOChannel) (cond : Z) (hdev : hid_device)
  : bool * hid_device * list effect :=
  let e1 :=
    if has_bit cond (Z.lor G_IO_HUP G_IO_ERR) && negb (intr_watch hdev =? 0)
    then [g_io_channel_shutdown chan true] else [] in
  let hdev1 := set_ctrl_watch hdev 0 in
  let e2 := unref_opt (ctrl_io hdev1) in
  let hdev2 :=
    match ctrl_io hdev1 with
    | Some _ => set_ctrl_io hdev1 None
    | None => hdev1
    end in
  let e3 :=
    match intr_io hdev2 with
    | Some c => if negb (has_bit cond G_IO_NVAL)
                then [g_io_channel_shutdown c true] else []
    | None => []
    end in
  (false, hdev2, e1 ++ e2 ++ e3).

(** ** Connecting *)

(** [interrupt_connect_cb]: [conn_err] tells whether the [GError] is set.
    The shutdown under [if (!conn_err)] after the label [failed] cannot
    run, the label being reached only with the error set. *)
Definition interrupt_connect_cb (env : environment) (conn_err : bool)
    (hdev : hid_device) : hid_device * list effect :=
  if conn_err then
    let e1 := unref_opt (intr_io hdev) in
    let hdev1 := set_intr_io hdev None in
    match ctrl_io hdev1 with
    | Some c => (set_ctrl_io hdev1 None, e1 ++ [g_io_channel_unref c])
    | None => (hdev1, e1)
    end
  else
    let cond := Z.lor G_IO_IN (Z.lor G_IO_HUP (Z.lor G_IO_ERR G_IO_NVAL)) in
    (set_intr_watch hdev
       (match intr_io hdev with
        | Some c => g_io_add_watch_id env c
        | None => 0
        end),
     [g_io_add_watch (intr_io hdev) cond]).

(** [control_connect_cb]: on success the interrupt connect is started and
    the control watch installed; both failures drop the control channel. *)
Definition control_connect_cb (env : environment) (conn_err : bool)
    (hdev : hid_device) : hid_device * list effect :=
  if conn_err then
    (set_ctrl_io hdev None, unref_opt (ctrl_io hdev))
  else
    let call := bt_io_connect L2CAP_PSM_HIDP_INTR (dst hdev) in
    let hdev1 := set_intr_io hdev (bt_io_connect_intr env (dst hdev)) in
    match intr_io hdev1 with
    | None => (set_ctrl_io hdev1 None, call :: unref_opt (ctrl_io hdev1))
    | Some _ =>
      let cond := Z.lor G_IO_HUP (Z.lor G_IO_ERR G_IO_NVAL) in
      (set_ctrl_watch hdev1
         (match ctrl_io hdev1 with
          | Some c => g_io_add_watch_id env c
          | None => 0
          end),
       [call; g_io_add_watch (ctrl_io hdev1) cond])
    end.

(** [bt_hid_connect (cmd, len)]: [cmd] is the command buffer, whose first
    six bytes are [cmd->bdaddr]. *)
Definition bt_hid_connect (env : environment) (cmd : list Z) (len : Z)
    (devices : list hid_device)
  : hal_status * list hid_device * list effect :=
  if len <? sizeof_hal_cmd_hid_connect then (HAL_STATUS_INVALID, devices, [])
  else
    let addr := android2bdaddr env (firstn 6 cmd) in
    match g_slist_find_custom devices addr with
    | Some _ => (HAL_STATUS_FAILED, devices, [])
    | None =>
      let '(io, err) := bt_io_connect_ctrl env addr in
      let hdev := mk_hid_device addr io None 0 0 in
      let call := bt_io_connect L2CAP_PSM_HIDP_CTRL addr in
      if err then
        let '(devices', freed) := hid_device_free hdev None devices in
        (HAL_STATUS_FAILED, devices', call :: freed)
      else (HAL_STATUS_SUCCESS, devices ++ [hdev], [call])
    end.

Definition bt_hid_handle_cmd (env : environment) (io : GIOChannel)
    (opcode : hal_opcode) (buf : list Z) (len : Z)
    (devices : list hid_device) : list hid_device * list effect :=
  let '(status, devices', calls) :=
    match opcode with
    | HAL_OP_HID_CONNECT => bt_hid_connect env buf len devices
    | HAL_OP_HID_DISCONNECT => (HAL_STATUS_FAILED, devices, [])
    | HAL_OP_OTHER _ => (HAL_STATUS_FAILED, devices, [])
    end in
  (devices', calls ++ [ipc_send_rsp io HAL_SERVICE_ID_HIDHOST status]).

(** ** The event loop's view *)

(** What the main loop can deliver: an IPC command, the completion of one
    of the two connects of the device at a position of the table, or one of
    its two watches firing on the watched channel. *)
Inductive event : Type :=
| ev_cmd (io : GIOChannel) (opcode : hal_opcode) (buf : list Z) (len : Z)
| ev_control_connect (i : nat) (conn_err : bool)
| ev_interrupt_connect (i : nat) (conn_err : bool)
| ev_intr_watch (i : nat) (cond : Z)
| ev_ctrl_watch (i : nat) (cond : Z).

Definition on_device (i : nat) (devices : list hid_device)
    (f : hid_device -> hid_device * list effect)
  : list hid_device * list effect :=
  match nth_error devices i with
  | Some h => let '(h', e) := f h in (update_nth i h' devices, e)
  | None => (devices, [])
  end.

Definition dispatch (env : environment) (ev : event)
    (devices : list hid_device) : list hid_device * list effect :=
  match ev with
  | ev_cmd io opcode buf len => bt_hid_handle_cmd env io opcode buf len devices
  | ev_control_connect i conn_err =>
    on_device i devices (control_connect_cb env conn_err)
  | ev_interrupt_connect i conn_err =>
    on_device i devices (interrupt_connect_cb env conn_err)
  | ev_intr_watch i cond =>
    on_device i devices
      (fun h => match intr_io h with
                | Some chan =>
                  let '(_, h', e) := intr_watch_cb env chan cond h in (h', e)
                | None => (h, [])
                end)
  | ev_ctrl_watch i cond =>
    on_device i devices
      (fun h => match ctrl_io h with
                | Some chan =>
                  let '(_, h', e) := ctrl_watch_cb chan cond h in (h', e)
                | None => (h, [])
                end)
  end.

Fixpoint run (env : environment) (evs : list event)
    (devices : list hid_device) : list hid_device * list effect :=
  match evs with
  | [] => (devices, [])
  | ev :: rest =>
    let '(d1, e1) := dispatch env ev devices in
    let '(d2, e2) := run env rest d1 in
    (d2, e1 ++ e2)
  end.

(** The statuses sent over IPC, in order. *)
Definition ipc_responses (l : list effect) : list hal_status :=
  flat_map (fun e => match e with
                     | ipc_send_rsp _ _ st => [st]
                     | _ => []
                     end) l.

(** A channel of the device is open. *)
Definition some_channel_open (h : hid_device) : bool :=
  match ctrl_io h, intr_io h with
  | None, None => false
  | _, _ => true
  end.

(** How often a channel is shut down in a trace. *)
Fixpoint shutdowns (c : GIOChannel) (l : list effect) : nat :=
  match l with
  | [] => 0
  | g_io_channel_shutdown c' _ :: t =>
    ((if Z.eqb c' c then 1 else 0) + shutdowns c t)%nat
  | _ :: t => shutdowns c t
  end.

End Hid.

(** * Scenarios *)

Module Scenario.
Import A2dp.

(** The scenario of the specification: remote capability (freq=0x03,
    mode=0x03, blk=0x0F, sub=0x03, alloc=0x03, min=2, max=50). *)
Definition scenario_remote_cap : sbc_codec_cap :=
  mk_sbc_codec_cap 0 0 3 3 15 3 3 2 50.

(** A remote capability with every selectable bit and the bitpool range
    60..64. *)
Definition narrow_remote_cap : sbc_codec_cap :=
  mk_sbc_codec_cap 0 0 15 15 15 3 3 60 64.

(** A remote capability whose allocation-method field is empty; the other
    four fields offer 44.1 kHz, joint stereo, 16 blocks and 8 subbands. *)
Definition remote_without_allocation : sbc_codec_cap :=
  mk_sbc_codec_cap 0 0 2 1 1 1 0 2 50.

(** Collaborators for the scenarios: the peer of [session] is known as
    device 100 when [known] is set; a stream belongs to the session with
    the same number; every request is accepted with the given code. *)
Definition scenario_env (known : bool) (rc : Z) : environment :=
  mk_environment (fun session => session)
    (fun _ => if known then Some 100 else None)
    (fun session stream => session =? stream)
    (fun _ _ => true)
    (fun _ => rc) (fun _ _ => rc) (fun _ _ => rc) (fun _ _ => rc).

(** A configuration with a media transport and an SBC media codec of the
    given bitpool range. *)
Definition scenario_caps (lo hi : Z) : list avdtp_service_capability :=
  [mk_avdtp_service_capability AVDTP_MEDIA_TRANSPORT sbc_cap_zero;
   mk_avdtp_service_capability AVDTP_MEDIA_CODEC
     (mk_sbc_codec_cap 0 0 2 1 1 1 1 lo hi)].

(** A source SEP in the given AVDTP state holding stream 7. *)
Definition scenario_sep (state : avdtp_state_t) (is_locked is_suspending : bool)
    (timer : guint) : a2dp_sep :=
  mk_a2dp_sep AVDTP_SEP_TYPE_SOURCE (mk_avdtp_local_sep 1 state) (Some 7)
    (Some 7) timer is_locked is_suspending false.

(** An idle source SEP with no stream. *)
Definition idle_sep (is_locked : bool) : a2dp_sep :=
  mk_a2dp_sep AVDTP_SEP_TYPE_SOURCE (mk_avdtp_local_sep 1 AVDTP_STATE_IDLE)
    None None 0 is_locked false false.

(** A setup of session 7 on SEP 0 with one waiting callback. *)
Definition scenario_setup (do_start is_canceled : bool) : a2dp_stream_setup :=
  mk_a2dp_stream_setup (Some 7) (Some 0%nat) (Some 7) None do_start
    is_canceled [mk_a2dp_stream_cb 11 12 1].

(** The daemon with one source SEP and the given setups and counter. *)
Definition scenario_state (sep : a2dp_sep) (l : list a2dp_stream_setup)
    (counter : Z) : a2dp_state :=
  mk_a2dp_state [sep] l counter.

(** Collaborators of the discovery path: the session has the matching
    pair (local SEP 1, remote SEP 9) when [paired]; the remote SEP offers
    the given codec; [avdtp_open] and [avdtp_set_configuration] return
    [rc], the latter leaving stream 8 behind. *)
Definition scenario_denv (paired : bool)
    (codec : option avdtp_service_capability) (rc : Z)
  : discovery_environment :=
  mk_discovery_environment
    (fun _ => if paired
              then Some (mk_avdtp_local_sep 1 AVDTP_STATE_IDLE, 9)
              else None)
    (fun _ => codec)
    (fun _ _ => rc)
    (fun _ _ _ _ _ => (rc, Some 8)).

(** The remote capability of the first scenario as a service capability. *)
Definition scenario_codec : avdtp_service_capability :=
  mk_avdtp_service_capability AVDTP_MEDIA_CODEC scenario_remote_cap.

(** A remote codec capability that offers no sampling frequency. *)
Definition codec_without_frequency : avdtp_service_capability :=
  mk_avdtp_service_capability AVDTP_MEDIA_CODEC
    (mk_sbc_codec_cap 0 0 0 15 15 3 3 2 50).

(** A setup of session 7 with two waiting callbacks. *)
Definition two_callbacks_setup (do_start is_canceled : bool)
  : a2dp_stream_setup :=
  mk_a2dp_stream_setup (Some 7) (Some 0%nat) (Some 7) None do_start
    is_canceled [mk_a2dp_stream_cb 11 12 1; mk_a2dp_stream_cb 21 22 2].

(** Collaborators of the registration: the registration numbered
    [failing] yields no SEP, the n-th of the others yields the SEP with
    handle n; records are built and published under the id 65536 + n. *)
Definition scenario_renv (failing : nat) : registration_environment :=
  mk_registration_environment
    (fun n _ => if Nat.eqb n failing then None
                else Some (mk_avdtp_local_sep (Z.of_nat n) AVDTP_STATE_IDLE))
    (fun _ => 0)
    (fun n _ => 65536 + Z.of_nat n).

(** The daemon before [a2dp_init]. *)
Definition empty_pool : a2dp_pool := mk_a2dp_pool [] [] 0 0 0.

End Scenario.

Module HidScenario.
Import Hid.

(** The peer AA:BB:CC:DD:EE:FF as the command carries it. *)
Definition scenario_bdaddr : list Z := [170; 187; 204; 221; 238; 255].

(** Collaborators for the scenarios: addresses are byte-swapped, the
    control connect yields channel 50 (or fails at once when [ctrl_fails]),
    the interrupt connect yields channel 51, a watch on channel [c] gets
    the id [c + 100]. *)
Definition scenario_env (ctrl_fails : bool) : environment :=
  mk_environment (@rev Z)
    (fun _ => if ctrl_fails then (None, true) else (Some 50, false))
    (fun _ => Some 51)
    (fun c => c + 100)
    (fun _ => 0).

(** Bring-up of the scenario followed by a hangup on the interrupt
    channel and the hangup it causes on the control channel. *)
Definition bring_up_and_hang_up : list event :=
  [ev_cmd 1 HAL_OP_HID_CONNECT scenario_bdaddr 6;
   ev_control_connect 0 false;
   ev_interrupt_connect 0 false;
   ev_intr_watch 0 G_IO_HUP;
   ev_ctrl_watch 0 G_IO_HUP].

End HidScenario.

(** * Properties *)

Import A2dp.
Import Scenario.

(** ** Bit tests *)

Lemma has_bit_true (x m : Z) : has_bit x m = true <-> Z.land x m <> 0.
Proof.
  unfold has_bit. rewrite negb_true_iff, Z.eqb_neq. tauto.
Qed.

Lemma has_bit_false (x m : Z) : has_bit x m = false <-> Z.land x m = 0.
Proof.
  unfold has_bit. rewrite negb_false_iff, Z.eqb_eq. tauto.
Qed.

Lemma has_bit_lor (x a b : Z) :
  has_bit x (Z.lor a b) = has_bit x a || has_bit x b.
Proof.
  unfold has_bit. rewrite Z.land_lor_distr_r.
  destruct (Z.land x a =? 0) eqn:Ea, (Z.land x b =? 0) eqn:Eb; simpl;
    rewrite ?Z.eqb_eq, ?Z.eqb_neq in *.
  - apply negb_false_iff, Z.eqb_eq. rewrite Ea, Eb. reflexivity.
  - apply negb_true_iff, Z.eqb_neq. rewrite Z.lor_eq_0_iff. tauto.
  - apply negb_true_iff, Z.eqb_neq. rewrite Z.lor_eq_0_iff. tauto.
  - apply negb_true_iff, Z.eqb_neq. rewrite Z.lor_eq_0_iff. tauto.
Qed.

(** A bit of the local mask is in the intersection exactly when the remote
    mask has it. *)
Lemma has_bit_common (local remote b : Z) :
  Z.land local b = b ->
  has_bit (Z.land local remote) b = has_bit remote b.
Proof.
  intros Hb. unfold has_bit.
  rewrite (Z.land_comm local remote), <- Z.land_assoc, Hb. reflexivity.
Qed.

(** ** The chains of [select_sbc_params] against the preference orders *)

Lemma pick_frequency_first_common (f : Z) :
  pick_frequency f
  = spec_first_common spec_frequency_order (frequency local_sbc_cap) f.
Proof.
  unfold pick_frequency, spec_first_common, spec_frequency_order. cbn [find].
  rewrite !has_bit_common by reflexivity. reflexivity.
Qed.

Lemma pick_channel_mode_first_common (m : Z) :
  pick_channel_mode m
  = spec_first_common spec_channel_mode_order (channel_mode local_sbc_cap) m.
Proof.
  unfold pick_channel_mode, spec_first_common, spec_channel_mode_order.
  cbn [find]. rewrite !has_bit_common by reflexivity. reflexivity.
Qed.

Lemma pick_block_length_first_common (b : Z) :
  pick_block_length b
  = spec_first_common spec_block_length_order (block_length local_sbc_cap) b.
Proof.
  unfold pick_block_length, spec_first_common, spec_block_length_order.
  cbn [find]. rewrite !has_bit_common by reflexivity. reflexivity.
Qed.

Lemma pick_subbands_first_common (x : Z) :
  pick_subbands x
  = spec_first_common spec_subbands_order (subbands local_sbc_cap) x.
Proof.
  unfold pick_subbands, spec_first_common, spec_subbands_order.
  cbn [find]. rewrite !has_bit_common by reflexivity. reflexivity.
Qed.

Lemma pick_allocation_method_first_common (a : Z) :
  pick_allocation_method a
  = spec_first_common spec_allocation_order
      (allocation_method local_sbc_cap) a.
Proof.
  unfold pick_allocation_method, spec_first_common, spec_allocation_order.
  cbn [find]. rewrite !has_bit_common by reflexivity. reflexivity.
Qed.

(** A chain yields a value exactly when the remote mask meets the local
    one, and the value is then one of the bits of the order. *)
Ltac split_mask H :=
  apply has_bit_true in H; cbv [local_sbc_cap frequency channel_mode
    block_length subbands allocation_method] in H;
  rewrite !has_bit_lor in H.

Ltac walk_chain :=
  repeat match goal with
         | |- context [if has_bit ?x ?m then _ else _] =>
           destruct (has_bit x m) eqn:?
         end.

Lemma pick_frequency_some (f : Z) :
  Z.land f (frequency local_sbc_cap) <> 0 ->
  exists b, pick_frequency f = Some b /\ In b spec_frequency_order.
Proof.
  intros H. split_mask H. unfold pick_frequency, spec_frequency_order.
  walk_chain; try (eexists; split; [reflexivity | simpl; tauto]).
  simpl in H. discriminate.
Qed.

Lemma pick_channel_mode_some (m : Z) :
  Z.land m (channel_mode local_sbc_cap) <> 0 ->
  exists b, pick_channel_mode m = Some b /\ In b spec_channel_mode_order.
Proof.
  intros H. split_mask H. unfold pick_channel_mode, spec_channel_mode_order.
  walk_chain; try (eexists; split; [reflexivity | simpl; tauto]).
  simpl in H. discriminate.
Qed.

Lemma pick_block_length_some (x : Z) :
  Z.land x (block_length local_sbc_cap) <> 0 ->
  exists b, pick_block_length x = Some b /\ In b spec_block_length_order.
Proof.
  intros H. split_mask H. unfold pick_block_length, spec_block_length_order.
  walk_chain; try (eexists; split; [reflexivity | simpl; tauto]).
  simpl in H. discriminate.
Qed.

Lemma pick_subbands_some (x : Z) :
  Z.land x (subbands local_sbc_cap) <> 0 ->
  exists b, pick_subbands x = Some b /\ In b spec_subbands_order.
Proof.
  intros H. split_mask H. unfold pick_subbands, spec_subbands_order.
  walk_chain; try (eexists; split; [reflexivity | simpl; tauto]).
  simpl in H. discriminate.
Qed.

Lemma pick_allocation_method_some (x : Z) :
  Z.land x (allocation_method local_sbc_cap) <> 0 ->
  exists b, pick_allocation_method x = Some b /\ In b spec_allocation_order.
Proof.
  intros H. split_mask H.
  unfold pick_allocation_method, spec_allocation_order.
  walk_chain; try (eexists; split; [reflexivity | simpl; tauto]).
  simpl in H. discriminate.
Qed.

Lemma pick_frequency_none (f : Z) :
  pick_frequency f = None <-> Z.land f (frequency local_sbc_cap) = 0.
Proof.
  split.
  - intros H. destruct (Z.eq_dec (Z.land f (frequency local_sbc_cap)) 0)
      as [E | E]; [exact E |].
    destruct (pick_frequency_some f E) as (b & Hb & _). congruence.
  - intros H. apply has_bit_false in H.
    cbv [local_sbc_cap frequency] in H. rewrite !has_bit_lor in H.
    repeat (apply orb_false_iff in H; destruct H as [? H]).
    unfold pick_frequency.
    repeat match goal with E : has_bit _ _ = false |- _ =>
             rewrite E; clear E end.
    reflexivity.
Qed.

Lemma pick_channel_mode_none (m : Z) :
  pick_channel_mode m = None <-> Z.land m (channel_mode local_sbc_cap) = 0.
Proof.
  split.
  - intros H. destruct (Z.eq_dec (Z.land m (channel_mode local_sbc_cap)) 0)
      as [E | E]; [exact E |].
    destruct (pick_channel_mode_some m E) as (b & Hb & _). congruence.
  - intros H. apply has_bit_false in H.
    cbv [local_sbc_cap channel_mode] in H. rewrite !has_bit_lor in H.
    repeat (apply orb_false_iff in H; destruct H as [? H]).
    unfold pick_channel_mode.
    repeat match goal with E : has_bit _ _ = false |- _ =>
             rewrite E; clear E end.
    reflexivity.
Qed.

Lemma pick_block_length_none (x : Z) :
  pick_block_length x = None <-> Z.land x (block_length local_sbc_cap) = 0.
Proof.
  split.
  - intros H. destruct (Z.eq_dec (Z.land x (block_length local_sbc_cap)) 0)
      as [E | E]; [exact E |].
    destruct (pick_block_length_some x E) as (b & Hb & _). congruence.
  - intros H. apply has_bit_false in H.
    cbv [local_sbc_cap block_length] in H. rewrite !has_bit_lor in H.
    repeat (apply orb_false_iff in H; destruct H as [? H]).
    unfold pick_block_length.
    repeat match goal with E : has_bit _ _ = false |- _ =>
             rewrite E; clear E end.
    reflexivity.
Qed.

Lemma pick_subbands_none (x : Z) :
  pick_subbands x = None <-> Z.land x (subbands local_sbc_cap) = 0.
Proof.
  split.
  - intros H. destruct (Z.eq_dec (Z.land x (subbands local_sbc_cap)) 0)
      as [E | E]; [exact E |].
    destruct (pick_subbands_some x E) as (b & Hb & _). congruence.
  - intros H. apply has_bit_false in H.
    cbv [local_sbc_cap subbands] in H. rewrite !has_bit_lor in H.
    repeat (apply orb_false_iff in H; destruct H as [? H]).
    unfold pick_subbands.
    repeat match goal with E : has_bit _ _ = false |- _ =>
             rewrite E; clear E end.
    reflexivity.
Qed.

(** ** Bitpool arithmetic *)

Lemma MAX_is_max (x y : Z) : MAX x y = Z.max x y.
Proof. unfold MAX. destruct (Z.gtb_spec x y); lia. Qed.

Lemma MIN_is_min (x y : Z) : MIN x y = Z.min x y.
Proof. unfold MIN. destruct (Z.ltb_spec x y); lia. Qed.

Lemma uint8_small (z : Z) : 0 <= z < 256 -> uint8 z = z.
Proof. intros H. unfold uint8. apply Z.mod_small. exact H. Qed.

Lemma default_bitpool_range (f m : Z) : 29 <= default_bitpool f m <= 53.
Proof.
  unfold default_bitpool.
  repeat match goal with
         | |- context [if ?b then _ else _] => destruct b
         end; lia.
Qed.

(** On the bits the chains can select, [default_bitpool] is the table of
    the specification. *)
Lemma default_bitpool_table (f m : Z) :
  In f spec_frequency_order -> In m spec_channel_mode_order ->
  spec_default_bitpool f m = Some (default_bitpool f m).
Proof.
  unfold spec_frequency_order, spec_channel_mode_order. simpl.
  intros [<- | [<- | [<- | [<- | []]]]] [<- | [<- | [<- | [<- | []]]]];
    reflexivity.
Qed.

(** C1. For every remote capability that meets the full local set in each
    field, [select_sbc_params] succeeds and selects, per field, the first
    bit of the preference order (44.1 kHz, 48 kHz, 32 kHz, 16 kHz; joint
    stereo, stereo, dual channel, mono; 16, 12, 8, 4 blocks; 8, 4 subbands;
    loudness, SNR) that lies in the intersection; the minimum bitpool is
    max(2, remote minimum) and the maximum bitpool is min(remote maximum,
    table value for the selected frequency and mode). *)
Theorem select_sbc_params_preference (supported : sbc_codec_cap) :
  sbc_cap_wf supported ->
  Z.land (frequency supported) (frequency local_sbc_cap) <> 0 ->
  Z.land (channel_mode supported) (channel_mode local_sbc_cap) <> 0 ->
  Z.land (block_length supported) (block_length local_sbc_cap) <> 0 ->
  Z.land (subbands supported) (subbands local_sbc_cap) <> 0 ->
  Z.land (allocation_method supported) (allocation_method local_sbc_cap) <> 0 ->
  exists cap,
    select_sbc_params supported = (true, cap) /\
    spec_first_common spec_frequency_order
      (frequency local_sbc_cap) (frequency supported) = Some (frequency cap) /\
    spec_first_common spec_channel_mode_order
      (channel_mode local_sbc_cap) (channel_mode supported)
      = Some (channel_mode cap) /\
    spec_first_common spec_block_length_order
      (block_length local_sbc_cap) (block_length supported)
      = Some (block_length cap) /\
    spec_first_common spec_subbands_order
      (subbands local_sbc_cap) (subbands supported) = Some (subbands cap) /\
    spec_first_common spec_allocation_order
      (allocation_method local_sbc_cap) (allocation_method supported)
      = Some (allocation_method cap) /\
    min_bitpool cap = Z.max 2 (min_bitpool supported) /\
    exists table,
      spec_default_bitpool (frequency cap) (channel_mode cap) = Some table /\
      max_bitpool cap = Z.min (max_bitpool supported) table.
Proof.
  intros (_ & _ & _ & _ & _ & Hlo & Hhi) Hf Hm Hb Hs Ha.
  destruct (pick_frequency_some _ Hf) as (f & Ef & If).
  destruct (pick_channel_mode_some _ Hm) as (m & Em & Im).
  destruct (pick_block_length_some _ Hb) as (b & Eb & _).
  destruct (pick_subbands_some _ Hs) as (s & Es & _).
  destruct (pick_allocation_method_some _ Ha) as (a & Ea & _).
  unfold select_sbc_params. rewrite Ef, Em, Eb, Es, Ea.
  eexists. split; [reflexivity |].
  rewrite <- pick_frequency_first_common, <- pick_channel_mode_first_common,
    <- pick_block_length_first_common, <- pick_subbands_first_common,
    <- pick_allocation_method_first_common.
  cbn [frequency channel_mode block_length subbands allocation_method
       min_bitpool max_bitpool set_bitpool set_allocation_method set_subbands
       set_block_length set_channel_mode set_frequency set_cap_header
       sbc_cap_zero].
  repeat (split; [assumption |]).
  pose proof (default_bitpool_range f m) as Hd.
  rewrite MAX_is_max, MIN_is_min. unfold MIN_BITPOOL.
  split.
  - apply uint8_small. lia.
  - exists (default_bitpool f m). split.
    + apply default_bitpool_table; assumption.
    + rewrite uint8_small by lia. lia.
Qed.

Lemma select_sbc_params_preference_witness :
  exists cap,
    select_sbc_params scenario_remote_cap = (true, cap) /\
    spec_first_common spec_frequency_order
      (frequency local_sbc_cap) (frequency scenario_remote_cap)
      = Some (frequency cap) /\
    spec_first_common spec_channel_mode_order
      (channel_mode local_sbc_cap) (channel_mode scenario_remote_cap)
      = Some (channel_mode cap) /\
    spec_first_common spec_block_length_order
      (block_length local_sbc_cap) (block_length scenario_remote_cap)
      = Some (block_length cap) /\
    spec_first_common spec_subbands_order
      (subbands local_sbc_cap) (subbands scenario_remote_cap)
      = Some (subbands cap) /\
    spec_first_common spec_allocation_order
      (allocation_method local_sbc_cap) (allocation_method scenario_remote_cap)
      = Some (allocation_method cap) /\
    min_bitpool cap = Z.max 2 (min_bitpool scenario_remote_cap) /\
    exists table,
      spec_default_bitpool (frequency cap) (channel_mode cap) = Some table /\
      max_bitpool cap = Z.min (max_bitpool scenario_remote_cap) table.
Proof.
  apply (select_sbc_params_preference scenario_remote_cap).
  - unfold sbc_cap_wf; simpl; lia.
  - vm_compute; discriminate.
  - vm_compute; discriminate.
  - vm_compute; discriminate.
  - vm_compute; discriminate.
  - vm_compute; discriminate.
Defined.

(** The same scenario, evaluated: 44.1 kHz, joint stereo, 16 blocks,
    8 subbands, loudness, bitpool 2..50. *)
Example select_sbc_params_scenario :
  select_sbc_params scenario_remote_cap
  = (true, mk_sbc_codec_cap AVDTP_MEDIA_TYPE_AUDIO A2DP_CODEC_SBC
             A2DP_SAMPLING_FREQ_44100 A2DP_CHANNEL_MODE_JOINT_STEREO
             A2DP_BLOCK_LENGTH_16 A2DP_SUBBANDS_8 A2DP_ALLOCATION_LOUDNESS
             2 50).
Proof. reflexivity. Qed.

(** ** Failure of the selector *)

(** X1. [select_sbc_params] returns FALSE exactly when the frequency, channel
    mode, block length or subbands intersection is empty; the allocation
    method plays no part. *)
Lemma select_sbc_params_fails_iff (supported : sbc_codec_cap) :
  fst (select_sbc_params supported) = false <->
  Z.land (frequency supported) (frequency local_sbc_cap) = 0 \/
  Z.land (channel_mode supported) (channel_mode local_sbc_cap) = 0 \/
  Z.land (block_length supported) (block_length local_sbc_cap) = 0 \/
  Z.land (subbands supported) (subbands local_sbc_cap) = 0.
Proof.
  rewrite <- pick_frequency_none, <- pick_channel_mode_none,
    <- pick_block_length_none, <- pick_subbands_none.
  unfold select_sbc_params.
  destruct (pick_frequency _), (pick_channel_mode _), (pick_block_length _),
    (pick_subbands _); simpl; split; intros H;
    try discriminate; try tauto;
    repeat (destruct H as [H | H]; try discriminate).
Qed.

(** C3. At a remote capability whose allocation-method intersection with
    the local set is empty, and whose other fields are not,
    [select_sbc_params] returns TRUE and leaves the allocation method
    zero. *)
Theorem select_sbc_params_empty_allocation :
  Z.land (allocation_method remote_without_allocation)
    (allocation_method local_sbc_cap) = 0 /\
  select_sbc_params remote_without_allocation
  = (true, mk_sbc_codec_cap AVDTP_MEDIA_TYPE_AUDIO A2DP_CODEC_SBC
             A2DP_SAMPLING_FREQ_44100 A2DP_CHANNEL_MODE_JOINT_STEREO
             A2DP_BLOCK_LENGTH_16 A2DP_SUBBANDS_8 0 2 50).
Proof. split; reflexivity. Qed.

(** ** Bitpool range of accepted configurations *)

Lemma bitpool_out_of_range_spec (caps : list avdtp_service_capability) :
  bitpool_out_of_range caps = spec_bitpool_leaves_range caps.
Proof.
  unfold spec_bitpool_leaves_range, first_media_codec.
  induction caps as [| c rest IH]; simpl.
  - reflexivity.
  - destruct (category c =? AVDTP_MEDIA_CODEC).
    + destruct (cap_media_codec_type (data c) =? A2DP_CODEC_SBC); reflexivity.
    + exact IH.
Qed.

(** [setconf_ind] accepts only behind both of its guards. *)
Lemma setconf_ind_accept_inv (env : environment) (session : avdtp)
    (stream : option avdtp_stream) (caps : list avdtp_service_capability)
    (sep sep' : a2dp_sep) (calls : list effect) :
  setconf_ind env session stream caps sep = (Accept, sep', calls) ->
  a2dp_get_dev env session <> None /\ bitpool_out_of_range caps = false.
Proof.
  unfold setconf_ind. destruct (a2dp_get_dev env session).
  - destruct (bitpool_out_of_range caps); intros H.
    + discriminate.
    + split; [discriminate | reflexivity].
  - discriminate.
Qed.

(** C2, as the code has it. Every configuration [select_sbc_params]
    produces has a minimum bitpool of at least 2 and a maximum of at most
    64, and so has every SBC configuration [setconf_ind] accepts (the first
    media-codec capability of the list); neither path orders the minimum
    below the maximum. *)
Theorem accepted_bitpool_bounds :
  (forall supported cap : sbc_codec_cap,
      sbc_cap_wf supported ->
      select_sbc_params supported = (true, cap) ->
      2 <= min_bitpool cap /\ max_bitpool cap <= 64) /\
  (forall (env : environment) (session : avdtp)
          (stream : option avdtp_stream)
          (caps : list avdtp_service_capability) (sep sep' : a2dp_sep)
          (calls : list effect) (c : avdtp_service_capability),
      setconf_ind env session stream caps sep = (Accept, sep', calls) ->
      first_media_codec caps = Some c ->
      cap_media_codec_type (data c) = A2DP_CODEC_SBC ->
      2 <= min_bitpool (data c) /\ max_bitpool (data c) <= 64).
Proof.
  split.
  - intros supported cap (_ & _ & _ & _ & _ & Hlo & Hhi).
    unfold select_sbc_params.
    destruct (pick_frequency _) as [f |]; [| discriminate].
    destruct (pick_channel_mode _) as [m |]; [| discriminate].
    destruct (pick_block_length _) as [b |]; [| discriminate].
    destruct (pick_subbands _) as [s |]; [| discriminate].
    intros H. injection H as <-.
    match goal with
    | |- context [default_bitpool ?a ?b] =>
      pose proof (default_bitpool_range a b) as Hd;
      set (d := default_bitpool a b) in *
    end.
    cbn [min_bitpool max_bitpool set_bitpool].
    rewrite MAX_is_max, MIN_is_min. unfold MIN_BITPOOL.
    rewrite !uint8_small by lia. lia.
  - intros env session stream caps sep sep' calls c Hacc Hfirst Hsbc.
    apply setconf_ind_accept_inv in Hacc. destruct Hacc as [_ Hrange].
    rewrite bitpool_out_of_range_spec in Hrange.
    unfold spec_bitpool_leaves_range in Hrange.
    rewrite Hfirst, Hsbc, Z.eqb_refl in Hrange. simpl in Hrange.
    apply orb_false_iff in Hrange. destruct Hrange as [Hlo Hhi].
    apply Z.ltb_ge in Hlo. rewrite Z.gtb_ltb in Hhi. apply Z.ltb_ge in Hhi.
    unfold MIN_BITPOOL in Hlo. unfold MAX_BITPOOL in Hhi. lia.
Qed.

Lemma accepted_bitpool_bounds_witness :
  (2 <= 2 /\ 50 <= 64) /\ (2 <= 2 /\ 64 <= 64).
Proof.
  split.
  - apply (proj1 accepted_bitpool_bounds scenario_remote_cap
             (mk_sbc_codec_cap 0 0 2 1 1 1 1 2 50)).
    + unfold sbc_cap_wf; simpl; lia.
    + reflexivity.
  - apply (proj2 accepted_bitpool_bounds (scenario_env true 0) 7 (Some 7)
             (scenario_caps 2 64) (idle_sep false)
             (set_sep_stream (idle_sep false) (Some 7))
             [avdtp_stream_add_cb 7 (Some 7) (sep_lsep (idle_sep false));
              sink_new_stream 100 7 (Some 7)]
             (mk_avdtp_service_capability AVDTP_MEDIA_CODEC
                (mk_sbc_codec_cap 0 0 2 1 1 1 1 2 64))).
    + reflexivity.
    + reflexivity.
    + reflexivity.
Defined.

(** C2, refuted as stated. From a remote range 60..64 the selector makes
    the range 60..53, and [setconf_ind] accepts the offered range 10..5:
    in both the minimum exceeds the maximum. *)
Lemma accepted_bitpool_unordered :
  (fst (select_sbc_params narrow_remote_cap) = true /\
   min_bitpool (snd (select_sbc_params narrow_remote_cap)) = 60 /\
   max_bitpool (snd (select_sbc_params narrow_remote_cap)) = 53 /\
   ~ (2 <= min_bitpool (snd (select_sbc_params narrow_remote_cap)) /\
      min_bitpool (snd (select_sbc_params narrow_remote_cap))
      <= max_bitpool (snd (select_sbc_params narrow_remote_cap)) /\
      max_bitpool (snd (select_sbc_params narrow_remote_cap)) <= 64)) /\
  (fst (fst (setconf_ind (scenario_env true 0) 7 (Some 7)
               (scenario_caps 10 5) (idle_sep false))) = Accept /\
   exists c,
     first_media_codec (scenario_caps 10 5) = Some c /\
     cap_media_codec_type (data c) = A2DP_CODEC_SBC /\
     ~ (2 <= min_bitpool (data c) /\
        min_bitpool (data c) <= max_bitpool (data c) /\
        max_bitpool (data c) <= 64)).
Proof.
  split.
  - repeat split; try reflexivity. vm_compute. intros (_ & H & _). apply H.
    reflexivity.
  - split; [reflexivity |]. eexists. repeat split; try reflexivity.
    vm_compute. intros (_ & H & _). apply H. reflexivity.
Qed.

(** ** The set-configuration indication *)

(** C7, as the code has it. When the peer of the session is not a connected
    device the indication is rejected with UNSUPPORTED_CONFIGURATION and
    category 0x00, whatever the bitpool. Otherwise: if the first
    media-codec capability is SBC with a minimum bitpool under 2 or a
    maximum over 64 the indication is rejected with
    UNSUPPORTED_CONFIGURATION and category media-codec; if not, it is
    accepted, the [stream_state_changed] listener is attached, the stream
    is recorded in the SEP and, for a SOURCE SEP, the sink consumer is
    told of the new stream. Every rejection leaves the SEP as it was. *)
Theorem setconf_ind_decision (env : environment) (session : avdtp)
    (stream : option avdtp_stream) (caps : list avdtp_service_capability)
    (sep : a2dp_sep) :
  (a2dp_get_dev env session = None ->
   setconf_ind env session stream caps sep
   = (Reject AVDTP_UNSUPPORTED_CONFIGURATION 0, sep, [])) /\
  (forall dev : device,
      a2dp_get_dev env session = Some dev ->
      spec_bitpool_leaves_range caps = true ->
      setconf_ind env session stream caps sep
      = (Reject AVDTP_UNSUPPORTED_CONFIGURATION AVDTP_MEDIA_CODEC, sep, [])) /\
  (forall dev : device,
      a2dp_get_dev env session = Some dev ->
      spec_bitpool_leaves_range caps = false ->
      setconf_ind env session stream caps sep
      = (Accept, set_sep_stream sep stream,
         avdtp_stream_add_cb session stream (sep_lsep sep)
         :: match sep_type sep with
            | AVDTP_SEP_TYPE_SOURCE => [sink_new_stream dev session stream]
            | AVDTP_SEP_TYPE_SINK => []
            end)).
Proof.
  unfold setconf_ind. rewrite bitpool_out_of_range_spec.
  repeat split.
  - intros ->. reflexivity.
  - intros dev -> ->. reflexivity.
  - intros dev -> ->. destruct (sep_type sep); reflexivity.
Qed.

Lemma setconf_ind_decision_witness :
  setconf_ind (scenario_env true 0) 7 (Some 9) (scenario_caps 1 64)
    (idle_sep false)
  = (Reject AVDTP_UNSUPPORTED_CONFIGURATION AVDTP_MEDIA_CODEC,
     idle_sep false, []) /\
  setconf_ind (scenario_env true 0) 7 (Some 9) (scenario_caps 2 64)
    (idle_sep false)
  = (Accept, set_sep_stream (idle_sep false) (Some 9),
     [avdtp_stream_add_cb 7 (Some 9) (sep_lsep (idle_sep false));
      sink_new_stream 100 7 (Some 9)]).
Proof.
  split.
  - apply (proj1 (proj2 (setconf_ind_decision (scenario_env true 0) 7
                           (Some 9) (scenario_caps 1 64) (idle_sep false)))
             100); reflexivity.
  - apply (proj2 (proj2 (setconf_ind_decision (scenario_env true 0) 7
                           (Some 9) (scenario_caps 2 64) (idle_sep false)))
             100); reflexivity.
Defined.

(** C7, refuted as stated. With no connected device behind the session, a
    configuration whose bitpool range is 2..64 is rejected all the same,
    and one whose minimum is 1 is rejected with category 0x00, which is
    not the media-codec category. *)
Lemma setconf_ind_unknown_device :
  spec_bitpool_leaves_range (scenario_caps 2 64) = false /\
  setconf_ind (scenario_env false 0) 7 (Some 9) (scenario_caps 2 64)
    (idle_sep false)
  = (Reject AVDTP_UNSUPPORTED_CONFIGURATION 0, idle_sep false, []) /\
  spec_bitpool_leaves_range (scenario_caps 1 64) = true /\
  setconf_ind (scenario_env false 0) 7 (Some 9) (scenario_caps 1 64)
    (idle_sep false)
  = (Reject AVDTP_UNSUPPORTED_CONFIGURATION 0, idle_sep false, []) /\
  0 <> AVDTP_MEDIA_CODEC.
Proof.
  repeat split; try reflexivity. discriminate.
Qed.

(** ** Lock and unlock *)

Lemma a2dp_sep_unlock_clears_locked (env : environment) (sep : a2dp_sep)
    (session : avdtp) :
  sep_locked (snd (fst (a2dp_sep_unlock env sep session))) = false.
Proof.
  unfold a2dp_sep_unlock.
  destruct (sep_stream (set_sep_locked sep false));
    destruct (avdtp_sep_get_state (sep_lsep sep)); try reflexivity.
  destruct (rc_suspend env _ _ =? 0); reflexivity.
Qed.

(** In STREAMING, unlock issues suspend and sets [suspending] when the
    request is accepted. *)
Lemma a2dp_sep_unlock_streaming (env : environment) (sep : a2dp_sep)
    (session : avdtp) (st : avdtp_stream) :
  sep_stream sep = Some st ->
  avdtp_sep_get_state (sep_lsep sep) = AVDTP_STATE_STREAMING ->
  rc_suspend env (Some session) (Some st) = 0 ->
  a2dp_sep_unlock env sep session
  = (true, set_sep_suspending (set_sep_locked sep false) true,
     [avdtp_suspend (Some session) (Some st)]).
Proof.
  intros Hs Hstate Hrc. unfold a2dp_sep_unlock. cbn [sep_stream set_sep_locked].
  rewrite Hs, Hstate, Hrc. reflexivity.
Qed.

(** With no stream or in IDLE, unlock only clears the flag. *)
Lemma a2dp_sep_unlock_idle (env : environment) (sep : a2dp_sep)
    (session : avdtp) :
  sep_stream sep = None \/
  avdtp_sep_get_state (sep_lsep sep) = AVDTP_STATE_IDLE ->
  a2dp_sep_unlock env sep session = (true, set_sep_locked sep false, []).
Proof.
  intros H. unfold a2dp_sep_unlock. cbn [sep_stream set_sep_locked].
  destruct H as [-> | ->]; [reflexivity |]. destruct (sep_stream sep); reflexivity.
Qed.

(** X8. A successful lock followed by unlock on an IDLE SEP gives the SEP
    back: every field is as before the lock and no call is made. *)
Lemma a2dp_sep_lock_unlock_idle (env : environment) (sep sep1 : a2dp_sep)
    (session : avdtp) :
  avdtp_sep_get_state (sep_lsep sep) = AVDTP_STATE_IDLE ->
  a2dp_sep_lock sep session = (true, sep1) ->
  a2dp_sep_unlock env sep1 session = (true, sep, []).
Proof.
  intros Hidle. unfold a2dp_sep_lock.
  destruct (sep_locked sep) eqn:Hl; [discriminate |].
  intros H. injection H as <-.
  rewrite a2dp_sep_unlock_idle by (right; exact Hidle).
  destruct sep; simpl in *. subst. reflexivity.
Qed.

(** C6. On an OPEN SEP that holds a stream, [a2dp_sep_unlock] clears the
    lock and does nothing else: no timer is armed ([g_timeout_add] is not
    called, [suspend_timer] stays zero). *)
Theorem a2dp_sep_unlock_open_arms_nothing :
  a2dp_sep_unlock (scenario_env true 0)
    (scenario_sep AVDTP_STATE_OPEN true false 0) 7
  = (true, scenario_sep AVDTP_STATE_OPEN false false 0, []) /\
  sep_suspend_timer
    (snd (fst (a2dp_sep_unlock (scenario_env true 0)
                 (scenario_sep AVDTP_STATE_OPEN true false 0) 7))) = 0.
Proof. split; reflexivity. Qed.

(** The same holds of every OPEN SEP. *)
Lemma a2dp_sep_unlock_open (env : environment) (sep : a2dp_sep)
    (session : avdtp) :
  avdtp_sep_get_state (sep_lsep sep) = AVDTP_STATE_OPEN ->
  a2dp_sep_unlock env sep session = (true, set_sep_locked sep false, []).
Proof.
  intros H. unfold a2dp_sep_unlock. cbn [sep_stream set_sep_locked].
  rewrite H. destruct (sep_stream sep); reflexivity.
Qed.

(** ** Scanning a list for its first match *)

Lemma find_from_none {A : Type} (p : A -> bool) (l : list A) (n : nat) :
  (forall x, In x l -> p x = false) -> find_from p l n = None.
Proof.
  revert n. induction l as [| a l IH]; intros n H; simpl.
  - reflexivity.
  - rewrite (H a) by (left; reflexivity).
    apply IH. intros x Hx. apply H. right. exact Hx.
Qed.

Lemma find_from_first {A : Type} (p : A -> bool) (l : list A) :
  forall (k n : nat) (x : A),
    nth_error l k = Some x ->
    p x = true ->
    (forall j y, (j < k)%nat -> nth_error l j = Some y -> p y = false) ->
    find_from p l n = Some ((n + k)%nat, x).
Proof.
  induction l as [| a l IH]; intros k n x Hk Hp Hbefore.
  - destruct k; discriminate.
  - destruct k as [| k]; simpl in *.
    + injection Hk as ->. rewrite Hp. rewrite Nat.add_0_r. reflexivity.
    + rewrite (Hbefore 0%nat a) by (simpl; auto; lia).
      rewrite (IH k (S n) x Hk Hp).
      * f_equal. f_equal. lia.
      * intros j y Hj Hy. apply (Hbefore (S j) y); [lia | exact Hy].
Qed.

Lemma find_from_sound {A : Type} (p : A -> bool) (l : list A) :
  forall (n i : nat) (x : A),
    find_from p l n = Some (i, x) ->
    exists k, i = (n + k)%nat /\ nth_error l k = Some x /\ p x = true /\
              forall j y, (j < k)%nat -> nth_error l j = Some y -> p y = false.
Proof.
  induction l as [| a l IH]; intros n i x H; simpl in H.
  - discriminate.
  - destruct (p a) eqn:Hp.
    + injection H as <- <-. exists 0%nat.
      split; [lia |]. split; [reflexivity |]. split; [exact Hp |].
      intros j y Hj. lia.
    + destruct (IH _ _ _ H) as (k & -> & Hk & Hx & Hb).
      exists (S k).
      split; [lia |]. split; [exact Hk |]. split; [exact Hx |].
      intros [| j] y Hj Hy; simpl in Hy.
      * injection Hy as <-. exact Hp.
      * apply (Hb j y); [lia | exact Hy].
Qed.

Lemma update_nth_same {A : Type} (l : list A) :
  forall (n : nat) (x : A), nth_error l n = Some x -> update_nth n x l = l.
Proof.
  induction l as [| a l IH]; intros [| n] x H; simpl in *;
    try discriminate.
  - injection H as ->. reflexivity.
  - rewrite (IH n x H). reflexivity.
Qed.

Lemma sep_available_eligible (env : environment) (session : avdtp)
    (sep : a2dp_sep) :
  sep_available env session sep = spec_eligible env session sep.
Proof.
  unfold sep_available, spec_eligible. destruct (sep_locked sep); reflexivity.
Qed.

(** ** Identifiers *)

Lemma uint32_range (z : Z) : 0 <= uint32 z < 4294967296.
Proof. unfold uint32. apply Z.mod_pos_bound. lia. Qed.

(** Reading back as [unsigned int] what was stored in the [int] field. *)
Lemma uint32_int_of_uint (z : Z) :
  0 <= z < 4294967296 -> uint32 (int_of_uint z) = z.
Proof.
  intros H. unfold uint32, int_of_uint. destruct (Z.ltb_spec z 2147483648).
  - apply Z.mod_small. lia.
  - replace (z - 4294967296) with (z + (-1) * 4294967296) by lia.
    rewrite Z.mod_add by lia. apply Z.mod_small. lia.
Qed.

Lemma next_id_nonzero (n : Z) :
  0 <= n < UINT_MAX -> uint32 (n + 1) <> 0.
Proof.
  unfold UINT_MAX, uint32. intros H. rewrite Z.mod_small by lia. lia.
Qed.

(** ** Requesting a stream *)

(** C4, as the code has it. A source SEP is eligible when it is not locked
    and its stream slot is empty or owned by the session. When none is
    eligible the call returns 0 and changes nothing. Otherwise the first
    eligible SEP in pool order is the target: if a setup already exists
    for the session, the call appends a new callback record, clears
    [canceled], sets the target SEP, ORs in [start], issues no AVDTP
    operation and returns the new id, the counter plus one modulo 2^32,
    which is non-zero as long as the counter is below 2^32 - 1; if none
    exists, a setup is appended only with that SEP as its target. *)
Theorem a2dp_source_request_stream_attach (env : environment)
    (session : avdtp) (start : bool) (cb user_data : Z)
    (media_codec : option avdtp_service_capability) (st : a2dp_state) :
  ((forall sep, In sep (sources st) -> spec_eligible env session sep = false) ->
   a2dp_source_request_stream env session start cb user_data media_codec st
   = (0, st, [])) /\
  (forall (i : nat) (sep : a2dp_sep),
      nth_error (sources st) i = Some sep ->
      spec_eligible env session sep = true ->
      (forall j s, (j < i)%nat -> nth_error (sources st) j = Some s ->
                   spec_eligible env session s = false) ->
      (forall (k : nat) (setup : a2dp_stream_setup),
          find_setup_by_session session (setups st) = Some (k, setup) ->
          a2dp_source_request_stream env session start cb user_data
            media_codec st
          = (uint32 (cb_id st + 1),
             mk_a2dp_state (sources st)
               (update_nth k
                  (mk_a2dp_stream_setup (setup_session setup) (Some i)
                     (setup_stream setup) (setup_media_codec setup)
                     (start || setup_start setup) false
                     (setup_cb setup
                      ++ [mk_a2dp_stream_cb cb user_data
                            (int_of_uint (uint32 (cb_id st + 1)))]))
                  (setups st))
               (uint32 (cb_id st + 1)),
             []) /\
          (0 <= cb_id st < UINT_MAX -> uint32 (cb_id st + 1) <> 0)) /\
      (find_setup_by_session session (setups st) = None ->
       let st' :=
         snd (fst (a2dp_source_request_stream env session start cb user_data
                     media_codec st)) in
       setups st' = setups st \/
       exists setup,
         setups st' = setups st ++ [setup] /\ setup_sep setup = Some i)).
Proof.
  split.
  - intros Hnone. unfold a2dp_source_request_stream.
    rewrite find_from_none; [reflexivity |].
    intros x Hx. rewrite sep_available_eligible. apply Hnone. exact Hx.
  - intros i sep Hi Hel Hbefore.
    assert (Hfind : find_from (sep_available env session) (sources st) 0
                    = Some (i, sep)).
    { apply (find_from_first _ _ i 0%nat sep Hi).
      - rewrite sep_available_eligible. exact Hel.
      - intros j y Hj Hy. rewrite sep_available_eligible.
        apply (Hbefore j y Hj Hy). }
    split.
    + intros k setup Hsetup. split.
      * unfold a2dp_source_request_stream. rewrite Hfind, Hsetup.
        cbn [cb_ident]. rewrite uint32_int_of_uint by apply uint32_range.
        reflexivity.
      * apply next_id_nonzero.
    + intros Hsetup. unfold a2dp_source_request_stream.
      rewrite Hfind, Hsetup.
      destruct (request_dispatch _ _ _ _ _) as [[sep' calls] | calls].
      * right. eexists. split; reflexivity.
      * left. reflexivity.
Qed.

Lemma a2dp_source_request_stream_attach_witness :
  a2dp_source_request_stream (scenario_env true 0) 7 true 21 22 None
    (scenario_state (scenario_sep AVDTP_STATE_OPEN false false 0)
       [scenario_setup false true] 1)
  = (2,
     scenario_state (scenario_sep AVDTP_STATE_OPEN false false 0)
       [mk_a2dp_stream_setup (Some 7) (Some 0%nat) (Some 7) None true false
          [mk_a2dp_stream_cb 11 12 1; mk_a2dp_stream_cb 21 22 2]] 2,
     []).
Proof.
  apply (proj1 (proj1 (proj2 (a2dp_source_request_stream_attach
                                (scenario_env true 0) 7 true 21 22 None
                                (scenario_state
                                   (scenario_sep AVDTP_STATE_OPEN false false 0)
                                   [scenario_setup false true] 1))
                         0%nat (scenario_sep AVDTP_STATE_OPEN false false 0)
                         eq_refl eq_refl
                         (fun j s (Hj : (j < 0)%nat) _ =>
                            match Nat.nlt_0_r j Hj with end))
                  0%nat (scenario_setup false true) eq_refl)).
Defined.

(** C4, refuted as stated. When the counter stands at 2^32 - 1 the
    request is served (the callback record is appended to the waiting
    setup) and the id it returns is 0. *)
Lemma a2dp_source_request_stream_id_wraps :
  a2dp_source_request_stream (scenario_env true 0) 7 true 21 22 None
    (scenario_state (scenario_sep AVDTP_STATE_OPEN false false 0)
       [scenario_setup false true] UINT_MAX)
  = (0,
     scenario_state (scenario_sep AVDTP_STATE_OPEN false false 0)
       [mk_a2dp_stream_setup (Some 7) (Some 0%nat) (Some 7) None true false
          [mk_a2dp_stream_cb 11 12 1; mk_a2dp_stream_cb 21 22 0]] 0,
     []).
Proof. reflexivity. Qed.

(** C5, as the code has it. When [a2dp_source_request_stream] creates a
    new setup on a SEP in state STREAMING: if [start] is false or the SEP
    is not suspending, a pending idle-suspend timer is cancelled and
    finalize is scheduled on the next idle tick; otherwise ([start] set on
    a SEP that is suspending) nothing is scheduled and no timer is
    touched. Either way the setup joins the pending setups. *)
Theorem a2dp_source_request_stream_streaming (env : environment)
    (session : avdtp) (start : bool) (cb user_data : Z)
    (media_codec : option avdtp_service_capability) (st : a2dp_state)
    (i : nat) (sep : a2dp_sep) :
  find_from (sep_available env session) (sources st) 0 = Some (i, sep) ->
  find_setup_by_session session (setups st) = None ->
  avdtp_sep_get_state (sep_lsep sep) = AVDTP_STATE_STREAMING ->
  let id := uint32 (cb_id st + 1) in
  let setup :=
    mk_a2dp_stream_setup (Some session) (Some i) (sep_stream sep)
      media_codec start false
      [mk_a2dp_stream_cb cb user_data (int_of_uint id)] in
  a2dp_source_request_stream env session start cb user_data media_codec st
  = if negb start || negb (sep_suspending sep)
    then (id,
          mk_a2dp_state
            (update_nth i (set_sep_suspend_timer sep 0) (sources st))
            (setups st ++ [setup]) id,
          avdtp_ref session
          :: (if sep_suspend_timer sep =? 0 then []
              else [g_source_remove (sep_suspend_timer sep)])
          ++ [g_idle_add_finalize session])
    else (id,
          mk_a2dp_state (sources st) (setups st ++ [setup]) id,
          [avdtp_ref session]).
Proof.
  intros Hfind Hsetup Hstate id setup.
  unfold a2dp_source_request_stream. rewrite Hfind, Hsetup.
  unfold request_dispatch. rewrite Hstate.
  cbn [cb_ident]. rewrite uint32_int_of_uint by apply uint32_range.
  fold id. fold setup.
  destruct (find_from_sound _ _ _ _ _ Hfind) as (k & Hk & Hnth & _).
  simpl in Hk. subst k.
  destruct (negb start || negb (sep_suspending sep));
    [| rewrite (update_nth_same _ _ _ Hnth); reflexivity].
  destruct (sep_suspend_timer sep =? 0) eqn:Ht; [| reflexivity].
  simpl. apply Z.eqb_eq in Ht.
  replace (set_sep_suspend_timer sep 0) with sep; [reflexivity |].
  destruct sep; simpl in *. subst. reflexivity.
Qed.

Lemma a2dp_source_request_stream_streaming_witness :
  a2dp_source_request_stream (scenario_env true 0) 7 true 21 22 None
    (scenario_state (scenario_sep AVDTP_STATE_STREAMING false false 5) [] 0)
  = (1,
     mk_a2dp_state [scenario_sep AVDTP_STATE_STREAMING false false 0]
       [mk_a2dp_stream_setup (Some 7) (Some 0%nat) (Some 7) None true false
          [mk_a2dp_stream_cb 21 22 1]] 1,
     [avdtp_ref 7; g_source_remove 5; g_idle_add_finalize 7]).
Proof.
  apply (a2dp_source_request_stream_streaming (scenario_env true 0) 7 true
           21 22 None
           (scenario_state (scenario_sep AVDTP_STATE_STREAMING false false 5)
              [] 0)
           0%nat (scenario_sep AVDTP_STATE_STREAMING false false 5)
           eq_refl eq_refl eq_refl).
Defined.

(** C5, refuted as stated. A request with [start] set on a STREAMING SEP
    that is suspending schedules no finalize: the only call made is the
    reference taken on the session, and the setup stays pending. *)
Lemma a2dp_source_request_stream_suspending :
  a2dp_source_request_stream (scenario_env true 0) 7 true 21 22 None
    (scenario_state (scenario_sep AVDTP_STATE_STREAMING false true 0) [] 0)
  = (1,
     mk_a2dp_state [scenario_sep AVDTP_STATE_STREAMING false true 0]
       [mk_a2dp_stream_setup (Some 7) (Some 0%nat) (Some 7) None true false
          [mk_a2dp_stream_cb 21 22 1]] 1,
     [avdtp_ref 7]) /\
  ~ In (g_idle_add_finalize 7)
      (snd (a2dp_source_request_stream (scenario_env true 0) 7 true 21 22
              None
              (scenario_state
                 (scenario_sep AVDTP_STATE_STREAMING false true 0) [] 0))).
Proof.
  split; [reflexivity |]. simpl. intros [H | []]. discriminate.
Qed.

(** ** The suspend confirmation *)




(** The flag plays no part: a canceled setup and the same setup not
    canceled draw the same calls from [suspend_cfm]. *)
Lemma suspend_cfm_ignores_canceled (env : environment) (session : avdtp)
    (stream : option avdtp_stream) (sep : a2dp_sep)
    (s : a2dp_stream_setup) (rest : list a2dp_stream_setup) :
  let flip (b : bool) :=
    mk_a2dp_stream_setup (setup_session s) (setup_sep s) (setup_stream s)
      (setup_media_codec s) (setup_start s) b (setup_cb s) in
  snd (suspend_cfm env session stream None sep (flip true :: rest))
  = snd (suspend_cfm env session stream None sep (flip false :: rest)).
Proof.
  intros flip. unfold suspend_cfm, find_setup_by_session. cbn [find_from].
  unfold setup_has_session. cbn [flip setup_session].
  destruct (setup_session s) as [s' |].
  - destruct (s' =? session).
    + cbn [setup_start]. destruct (setup_start s); [| reflexivity].
      destruct (rc_start env session stream <? 0); reflexivity.
    + destruct (find_from _ rest 1) as [[k x] |]; [| reflexivity].
      destruct (setup_start x); [| reflexivity].
      destruct (rc_start env session stream <? 0); reflexivity.
  - destruct (find_from _ rest 1) as [[k x] |]; [| reflexivity].
    destruct (setup_start x); [| reflexivity].
    destruct (rc_start env session stream <? 0); reflexivity.
Qed.

(** * The HID connector *)

Module HidFacts.
Import Hid.
Import HidScenario.

(** ** The device table *)

Lemma g_slist_find_custom_none (l : list hid_device) (addr : bdaddr_t) :
  (forall d, In d l -> dst d <> addr) -> g_slist_find_custom l addr = None.
Proof.
  induction l as [| h t IH]; intros H; simpl.
  - reflexivity.
  - unfold device_cmp, bacmp.
    destruct (list_eq_dec Z.eq_dec (dst h) addr) as [E | E].
    + exfalso. apply (H h); [left; reflexivity | exact E].
    + simpl. apply IH. intros d Hd. apply H. right. exact Hd.
Qed.

Lemma g_slist_find_custom_some (l : list hid_device) (addr : bdaddr_t) :
  (exists d, In d l /\ dst d = addr) ->
  exists h, g_slist_find_custom l addr = Some h.
Proof.
  induction l as [| h t IH]; intros (d & Hd & E); simpl.
  - destruct Hd.
  - unfold device_cmp, bacmp.
    destruct (list_eq_dec Z.eq_dec (dst h) addr) as [E' | E'].
    + simpl. eexists. reflexivity.
    + simpl. apply IH. destruct Hd as [-> | Hd]; [contradiction |].
      exists d. split; assumption.
Qed.

Lemma ipc_responses_app (a b : list effect) :
  ipc_responses (a ++ b) = ipc_responses a ++ ipc_responses b.
Proof. unfold ipc_responses. apply flat_map_app. Qed.

(** [bt_hid_connect] answers nothing itself. *)
Lemma bt_hid_connect_silent (env : environment) (cmd : list Z) (len : Z)
    (devices : list hid_device) :
  ipc_responses (snd (bt_hid_connect env cmd len devices)) = [].
Proof.
  unfold bt_hid_connect.
  destruct (len <? sizeof_hal_cmd_hid_connect); [reflexivity |].
  destruct (g_slist_find_custom _ _); [reflexivity |].
  destruct (bt_io_connect_ctrl env _) as [io err].
  destruct err; [| reflexivity].
  unfold hid_device_free. cbn [ctrl_watch intr_watch intr_io ctrl_io snd].
  destruct io; reflexivity.
Qed.

(** The status [bt_hid_connect] returns, case by case. *)
Lemma bt_hid_connect_status (env : environment) (cmd : list Z) (len : Z)
    (devices : list hid_device) :
  let addr := android2bdaddr env (firstn 6 cmd) in
  let status := fst (fst (bt_hid_connect env cmd len devices)) in
  (len < sizeof_hal_cmd_hid_connect -> status = HAL_STATUS_INVALID) /\
  (sizeof_hal_cmd_hid_connect <= len ->
   (exists d, In d devices /\ dst d = addr) -> status = HAL_STATUS_FAILED) /\
  (sizeof_hal_cmd_hid_connect <= len ->
   (forall d, In d devices -> dst d <> addr) ->
   status = if snd (bt_io_connect_ctrl env addr)
            then HAL_STATUS_FAILED else HAL_STATUS_SUCCESS).
Proof.
  intros addr status. subst status. unfold bt_hid_connect. fold addr.
  repeat split.
  - intros H. apply Z.ltb_lt in H. rewrite H. reflexivity.
  - intros H Hex. apply Z.ltb_ge in H. rewrite H.
    destruct (g_slist_find_custom_some _ _ Hex) as (h & ->). reflexivity.
  - intros H Hall. apply Z.ltb_ge in H. rewrite H.
    rewrite (g_slist_find_custom_none _ _ Hall).
    destruct (bt_io_connect_ctrl env addr) as [io err].
    destruct err; reflexivity.
Qed.

(** ** The IPC command surface *)

(** C9, as the code has it. [bt_hid_handle_cmd] sends exactly one IPC
    response. For HID_CONNECT its status is INVALID when the payload is
    shorter than the command structure, FAILED when a device with the same
    address is in the table or the control connect fails at once, SUCCESS
    otherwise. HID_DISCONNECT is a placeholder that does nothing and is
    answered FAILED, as is every unknown opcode. *)
Theorem bt_hid_handle_cmd_status (env : environment) (io : GIOChannel)
    (opcode : hal_opcode) (buf : list Z) (len : Z)
    (devices : list hid_device) :
  let addr := android2bdaddr env (firstn 6 buf) in
  exists status,
    ipc_responses (snd (bt_hid_handle_cmd env io opcode buf len devices))
    = [status] /\
    (opcode = HAL_OP_HID_CONNECT ->
     len < sizeof_hal_cmd_hid_connect -> status = HAL_STATUS_INVALID) /\
    (opcode = HAL_OP_HID_CONNECT ->
     sizeof_hal_cmd_hid_connect <= len ->
     (exists d, In d devices /\ dst d = addr) ->
     status = HAL_STATUS_FAILED) /\
    (opcode = HAL_OP_HID_CONNECT ->
     sizeof_hal_cmd_hid_connect <= len ->
     (forall d, In d devices -> dst d <> addr) ->
     snd (bt_io_connect_ctrl env addr) = true ->
     status = HAL_STATUS_FAILED) /\
    (opcode = HAL_OP_HID_CONNECT ->
     sizeof_hal_cmd_hid_connect <= len ->
     (forall d, In d devices -> dst d <> addr) ->
     snd (bt_io_connect_ctrl env addr) = false ->
     status = HAL_STATUS_SUCCESS) /\
    (opcode = HAL_OP_HID_DISCONNECT ->
     status = HAL_STATUS_FAILED /\
     bt_hid_handle_cmd env io opcode buf len devices
     = (devices, [ipc_send_rsp io HAL_SERVICE_ID_HIDHOST HAL_STATUS_FAILED])) /\
    (forall n, opcode = HAL_OP_OTHER n -> status = HAL_STATUS_FAILED).
Proof.
  intros addr. destruct opcode as [| | n].
  - pose proof (bt_hid_connect_silent env buf len devices) as Hsilent.
    pose proof (bt_hid_connect_status env buf len devices) as Hstatus.
    cbv zeta in Hstatus. fold addr in Hstatus.
    unfold bt_hid_handle_cmd.
    destruct (bt_hid_connect env buf len devices) as [[status devices'] calls].
    cbn [fst snd] in *. exists status.
    destruct Hstatus as (Hinv & Hdup & Hconn).
    split.
    { rewrite ipc_responses_app, Hsilent. reflexivity. }
    split; [intros _; exact Hinv |].
    split; [intros _; exact Hdup |].
    split.
    { intros _ Hlen Hall Herr. rewrite (Hconn Hlen Hall), Herr. reflexivity. }
    split.
    { intros _ Hlen Hall Herr. rewrite (Hconn Hlen Hall), Herr. reflexivity. }
    split; [discriminate | discriminate].
  - exists HAL_STATUS_FAILED.
    split; [reflexivity |].
    repeat (split; [discriminate |]).
    split; [intros _; split; reflexivity | discriminate].
  - exists HAL_STATUS_FAILED.
    split; [reflexivity |].
    repeat (split; [discriminate |]).
    intros m _. reflexivity.
Qed.

Lemma bt_hid_handle_cmd_status_witness :
  exists status,
    ipc_responses
      (snd (bt_hid_handle_cmd (scenario_env false) 1 HAL_OP_HID_CONNECT
              scenario_bdaddr 6 []))
    = [status] /\ status = HAL_STATUS_SUCCESS.
Proof.
  destruct (bt_hid_handle_cmd_status (scenario_env false) 1 HAL_OP_HID_CONNECT
              scenario_bdaddr 6 [])
    as (status & Hrsp & _ & _ & _ & Hok & _).
  exists status. split; [exact Hrsp |].
  apply Hok.
  - reflexivity.
  - unfold sizeof_hal_cmd_hid_connect. lia.
  - intros d [].
  - reflexivity.
Defined.

(** C9, refuted as stated. HID_DISCONNECT is not accepted: the response
    carries the status FAILED, the very response an unknown opcode gets. *)
Lemma bt_hid_handle_cmd_disconnect_fails :
  bt_hid_handle_cmd (scenario_env false) 1 HAL_OP_HID_DISCONNECT [] 0 []
  = ([], [ipc_send_rsp 1 HAL_SERVICE_ID_HIDHOST HAL_STATUS_FAILED]) /\
  bt_hid_handle_cmd (scenario_env false) 1 HAL_OP_HID_DISCONNECT [] 0 []
  = bt_hid_handle_cmd (scenario_env false) 1 (HAL_OP_OTHER 255) [] 0 [] /\
  HAL_STATUS_FAILED <> HAL_STATUS_SUCCESS.
Proof.
  repeat split; try reflexivity. discriminate.
Qed.

(** ** Closing the pair *)

(** A hangup or error on the interrupt channel shuts the control channel
    down when its handle is still set and the condition lacks
    [G_IO_NVAL]; it clears the interrupt watch and handle in any case. *)
Lemma intr_watch_cb_closes_control (env : environment) (chan : GIOChannel)
    (cond : Z) (h : hid_device) (c : GIOChannel) :
  has_bit cond G_IO_IN = false ->
  ctrl_io h = Some c ->
  has_bit cond G_IO_NVAL = false ->
  let '(again, h', calls) := intr_watch_cb env chan cond h in
  again = false /\ intr_watch h' = 0 /\ intr_io h' = None /\
  ctrl_io h' = Some c /\ In (g_io_channel_shutdown c true) calls.
Proof.
  intros Hin Hc Hnval. destruct h as [d ci ii cw iw].
  cbn [ctrl_io] in Hc. subst ci.
  unfold intr_watch_cb, set_intr_watch, set_intr_io. rewrite Hin.
  cbn [ctrl_io intr_io intr_watch ctrl_watch dst].
  destruct ii as [i |]; cbn [ctrl_io intr_io intr_watch ctrl_watch dst];
    rewrite Hnval; cbn [negb];
    (split; [reflexivity |]); (split; [reflexivity |]);
    (split; [reflexivity |]); (split; [reflexivity |]);
    rewrite !in_app_iff; right; right; left; reflexivity.
Qed.

(** Symmetrically for the control channel. *)
Lemma ctrl_watch_cb_closes_interrupt (chan : GIOChannel) (cond : Z)
    (h : hid_device) (c : GIOChannel) :
  intr_io h = Some c ->
  has_bit cond G_IO_NVAL = false ->
  let '(again, h', calls) := ctrl_watch_cb chan cond h in
  again = false /\ ctrl_watch h' = 0 /\ ctrl_io h' = None /\
  intr_io h' = Some c /\ In (g_io_channel_shutdown c true) calls.
Proof.
  intros Hc Hnval. destruct h as [d ci ii cw iw].
  cbn [intr_io] in Hc. subst ii.
  unfold ctrl_watch_cb, set_ctrl_watch, set_ctrl_io.
  cbn [ctrl_io intr_io intr_watch ctrl_watch dst].
  destruct ci as [i |]; cbn [ctrl_io intr_io intr_watch ctrl_watch dst];
    rewrite Hnval; cbn [negb];
    (split; [reflexivity |]); (split; [reflexivity |]);
    (split; [reflexivity |]); (split; [reflexivity |]);
    rewrite !in_app_iff; right; right; left; reflexivity.
Qed.

(** ** Devices stay in the table *)

Lemma map_dst_update_nth (l : list hid_device) :
  forall (i : nat) (h h' : hid_device),
    nth_error l i = Some h -> dst h' = dst h ->
    map dst (update_nth i h' l) = map dst l.
Proof.
  induction l as [| a l IH]; intros [| i] h h' Hi Hd; simpl in *;
    try discriminate.
  - injection Hi as ->. rewrite Hd. reflexivity.
  - rewrite (IH i h h' Hi Hd). reflexivity.
Qed.

Lemma on_device_keeps_addresses (i : nat) (devices : list hid_device)
    (f : hid_device -> hid_device * list effect) :
  (forall h, dst (fst (f h)) = dst h) ->
  map dst (fst (on_device i devices f)) = map dst devices.
Proof.
  intros Hf. unfold on_device.
  destruct (nth_error devices i) as [h |] eqn:Hi; [| reflexivity].
  specialize (Hf h). destruct (f h) as [h' e]. simpl in *.
  apply (map_dst_update_nth _ _ h h' Hi Hf).
Qed.

Lemma intr_watch_cb_keeps_address (env : environment) (chan : GIOChannel)
    (cond : Z) (h : hid_device) :
  dst (snd (fst (intr_watch_cb env chan cond h))) = dst h.
Proof.
  unfold intr_watch_cb. destruct (has_bit cond G_IO_IN).
  - destruct (intr_io_watch_cb env chan). reflexivity.
  - cbn [fst snd set_intr_watch intr_io]. destruct (intr_io h); reflexivity.
Qed.

Lemma ctrl_watch_cb_keeps_address (chan : GIOChannel) (cond : Z)
    (h : hid_device) :
  dst (snd (fst (ctrl_watch_cb chan cond h))) = dst h.
Proof.
  unfold ctrl_watch_cb. cbn [fst snd set_ctrl_watch ctrl_io].
  destruct (ctrl_io h); reflexivity.
Qed.

(** No watch callback, and no connect callback, takes a device out of the
    table; a command can only add one. *)
Lemma dispatch_never_removes (env : environment) (ev : event)
    (devices : list hid_device) :
  exists added,
    map dst (fst (dispatch env ev devices)) = map dst devices ++ added.
Proof.
  destruct ev as [io opcode buf len | i e | i e | i cond | i cond];
    cbn [dispatch].
  - unfold bt_hid_handle_cmd. destruct opcode.
    + unfold bt_hid_connect.
      destruct (len <? sizeof_hal_cmd_hid_connect);
        [exists []; rewrite app_nil_r; reflexivity |].
      destruct (g_slist_find_custom _ _);
        [exists []; rewrite app_nil_r; reflexivity |].
      destruct (bt_io_connect_ctrl env _) as [c err]. destruct err.
      * exists []. rewrite app_nil_r. reflexivity.
      * eexists. cbn [fst]. rewrite map_app. reflexivity.
    + exists []. rewrite app_nil_r. reflexivity.
    + exists []. rewrite app_nil_r. reflexivity.
  - exists []. rewrite app_nil_r. apply on_device_keeps_addresses.
    intros h. unfold control_connect_cb. destruct e; [reflexivity |].
    cbn [intr_io set_intr_io]. destruct (bt_io_connect_intr env (dst h));
      reflexivity.
  - exists []. rewrite app_nil_r. apply on_device_keeps_addresses.
    intros h. unfold interrupt_connect_cb. destruct e; [| reflexivity].
    cbn [ctrl_io set_intr_io]. destruct (ctrl_io h); reflexivity.
  - exists []. rewrite app_nil_r. apply on_device_keeps_addresses.
    intros h. destruct (intr_io h) as [chan |]; [| reflexivity].
    pose proof (intr_watch_cb_keeps_address env chan cond h) as H.
    destruct (intr_watch_cb env chan cond h) as [[r h'] e]. exact H.
  - exists []. rewrite app_nil_r. apply on_device_keeps_addresses.
    intros h. destruct (ctrl_io h) as [chan |]; [| reflexivity].
    pose proof (ctrl_watch_cb_keeps_address chan cond h) as H.
    destruct (ctrl_watch_cb chan cond h) as [[r h'] e]. exact H.
Qed.

(** Whatever the event loop delivers, every address once in the table is
    still in it. *)
Lemma run_never_removes (env : environment) (evs : list event) :
  forall devices : list hid_device,
  exists added, map dst (fst (run env evs devices)) = map dst devices ++ added.
Proof.
  induction evs as [| ev rest IH]; intros devices; simpl.
  - exists []. rewrite app_nil_r. reflexivity.
  - destruct (dispatch_never_removes env ev devices) as (a1 & H1).
    destruct (dispatch env ev devices) as [d1 e1]. simpl in H1.
    destruct (IH d1) as (a2 & H2).
    destruct (run env rest d1) as [d2 e2]. simpl in *.
    exists (a1 ++ a2). rewrite H2, H1, app_assoc. reflexivity.
Qed.

(** C8. After bring-up of a device, a hangup on its interrupt channel and
    the hangup that follows on its control channel, both channels are
    closed and both watches cleared, the control channel was shut down by
    the interrupt watch, and the device record is still in the table; a
    new HID_CONNECT for the same address is then answered FAILED. *)
Theorem hid_hangup_leaves_device :
  run (scenario_env false) bring_up_and_hang_up []
  = ([mk_hid_device (rev scenario_bdaddr) None None 0 0],
     [bt_io_connect L2CAP_PSM_HIDP_CTRL (rev scenario_bdaddr);
      ipc_send_rsp 1 HAL_SERVICE_ID_HIDHOST HAL_STATUS_SUCCESS;
      bt_io_connect L2CAP_PSM_HIDP_INTR (rev scenario_bdaddr);
      g_io_add_watch (Some 50) 56;
      g_io_add_watch (Some 51) 57;
      g_io_channel_shutdown 51 true;
      g_io_channel_unref 51;
      g_io_channel_shutdown 50 true;
      g_io_channel_unref 50]) /\
  some_channel_open (mk_hid_device (rev scenario_bdaddr) None None 0 0)
  = false /\
  ipc_responses
    (snd (bt_hid_handle_cmd (scenario_env false) 1 HAL_OP_HID_CONNECT
            scenario_bdaddr 6
            (fst (run (scenario_env false) bring_up_and_hang_up []))))
  = [HAL_STATUS_FAILED].
Proof. split; [reflexivity | split; reflexivity]. Qed.

End HidFacts.

(** * Further properties of the A2DP coordinator *)

(** ** The selected configuration *)

Lemma land_pow2 (f k : Z) :
  0 <= k -> Z.land f (2 ^ k) = if Z.testbit f k then 2 ^ k else 0.
Proof.
  intros Hk. apply Z.bits_inj'. intros n Hn.
  rewrite Z.land_spec, Z.pow2_bits_eqb by exact Hk.
  destruct (Z.eqb_spec k n) as [-> | Hne].
  - destruct (Z.testbit f n) eqn:E.
    + rewrite Z.pow2_bits_eqb by exact Hn. rewrite Z.eqb_refl. reflexivity.
    + rewrite Z.bits_0. reflexivity.
  - rewrite andb_false_r. destruct (Z.testbit f k).
    + rewrite Z.pow2_bits_eqb by exact Hk.
      symmetry. apply Z.eqb_neq. exact Hne.
    + rewrite Z.bits_0. reflexivity.
Qed.

(** A single bit that the mask has is contained in the mask. *)
Lemma has_bit_pow2 (f k : Z) :
  0 <= k -> has_bit f (2 ^ k) = true -> Z.land (2 ^ k) f = 2 ^ k.
Proof.
  intros Hk H. apply has_bit_true in H. rewrite Z.land_comm.
  rewrite land_pow2 in * by exact Hk.
  destruct (Z.testbit f k); [reflexivity | contradiction].
Qed.

Ltac contained_bit :=
  match goal with
  | H : has_bit ?f ?c = true |- Z.land ?c ?f = ?c =>
    first [ exact (has_bit_pow2 f 0 ltac:(lia) H)
          | exact (has_bit_pow2 f 1 ltac:(lia) H)
          | exact (has_bit_pow2 f 2 ltac:(lia) H)
          | exact (has_bit_pow2 f 3 ltac:(lia) H) ]
  end.

Lemma pick_frequency_contained (f b : Z) :
  pick_frequency f = Some b -> Z.land b f = b.
Proof. unfold pick_frequency. intros E. revert E. walk_chain; intros E;
  try discriminate; injection E as <-; contained_bit. Qed.

Lemma pick_channel_mode_contained (f b : Z) :
  pick_channel_mode f = Some b -> Z.land b f = b.
Proof. unfold pick_channel_mode. intros E. revert E. walk_chain; intros E;
  try discriminate; injection E as <-; contained_bit. Qed.

Lemma pick_block_length_contained (f b : Z) :
  pick_block_length f = Some b -> Z.land b f = b.
Proof. unfold pick_block_length. intros E. revert E. walk_chain; intros E;
  try discriminate; injection E as <-; contained_bit. Qed.

Lemma pick_subbands_contained (f b : Z) :
  pick_subbands f = Some b -> Z.land b f = b.
Proof. unfold pick_subbands. intros E. revert E. walk_chain; intros E;
  try discriminate; injection E as <-; contained_bit. Qed.

Lemma pick_allocation_method_contained (f b : Z) :
  pick_allocation_method f = Some b -> Z.land b f = b.
Proof. unfold pick_allocation_method. intros E. revert E. walk_chain;
  intros E; try discriminate; injection E as <-; contained_bit. Qed.

(** What a successful run of the selector wrote, field by field. *)
Lemma select_sbc_params_success (supported cap : sbc_codec_cap) :
  select_sbc_params supported = (true, cap) ->
  exists f m b s,
    pick_frequency (frequency supported) = Some f /\
    pick_channel_mode (channel_mode supported) = Some m /\
    pick_block_length (block_length supported) = Some b /\
    pick_subbands (subbands supported) = Some s /\
    cap = mk_sbc_codec_cap AVDTP_MEDIA_TYPE_AUDIO A2DP_CODEC_SBC f m b s
            (match pick_allocation_method (allocation_method supported) with
             | Some a => a
             | None => 0
             end)
            (uint8 (MAX MIN_BITPOOL (min_bitpool supported)))
            (uint8 (MIN (default_bitpool f m) (max_bitpool supported))).
Proof.
  unfold select_sbc_params.
  destruct (pick_frequency _) as [f |]; [| discriminate].
  destruct (pick_channel_mode _) as [m |]; [| discriminate].
  destruct (pick_block_length _) as [b |]; [| discriminate].
  destruct (pick_subbands _) as [s |]; [| discriminate].
  intros H. injection H as <-. exists f, m, b, s.
  repeat (split; [reflexivity |]).
  destruct (pick_allocation_method _); reflexivity.
Qed.

(** X2. Whatever [select_sbc_params] selects lies within what the remote
    offered: every selected bit is a bit of the remote mask, the minimum
    bitpool is not below the remote minimum and the maximum bitpool is not
    above the remote maximum. *)
Theorem select_sbc_params_within_remote (supported cap : sbc_codec_cap) :
  sbc_cap_wf supported ->
  select_sbc_params supported = (true, cap) ->
  Z.land (frequency cap) (frequency supported) = frequency cap /\
  Z.land (channel_mode cap) (channel_mode supported) = channel_mode cap /\
  Z.land (block_length cap) (block_length supported) = block_length cap /\
  Z.land (subbands cap) (subbands supported) = subbands cap /\
  Z.land (allocation_method cap) (allocation_method supported)
  = allocation_method cap /\
  min_bitpool supported <= min_bitpool cap /\
  max_bitpool cap <= max_bitpool supported.
Proof.
  intros (_ & _ & _ & _ & _ & Hlo & Hhi) H.
  destruct (select_sbc_params_success _ _ H)
    as (f & m & b & s & Ef & Em & Eb & Es & ->).
  cbn [frequency channel_mode block_length subbands allocation_method
       min_bitpool max_bitpool].
  pose proof (default_bitpool_range f m) as Hd.
  rewrite MAX_is_max, MIN_is_min. unfold MIN_BITPOOL.
  rewrite !uint8_small by lia.
  split; [apply pick_frequency_contained; exact Ef |].
  split; [apply pick_channel_mode_contained; exact Em |].
  split; [apply pick_block_length_contained; exact Eb |].
  split; [apply pick_subbands_contained; exact Es |].
  split; [| lia].
  destruct (pick_allocation_method _) as [a |] eqn:Ea.
  - apply pick_allocation_method_contained. exact Ea.
  - reflexivity.
Qed.

Lemma select_sbc_params_within_remote_witness :
  Z.land 2 3 = 2 /\ Z.land 1 3 = 1 /\ Z.land 1 15 = 1 /\ Z.land 1 3 = 1 /\
  Z.land 1 3 = 1 /\ 2 <= 2 /\ 50 <= 50.
Proof.
  apply (select_sbc_params_within_remote scenario_remote_cap
           (mk_sbc_codec_cap 0 0 2 1 1 1 1 2 50)).
  - unfold sbc_cap_wf; simpl; lia.
  - reflexivity.
Defined.

(** A selected bit is selected again from itself. *)
Lemma pick_frequency_fixed (f b : Z) :
  pick_frequency f = Some b -> pick_frequency b = Some b.
Proof.
  unfold pick_frequency at 1. walk_chain; intros E; try discriminate;
    injection E as <-; reflexivity.
Qed.

Lemma pick_channel_mode_fixed (f b : Z) :
  pick_channel_mode f = Some b -> pick_channel_mode b = Some b.
Proof.
  unfold pick_channel_mode at 1. walk_chain; intros E; try discriminate;
    injection E as <-; reflexivity.
Qed.

Lemma pick_block_length_fixed (f b : Z) :
  pick_block_length f = Some b -> pick_block_length b = Some b.
Proof.
  unfold pick_block_length at 1. walk_chain; intros E; try discriminate;
    injection E as <-; reflexivity.
Qed.

Lemma pick_subbands_fixed (f b : Z) :
  pick_subbands f = Some b -> pick_subbands b = Some b.
Proof.
  unfold pick_subbands at 1. walk_chain; intros E; try discriminate;
    injection E as <-; reflexivity.
Qed.

Lemma pick_allocation_method_fixed (f : Z) :
  pick_allocation_method
    (match pick_allocation_method f with Some a => a | None => 0 end)
  = pick_allocation_method f.
Proof.
  unfold pick_allocation_method at 2 3. walk_chain; reflexivity.
Qed.

(** X3. [select_sbc_params] is idempotent: run on a configuration it has
    selected, it selects that configuration again. *)
Theorem select_sbc_params_idempotent (supported cap : sbc_codec_cap) :
  sbc_cap_wf supported ->
  select_sbc_params supported = (true, cap) ->
  select_sbc_params cap = (true, cap).
Proof.
  intros (_ & _ & _ & _ & _ & Hlo & Hhi) H.
  destruct (select_sbc_params_success _ _ H)
    as (f & m & b & s & Ef & Em & Eb & Es & ->).
  unfold select_sbc_params.
  cbn [frequency channel_mode block_length subbands allocation_method
       min_bitpool max_bitpool].
  rewrite (pick_frequency_fixed _ _ Ef), (pick_channel_mode_fixed _ _ Em),
    (pick_block_length_fixed _ _ Eb), (pick_subbands_fixed _ _ Es),
    pick_allocation_method_fixed.
  pose proof (default_bitpool_range f m) as Hd.
  assert (Hmin : uint8 (MAX MIN_BITPOOL
                          (uint8 (MAX MIN_BITPOOL (min_bitpool supported))))
                 = uint8 (MAX MIN_BITPOOL (min_bitpool supported))).
  { rewrite !MAX_is_max. unfold MIN_BITPOOL.
    rewrite (uint8_small (Z.max 2 (min_bitpool supported))) by lia.
    replace (Z.max 2 (Z.max 2 (min_bitpool supported)))
      with (Z.max 2 (min_bitpool supported)) by lia.
    apply uint8_small. lia. }
  assert (Hmax : forall d, d = default_bitpool f m ->
                 uint8 (MIN d (uint8 (MIN d (max_bitpool supported))))
                 = uint8 (MIN d (max_bitpool supported))).
  { intros d ->. rewrite !MIN_is_min.
    rewrite (uint8_small (Z.min _ (max_bitpool supported))) by lia.
    replace (Z.min (default_bitpool f m)
               (Z.min (default_bitpool f m) (max_bitpool supported)))
      with (Z.min (default_bitpool f m) (max_bitpool supported)) by lia.
    apply uint8_small. lia. }
  destruct (pick_allocation_method (allocation_method supported));
    unfold set_bitpool, set_allocation_method, set_subbands,
      set_block_length, set_channel_mode, set_frequency, set_cap_header,
      sbc_cap_zero;
    cbn [frequency channel_mode block_length subbands allocation_method
         min_bitpool max_bitpool cap_media_type cap_media_codec_type];
    rewrite Hmin, (Hmax _ eq_refl); reflexivity.
Qed.

Lemma select_sbc_params_idempotent_witness :
  select_sbc_params (mk_sbc_codec_cap 0 0 2 1 1 1 1 2 50)
  = (true, mk_sbc_codec_cap 0 0 2 1 1 1 1 2 50).
Proof.
  apply (select_sbc_params_idempotent scenario_remote_cap).
  - unfold sbc_cap_wf; simpl; lia.
  - reflexivity.
Defined.

(** ** Building the configuration to send *)

Lemma select_sbc_params_failure (supported : sbc_codec_cap) :
  fst (select_sbc_params supported) = false ->
  cap_media_codec_type (snd (select_sbc_params supported)) = A2DP_CODEC_SBC /\
  min_bitpool (snd (select_sbc_params supported)) = 0 /\
  max_bitpool (snd (select_sbc_params supported)) = 0.
Proof.
  unfold select_sbc_params.
  destruct (pick_frequency _); [| intros _; repeat split].
  destruct (pick_channel_mode _); [| intros _; repeat split].
  destruct (pick_block_length _); [| intros _; repeat split].
  destruct (pick_subbands _); [| intros _; repeat split].
  simpl. discriminate.
Qed.

(** X4. [a2dp_select_capabilities] does not look at what
    [select_sbc_params] returns: when the selector fails on the remote
    codec, the function still returns TRUE and appends a media-codec
    capability whose bitpool range is 0..0, a range the daemon's own
    bitpool check rejects. *)
Theorem a2dp_select_capabilities_ignores_failure
    (denv : discovery_environment) (session : avdtp)
    (rsep : avdtp_remote_sep) (caps : list avdtp_service_capability)
    (l : list a2dp_stream_setup) (k : nat) (setup : a2dp_stream_setup)
    (media_codec : avdtp_service_capability) :
  find_setup_by_session session l = Some (k, setup) ->
  setup_media_codec setup = None ->
  avdtp_get_codec denv rsep = Some media_codec ->
  fst (select_sbc_params (data media_codec)) = false ->
  exists sbc_cap,
    a2dp_select_capabilities denv session rsep caps l
    = (true,
       (caps ++ [mk_avdtp_service_capability AVDTP_MEDIA_TRANSPORT
                   sbc_cap_zero])
       ++ [mk_avdtp_service_capability AVDTP_MEDIA_CODEC sbc_cap]) /\
    min_bitpool sbc_cap = 0 /\ max_bitpool sbc_cap = 0 /\
    bitpool_out_of_range
      [mk_avdtp_service_capability AVDTP_MEDIA_CODEC sbc_cap] = true.
Proof.
  intros Hfind Hpref Hcodec Hfail.
  destruct (select_sbc_params_failure _ Hfail) as (Hsbc & Hlo & Hhi).
  exists (snd (select_sbc_params (data media_codec))).
  split.
  - unfold a2dp_select_capabilities. rewrite Hfind, Hpref, Hcodec.
    reflexivity.
  - split; [exact Hlo |]. split; [exact Hhi |].
    cbn [bitpool_out_of_range category data]. rewrite Hsbc, Hlo. reflexivity.
Qed.

Lemma a2dp_select_capabilities_ignores_failure_witness :
  exists sbc_cap,
    a2dp_select_capabilities (scenario_denv true (Some codec_without_frequency) 0)
      7 9 [] [scenario_setup true false]
    = (true,
       ([] ++ [mk_avdtp_service_capability AVDTP_MEDIA_TRANSPORT
                 sbc_cap_zero])
       ++ [mk_avdtp_service_capability AVDTP_MEDIA_CODEC sbc_cap]) /\
    min_bitpool sbc_cap = 0 /\ max_bitpool sbc_cap = 0 /\
    bitpool_out_of_range
      [mk_avdtp_service_capability AVDTP_MEDIA_CODEC sbc_cap] = true.
Proof.
  apply (a2dp_select_capabilities_ignores_failure
           (scenario_denv true (Some codec_without_frequency) 0) 7 9 []
           [scenario_setup true false] 0%nat (scenario_setup true false)
           codec_without_frequency); reflexivity.
Defined.



(** ** How the operations change the setup list *)

Lemma find_from_none_inv {A : Type} (p : A -> bool) (l : list A) :
  forall n, find_from p l n = None -> forall x, In x l -> p x = false.
Proof.
  induction l as [| a l IH]; intros n H x Hx; simpl in *.
  - destruct Hx.
  - destruct (p a) eqn:Hp; [discriminate |].
    destruct Hx as [<- | Hx]; [exact Hp | exact (IH _ H x Hx)].
Qed.

Lemma find_from_zero {A : Type} (p : A -> bool) (l : list A) (i : nat)
    (x : A) :
  find_from p l 0 = Some (i, x) -> nth_error l i = Some x /\ p x = true.
Proof.
  intros H. destruct (find_from_sound _ _ _ _ _ H) as (k & -> & Hk & Hp & _).
  split; assumption.
Qed.

Lemma find_setup_by_session_found (session : avdtp)
    (l : list a2dp_stream_setup) (i : nat) (setup : a2dp_stream_setup) :
  find_setup_by_session session l = Some (i, setup) ->
  nth_error l i = Some setup /\ setup_session setup = Some session.
Proof.
  intros H. apply find_from_zero in H. destruct H as [Hi Hp].
  split; [exact Hi |]. unfold setup_has_session in Hp.
  destruct (setup_session setup) as [s |]; [| discriminate].
  apply Z.eqb_eq in Hp. subst. reflexivity.
Qed.

Lemma stream_setup_free_list (s : a2dp_stream_setup) (i : nat)
    (l : list a2dp_stream_setup) :
  fst (stream_setup_free s (Some i) l) = remove_nth i l.
Proof. reflexivity. Qed.

Lemma finalize_stream_setup_list (s : a2dp_stream_setup) (i : nat)
    (l : list a2dp_stream_setup) :
  fst (finalize_stream_setup s (Some i) l) = remove_nth i l.
Proof. reflexivity. Qed.

Lemma drop_canceled_list (session : avdtp) (stream : option avdtp_stream)
    (err : option Z) (s : a2dp_stream_setup) (i : nat)
    (l : list a2dp_stream_setup) :
  fst (drop_canceled session stream err s i l) = remove_nth i l.
Proof. reflexivity. Qed.

Lemma open_cfm_step (env : environment) (session : avdtp)
    (stream : option avdtp_stream) (err : option Z)
    (l : list a2dp_stream_setup) :
  setups_step l (fst (open_cfm env session stream err l)).
Proof.
  unfold open_cfm.
  destruct (find_setup_by_session session l) as [[i setup] |];
    [| apply step_same].
  destruct (setup_canceled setup);
    [rewrite drop_canceled_list; apply step_removed |].
  destruct err; [rewrite finalize_stream_setup_list; apply step_removed |].
  destruct (setup_start setup);
    [| rewrite finalize_stream_setup_list; apply step_removed].
  destruct (rc_start env session stream =? 0); [apply step_same |].
  apply step_removed.
Qed.

Lemma reconf_cfm_step (env : environment) (session : avdtp)
    (stream : option avdtp_stream) (err : option Z)
    (l : list a2dp_stream_setup) :
  setups_step l (fst (reconf_cfm env session stream err l)).
Proof.
  unfold reconf_cfm.
  destruct (find_setup_by_session session l) as [[i setup] |];
    [| apply step_same].
  destruct (setup_canceled setup);
    [rewrite drop_canceled_list; apply step_removed |].
  destruct err; [rewrite finalize_stream_setup_list; apply step_removed |].
  destruct (setup_start setup);
    [| rewrite finalize_stream_setup_list; apply step_removed].
  destruct (rc_start env session stream =? 0); [apply step_same |].
  apply step_removed.
Qed.

Lemma start_cfm_step (session : avdtp) (stream : option avdtp_stream)
    (err : option Z) (l : list a2dp_stream_setup) :
  setups_step l (fst (start_cfm session stream err l)).
Proof.
  unfold start_cfm.
  destruct (find_setup_by_session session l) as [[i setup] |];
    [| apply step_same].
  destruct (setup_canceled setup);
    [rewrite drop_canceled_list; apply step_removed |].
  destruct err; rewrite finalize_stream_setup_list; apply step_removed.
Qed.

Lemma close_cfm_step (env : environment) (session : avdtp)
    (stream : option avdtp_stream) (err : option Z)
    (l : list a2dp_stream_setup) :
  setups_step l (fst (close_cfm env session stream err l)).
Proof.
  unfold close_cfm.
  destruct (find_setup_by_session session l) as [[i setup] |];
    [| apply step_same].
  destruct (setup_canceled setup);
    [rewrite stream_setup_free_list; apply step_removed |].
  destruct err; [rewrite finalize_stream_setup_list; apply step_removed |].
  destruct (setup_start setup);
    [| rewrite finalize_stream_setup_list; apply step_removed].
  destruct (rc_discover env session =? 0); [apply step_same |].
  apply step_removed.
Qed.

Lemma suspend_cfm_step (env : environment) (session : avdtp)
    (stream : option avdtp_stream) (err : option Z) (sep : a2dp_sep)
    (l : list a2dp_stream_setup) :
  setups_step l (snd (fst (suspend_cfm env session stream err sep l))).
Proof.
  unfold suspend_cfm.
  destruct (find_setup_by_session session l) as [[i setup] |];
    [| apply step_same].
  destruct err; [apply step_removed |].
  destruct (setup_start setup); [| apply step_same].
  destruct (rc_start env session stream <? 0);
    [apply step_removed | apply step_same].
Qed.

Lemma discovery_complete_step (denv : discovery_environment)
    (session : avdtp) (err : Z) (l : list a2dp_stream_setup) :
  setups_step l (fst (discovery_complete denv session err l)).
Proof.
  unfold discovery_complete.
  destruct (find_setup_by_session session l) as [[i setup] |] eqn:Hfind;
    [| apply step_same].
  destruct ((err <? 0) || setup_canceled setup); [apply step_removed |].
  destruct (avdtp_get_seps denv session) as [[lsep rsep] |];
    [| apply step_removed].
  destruct (a2dp_select_capabilities denv session rsep [] l) as [[|] caps];
    [| apply step_removed].
  destruct (set_configuration_result denv session rsep lsep caps
              (setup_stream setup)) as [rc stream'].
  destruct (rc <? 0); [apply step_removed |].
  apply find_setup_by_session_found in Hfind. destruct Hfind as [Hi _].
  apply (step_replaced l i setup _ Hi); [reflexivity |].
  intros H. exact H.
Qed.

Lemma setconf_cfm_step (env : environment) (denv : discovery_environment)
    (session : avdtp) (stream : option avdtp_stream) (err : option Z)
    (sep : a2dp_sep) (l : list a2dp_stream_setup) :
  setups_step l (snd (fst (setconf_cfm env denv session stream err sep l))).
Proof.
  unfold setconf_cfm.
  destruct err.
  - destruct (find_setup_by_session session l) as [[i setup] |];
      [apply step_removed | apply step_same].
  - destruct (find_setup_by_session session l) as [[i setup] |];
      [| apply step_same].
    destruct (rc_open denv session stream <? 0);
      [apply step_removed | apply step_same].
Qed.

Lemma a2dp_source_cancel_stream_step (env : environment)
    (dev : option device) (id : Z) (st : a2dp_state) :
  setups_step (setups st)
    (setups (snd (a2dp_source_cancel_stream env dev id st))).
Proof.
  unfold a2dp_source_cancel_stream.
  destruct (find_setup_by_dev env dev (setups st)) as [[k setup] |] eqn:Hfind;
    [| apply step_same].
  destruct (find (cb_has_id id) (setup_cb setup)) as [c |] eqn:Hcb;
    [| apply step_same].
  apply find_from_zero in Hfind. destruct Hfind as [Hk _].
  cbn [snd setups]. apply (step_replaced _ k setup _ Hk).
  - cbn [setup_cb set_setup_cb].
    destruct (remove_first _ _); reflexivity.
  - intros Hinv. cbn [setup_cb set_setup_cb].
    destruct (remove_first (cb_has_id id) (setup_cb setup)) eqn:Hrest.
    + intros _. reflexivity.
    + unfold canceled_is_empty. cbn [setup_canceled set_setup_cb].
      intros Hc. rewrite (Hinv Hc) in Hcb. discriminate.
Qed.

Lemma a2dp_source_request_stream_step (env : environment) (session : avdtp)
    (start : bool) (cb user_data : Z)
    (media_codec : option avdtp_service_capability) (st : a2dp_state) :
  setups_step (setups st)
    (setups (snd (fst (a2dp_source_request_stream env session start cb
                         user_data media_codec st)))).
Proof.
  unfold a2dp_source_request_stream.
  destruct (find_from (sep_available env session) (sources st) 0)
    as [[i sep] |]; [| apply step_same].
  destruct (find_setup_by_session session (setups st)) as [[k setup] |]
    eqn:Hfind.
  - apply find_setup_by_session_found in Hfind. destruct Hfind as [Hk _].
    cbn [fst snd setups]. apply (step_replaced _ k setup _ Hk).
    + reflexivity.
    + intros _ Hc. discriminate.
  - destruct (request_dispatch _ _ _ _ _) as [[sep' calls] | calls].
    + cbn [fst snd setups]. apply (step_appended _ session); auto.
    + apply step_same.
Qed.

(** ** What a step keeps *)

Lemma map_remove_nth {A B : Type} (f : A -> B) (l : list A) :
  forall i, map f (remove_nth i l) = remove_nth i (map f l).
Proof.
  induction l as [| a l IH]; intros [| i]; simpl; try reflexivity.
  rewrite IH. reflexivity.
Qed.

Lemma remove_nth_incl {A : Type} (l : list A) :
  forall i x, In x (remove_nth i l) -> In x l.
Proof.
  induction l as [| a l IH]; intros [| i] x H; simpl in *; auto.
  destruct H as [H | H]; [left; exact H | right; exact (IH _ _ H)].
Qed.

Lemma NoDup_remove_nth {A : Type} (l : list A) :
  forall i, NoDup l -> NoDup (remove_nth i l).
Proof.
  induction l as [| a l IH]; intros [| i] H; simpl; auto.
  - inversion H; assumption.
  - inversion H as [| ? ? Hnot Hrest]; subst. constructor.
    + intros Hin. apply Hnot. exact (remove_nth_incl _ _ _ Hin).
    + apply IH. exact Hrest.
Qed.

Lemma map_update_nth_same {A B : Type} (f : A -> B) (l : list A) :
  forall k x x', nth_error l k = Some x -> f x' = f x ->
                 map f (update_nth k x' l) = map f l.
Proof.
  induction l as [| a l IH]; intros [| k] x x' Hk Hf; simpl in *;
    try discriminate.
  - injection Hk as ->. rewrite Hf. reflexivity.
  - rewrite (IH k x x' Hk Hf). reflexivity.
Qed.

Lemma Forall_remove_nth {A : Type} (P : A -> Prop) (l : list A) :
  forall i, Forall P l -> Forall P (remove_nth i l).
Proof.
  intros i H. apply Forall_forall. intros x Hx.
  rewrite Forall_forall in H. apply H. exact (remove_nth_incl _ _ _ Hx).
Qed.

Lemma Forall_update_nth {A : Type} (P : A -> Prop) (l : list A) :
  forall k x x', nth_error l k = Some x -> (P x -> P x') -> Forall P l ->
                 Forall P (update_nth k x' l).
Proof.
  induction l as [| a l IH]; intros [| k] x x' Hk Himp H; simpl in *;
    try discriminate.
  - injection Hk as ->. inversion H; subst. constructor; auto.
  - inversion H; subst. constructor; [assumption |].
    apply (IH k x x' Hk Himp). assumption.
Qed.

Lemma no_setup_no_session (session : avdtp) (l : list a2dp_stream_setup) :
  find_setup_by_session session l = None ->
  ~ In (Some session) (map setup_session l).
Proof.
  intros Hnone Hin. apply in_map_iff in Hin. destruct Hin as (s & Hs & Hin).
  pose proof (find_from_none_inv _ _ _ Hnone s Hin) as Hp.
  unfold setup_has_session in Hp. rewrite Hs, Z.eqb_refl in Hp. discriminate.
Qed.

Lemma setups_step_sessions (l l' : list a2dp_stream_setup) :
  setups_step l l' -> sessions_distinct l -> sessions_distinct l'.
Proof.
  unfold sessions_distinct.
  intros [| i | k s s' Hk Hs _ | session s' Hnone Hs _] H.
  - exact H.
  - rewrite map_remove_nth. apply NoDup_remove_nth. exact H.
  - rewrite (map_update_nth_same _ _ _ _ _ Hk Hs). exact H.
  - rewrite map_app. simpl. rewrite Hs.
    apply NoDup_rev in H. rewrite <- (rev_involutive (map _ l ++ _)).
    apply NoDup_rev. rewrite rev_app_distr. simpl. constructor.
    + rewrite <- in_rev. apply no_setup_no_session. exact Hnone.
    + exact H.
Qed.

Lemma setups_step_canceled (l l' : list a2dp_stream_setup) :
  setups_step l l' -> canceled_are_empty l -> canceled_are_empty l'.
Proof.
  unfold canceled_are_empty.
  intros [| i | k s s' Hk _ Himp | session s' _ _ Hc] H.
  - exact H.
  - apply Forall_remove_nth. exact H.
  - apply (Forall_update_nth _ _ _ _ _ Hk Himp H).
  - apply Forall_app. split; [exact H |]. constructor; [| constructor].
    intros Hc'. rewrite Hc in Hc'. discriminate.
Qed.

(** X6. At most one setup per session: when no two setups of the list
    share a session, none do after a stream request, a cancellation or any
    of the confirmations that touch the list ([open_cfm], [start_cfm],
    [close_cfm], [reconf_cfm], [suspend_cfm], [setconf_cfm]) or after
    [discovery_complete]. *)
Theorem one_setup_per_session (env : environment)
    (denv : discovery_environment) (st : a2dp_state) :
  sessions_distinct (setups st) ->
  (forall session start cb user_data media_codec,
      sessions_distinct
        (setups (snd (fst (a2dp_source_request_stream env session start cb
                             user_data media_codec st))))) /\
  (forall dev id,
      sessions_distinct
        (setups (snd (a2dp_source_cancel_stream env dev id st)))) /\
  (forall session stream err,
      sessions_distinct (fst (open_cfm env session stream err (setups st))) /\
      sessions_distinct (fst (start_cfm session stream err (setups st))) /\
      sessions_distinct (fst (close_cfm env session stream err (setups st))) /\
      sessions_distinct
        (fst (reconf_cfm env session stream err (setups st)))) /\
  (forall session stream err sep,
      sessions_distinct
        (snd (fst (suspend_cfm env session stream err sep (setups st)))) /\
      sessions_distinct
        (snd (fst (setconf_cfm env denv session stream err sep
                     (setups st))))) /\
  (forall session err,
      sessions_distinct
        (fst (discovery_complete denv session err (setups st)))).
Proof.
  intros H.
  split; [intros; eapply setups_step_sessions;
          [apply a2dp_source_request_stream_step | exact H] |].
  split; [intros; eapply setups_step_sessions;
          [apply a2dp_source_cancel_stream_step | exact H] |].
  split.
  { intros session stream err.
    split; [eapply setups_step_sessions; [apply open_cfm_step | exact H] |].
    split; [eapply setups_step_sessions; [apply start_cfm_step | exact H] |].
    split; [eapply setups_step_sessions; [apply close_cfm_step | exact H] |].
    eapply setups_step_sessions; [apply reconf_cfm_step | exact H]. }
  split.
  { intros session stream err sep.
    split; [eapply setups_step_sessions; [apply suspend_cfm_step | exact H] |].
    eapply setups_step_sessions; [apply setconf_cfm_step | exact H]. }
  intros session err.
  eapply setups_step_sessions; [apply discovery_complete_step | exact H].
Qed.

Lemma one_setup_per_session_witness :
  sessions_distinct
    (setups (snd (fst (a2dp_source_request_stream (scenario_env true 0) 8
                         true 21 22 None
                         (scenario_state (idle_sep false)
                            [scenario_setup false false] 1))))).
Proof.
  apply (proj1 (one_setup_per_session (scenario_env true 0)
                  (scenario_denv true None 0)
                  (scenario_state (idle_sep false)
                     [scenario_setup false false] 1)
                  (NoDup_cons (Some 7) (fun H : In (Some 7) [] => H)
                     (NoDup_nil (option avdtp))))).
Defined.

(** X7. A canceled setup has no waiting callback: when that holds of
    every setup of the list, it holds after a stream request, a
    cancellation, any of the confirmations and [discovery_complete]; so
    the paths that free a canceled setup without calling back leave no
    client unanswered. *)
Theorem canceled_setups_stay_empty (env : environment)
    (denv : discovery_environment) (st : a2dp_state) :
  canceled_are_empty (setups st) ->
  (forall session start cb user_data media_codec,
      canceled_are_empty
        (setups (snd (fst (a2dp_source_request_stream env session start cb
                             user_data media_codec st))))) /\
  (forall dev id,
      canceled_are_empty
        (setups (snd (a2dp_source_cancel_stream env dev id st)))) /\
  (forall session stream err,
      canceled_are_empty (fst (open_cfm env session stream err (setups st))) /\
      canceled_are_empty (fst (start_cfm session stream err (setups st))) /\
      canceled_are_empty
        (fst (close_cfm env session stream err (setups st))) /\
      canceled_are_empty
        (fst (reconf_cfm env session stream err (setups st)))) /\
  (forall session stream err sep,
      canceled_are_empty
        (snd (fst (suspend_cfm env session stream err sep (setups st)))) /\
      canceled_are_empty
        (snd (fst (setconf_cfm env denv session stream err sep
                     (setups st))))) /\
  (forall session err,
      canceled_are_empty
        (fst (discovery_complete denv session err (setups st)))).
Proof.
  intros H.
  split; [intros; eapply setups_step_canceled;
          [apply a2dp_source_request_stream_step | exact H] |].
  split; [intros; eapply setups_step_canceled;
          [apply a2dp_source_cancel_stream_step | exact H] |].
  split.
  { intros session stream err.
    split; [eapply setups_step_canceled; [apply open_cfm_step | exact H] |].
    split; [eapply setups_step_canceled; [apply start_cfm_step | exact H] |].
    split; [eapply setups_step_canceled; [apply close_cfm_step | exact H] |].
    eapply setups_step_canceled; [apply reconf_cfm_step | exact H]. }
  split.
  { intros session stream err sep.
    split; [eapply setups_step_canceled; [apply suspend_cfm_step | exact H] |].
    eapply setups_step_canceled; [apply setconf_cfm_step | exact H]. }
  intros session err.
  eapply setups_step_canceled; [apply discovery_complete_step | exact H].
Qed.

Lemma canceled_setups_stay_empty_witness :
  canceled_are_empty
    (setups (snd (a2dp_source_cancel_stream (scenario_env true 0) (Some 100)
                    1
                    (scenario_state (idle_sep false)
                       [scenario_setup false false] 1)))).
Proof.
  assert (H : canceled_are_empty
                (setups (scenario_state (idle_sep false)
                           [scenario_setup false false] 1))).
  { constructor; [intros H; discriminate H | constructor]. }
  apply (proj1 (proj2 (canceled_setups_stay_empty (scenario_env true 0)
                         (scenario_denv true None 0)
                         (scenario_state (idle_sep false)
                            [scenario_setup false false] 1) H))).
Defined.

(** ** Confirmations on a canceled setup *)

(** X11. A confirmation that finds the session's setup canceled never
    calls a client back: it frees the setup and releases its session, and
    first closes the stream when [open_cfm], [start_cfm] or [reconf_cfm]
    carry no error; [close_cfm] only frees. *)
Theorem canceled_setup_is_dropped (env : environment) (session : avdtp)
    (stream : option avdtp_stream) (err : option Z)
    (l : list a2dp_stream_setup) (i : nat) (setup : a2dp_stream_setup) :
  find_setup_by_session session l = Some (i, setup) ->
  setup_canceled setup = true ->
  let closing :=
    match err with
    | None => [avdtp_close session stream]
    | Some _ => []
    end in
  open_cfm env session stream err l
  = (remove_nth i l, closing ++ [avdtp_unref session]) /\
  start_cfm session stream err l
  = (remove_nth i l, closing ++ [avdtp_unref session]) /\
  reconf_cfm env session stream err l
  = (remove_nth i l, closing ++ [avdtp_unref session]) /\
  close_cfm env session stream err l
  = (remove_nth i l, [avdtp_unref session]) /\
  callbacks_invoked (snd (open_cfm env session stream err l)) = [] /\
  callbacks_invoked (snd (start_cfm session stream err l)) = [] /\
  callbacks_invoked (snd (reconf_cfm env session stream err l)) = [] /\
  callbacks_invoked (snd (close_cfm env session stream err l)) = [].
Proof.
  intros Hfind Hc closing.
  destruct (find_setup_by_session_found _ _ _ _ Hfind) as [_ Hs].
  unfold open_cfm, start_cfm, reconf_cfm, close_cfm, drop_canceled,
    stream_setup_free.
  rewrite Hfind, Hc, Hs. subst closing.
  destruct err; repeat split.
Qed.

Lemma canceled_setup_is_dropped_witness :
  open_cfm (scenario_env true 0) 7 (Some 7) None [scenario_setup true true]
  = ([], [avdtp_close 7 (Some 7); avdtp_unref 7]).
Proof.
  apply (proj1 (canceled_setup_is_dropped (scenario_env true 0) 7 (Some 7)
                  None [scenario_setup true true] 0%nat
                  (scenario_setup true true) eq_refl eq_refl)).
Defined.

(** ** Finalizing *)

Lemma callbacks_invoked_app (a b : list effect) :
  callbacks_invoked (a ++ b) = callbacks_invoked a ++ callbacks_invoked b.
Proof. unfold callbacks_invoked. apply flat_map_app. Qed.

Lemma callbacks_invoked_calls (s : a2dp_stream_setup)
    (cbs : list a2dp_stream_cb) :
  callbacks_invoked
    (map (fun c => setup_callback (cb_fn c) (setup_session s) (setup_sep s)
                     (setup_stream s) (cb_user_data c)) cbs)
  = map (fun c => (cb_fn c, setup_stream s, cb_user_data c)) cbs.
Proof.
  induction cbs as [| c rest IH].
  - reflexivity.
  - change (callbacks_invoked
              (map (fun c0 => setup_callback (cb_fn c0) (setup_session s)
                                (setup_sep s) (setup_stream s)
                                (cb_user_data c0)) (c :: rest)))
      with ((cb_fn c, setup_stream s, cb_user_data c)
            :: callbacks_invoked
                 (map (fun c0 => setup_callback (cb_fn c0) (setup_session s)
                                   (setup_sep s) (setup_stream s)
                                   (cb_user_data c0)) rest)).
    rewrite IH. reflexivity.
Qed.

Lemma callbacks_invoked_finalize (s : a2dp_stream_setup) (at_ : option nat)
    (l : list a2dp_stream_setup) :
  callbacks_invoked (snd (finalize_stream_setup s at_ l))
  = map (fun c => (cb_fn c, setup_stream s, cb_user_data c)) (setup_cb s).
Proof.
  unfold finalize_stream_setup, stream_setup_free. cbn [snd].
  rewrite callbacks_invoked_app, callbacks_invoked_calls.
  destruct (setup_session s); apply app_nil_r.
Qed.

Lemma others_have_other_keys {A B : Type} (f : A -> B) (l : list A) :
  forall i x, NoDup (map f l) -> nth_error l i = Some x ->
              forall y, In y (remove_nth i l) -> f y <> f x.
Proof.
  induction l as [| a l IH]; intros [| i] x Hnd Hi y Hy; simpl in *;
    try discriminate; inversion Hnd as [| ? ? Hnot Hrest]; subst.
  - injection Hi as ->. intros E. apply Hnot. rewrite <- E.
    apply in_map. exact Hy.
  - destruct Hy as [<- | Hy].
    + intros E. apply Hnot. rewrite E. apply in_map.
      apply nth_error_In with (n := i). exact Hi.
    + apply (IH i x Hrest Hi y Hy).
Qed.

(** Once the only setup of a session is freed, the session has none. *)
Lemma freed_session_has_no_setup (session : avdtp)
    (l : list a2dp_stream_setup) (i : nat) (setup : a2dp_stream_setup) :
  sessions_distinct l ->
  find_setup_by_session session l = Some (i, setup) ->
  find_setup_by_session session (remove_nth i l) = None.
Proof.
  intros Hnd Hfind.
  destruct (find_setup_by_session_found _ _ _ _ Hfind) as [Hi Hs].
  apply find_from_none. intros y Hy.
  pose proof (others_have_other_keys setup_session l i setup Hnd Hi y Hy)
    as Hne.
  unfold setup_has_session. destruct (setup_session y) as [s |]; [| reflexivity].
  apply Z.eqb_neq. intros ->. apply Hne. symmetry. exact Hs.
Qed.

(** X12. [start_cfm] answers every waiting client exactly once: for a
    setup that is not canceled, the callbacks invoked are the waiting
    records, each once and in the order they were queued, with the
    setup's stream when the confirmation carries no error and with NULL
    when it does; the setup is then gone, and no setup is left for the
    session. *)
Theorem start_cfm_calls_back_once (session : avdtp)
    (stream : option avdtp_stream) (err : option Z)
    (l : list a2dp_stream_setup) (i : nat) (setup : a2dp_stream_setup) :
  sessions_distinct l ->
  find_setup_by_session session l = Some (i, setup) ->
  setup_canceled setup = false ->
  callbacks_invoked (snd (start_cfm session stream err l))
  = map (fun c => (cb_fn c,
                   match err with
                   | None => setup_stream setup
                   | Some _ => None
                   end,
                   cb_user_data c)) (setup_cb setup) /\
  fst (start_cfm session stream err l) = remove_nth i l /\
  find_setup_by_session session (fst (start_cfm session stream err l)) = None.
Proof.
  intros Hnd Hfind Hc. unfold start_cfm. rewrite Hfind, Hc.
  destruct err as [e |]; rewrite callbacks_invoked_finalize,
    finalize_stream_setup_list;
    (split; [reflexivity |]); (split; [reflexivity |]);
    apply (freed_session_has_no_setup _ _ _ _ Hnd Hfind).
Qed.

Lemma start_cfm_calls_back_once_witness :
  callbacks_invoked
    (snd (start_cfm 7 (Some 7) None [two_callbacks_setup true false]))
  = [(11, Some 7, 12); (21, Some 7, 22)] /\
  fst (start_cfm 7 (Some 7) None [two_callbacks_setup true false]) = [] /\
  find_setup_by_session 7
    (fst (start_cfm 7 (Some 7) None [two_callbacks_setup true false])) = None.
Proof.
  apply (start_cfm_calls_back_once 7 (Some 7) None
           [two_callbacks_setup true false] 0%nat
           (two_callbacks_setup true false)).
  - constructor; [intros [] | constructor].
  - reflexivity.
  - reflexivity.
Defined.

(** X13. The confirmations disagree on what a positive return of
    [avdtp_start] means. After it, [open_cfm] and [reconf_cfm] take the
    start as failed: they call every waiting client back with a NULL
    stream and free the setup. [suspend_cfm] takes it as accepted and
    keeps the setup waiting. *)
Theorem positive_start_return (env : environment) (session : avdtp)
    (stream : option avdtp_stream) (sep : a2dp_sep)
    (l : list a2dp_stream_setup) (i : nat) (setup : a2dp_stream_setup) :
  find_setup_by_session session l = Some (i, setup) ->
  setup_canceled setup = false ->
  setup_start setup = true ->
  0 < rc_start env session stream ->
  fst (open_cfm env session stream None l) = remove_nth i l /\
  callbacks_invoked (snd (open_cfm env session stream None l))
  = map (fun c => (cb_fn c, None, cb_user_data c)) (setup_cb setup) /\
  reconf_cfm env session stream None l = open_cfm env session stream None l /\
  snd (fst (suspend_cfm env session stream None sep l)) = l /\
  callbacks_invoked (snd (suspend_cfm env session stream None sep l)) = [].
Proof.
  intros Hfind Hc Hstart Hrc.
  unfold open_cfm, reconf_cfm, suspend_cfm. rewrite Hfind, Hc, Hstart.
  destruct (Z.eqb_spec (rc_start env session stream) 0) as [E | _]; [lia |].
  destruct (Z.ltb_spec (rc_start env session stream) 0) as [E | _]; [lia |].
  pose proof (callbacks_invoked_finalize (set_setup_stream setup None)
                (Some i) l) as Hcalls.
  destruct (finalize_stream_setup (set_setup_stream setup None) (Some i) l)
    as [l' e] eqn:Efin.
  pose proof (finalize_stream_setup_list (set_setup_stream setup None) i l)
    as Hl. rewrite Efin in Hl. cbn [fst snd] in *.
  repeat split; try assumption.
Qed.

Lemma positive_start_return_witness :
  fst (open_cfm (scenario_env true 1) 7 (Some 7) None
         [two_callbacks_setup true false]) = [] /\
  callbacks_invoked
    (snd (open_cfm (scenario_env true 1) 7 (Some 7) None
            [two_callbacks_setup true false]))
  = [(11, None, 12); (21, None, 22)] /\
  reconf_cfm (scenario_env true 1) 7 (Some 7) None
    [two_callbacks_setup true false]
  = open_cfm (scenario_env true 1) 7 (Some 7) None
      [two_callbacks_setup true false] /\
  snd (fst (suspend_cfm (scenario_env true 1) 7 (Some 7) None
              (idle_sep false) [two_callbacks_setup true false]))
  = [two_callbacks_setup true false] /\
  callbacks_invoked
    (snd (suspend_cfm (scenario_env true 1) 7 (Some 7) None
            (idle_sep false) [two_callbacks_setup true false])) = [].
Proof.
  apply (positive_start_return (scenario_env true 1) 7 (Some 7)
           (idle_sep false) [two_callbacks_setup true false] 0%nat
           (two_callbacks_setup true false)); try reflexivity.
Defined.

(** ** Cancelling *)

Lemma find_some_iff {A : Type} (p : A -> bool) (l : list A) :
  (exists x, find p l = Some x) <-> exists x, In x l /\ p x = true.
Proof.
  split.
  - intros (x & H). exists x. apply find_some in H. exact H.
  - intros (x & Hin & Hp). destruct (find p l) as [y |] eqn:E.
    + exists y. reflexivity.
    + rewrite (find_none _ _ E x Hin) in Hp. discriminate.
Qed.

(** The record [find] returns is the first that passes the test, and it
    is the one [remove_first] takes out. *)
Lemma find_split {A : Type} (p : A -> bool) (l : list A) (x : A) :
  find p l = Some x ->
  exists before after,
    l = before ++ x :: after /\ p x = true /\
    (forall b, In b before -> p b = false) /\
    remove_first p l = before ++ after.
Proof.
  induction l as [| a l IH]; cbn [find remove_first]; [discriminate |].
  destruct (p a) eqn:Ha.
  - intros H. injection H as <-. exists [], l.
    split; [reflexivity |]. split; [exact Ha |].
    split; [intros b [] | reflexivity].
  - intros H. destruct (IH H) as (before & after & -> & Hx & Hb & Hr).
    exists (a :: before), after.
    split; [reflexivity |]. split; [exact Hx |]. split.
    + intros b [<- | Hin]; [exact Ha | exact (Hb b Hin)].
    + rewrite Hr. reflexivity.
Qed.

(** X9. [a2dp_source_cancel_stream] returns TRUE exactly when the first
    setup of the device holds a callback with the given id; otherwise it
    changes nothing. On TRUE the record that has left is the first one of
    that setup carrying the id, the records before and after it stay in
    their order, and the setup is otherwise as it was, except that a
    setup left without callbacks is marked canceled and loses its target
    SEP; SEPs, the other setups and the id counter are untouched. *)
Theorem a2dp_source_cancel_stream_outcome (env : environment)
    (dev : option device) (id : Z) (st : a2dp_state) :
  (fst (a2dp_source_cancel_stream env dev id st) = true <->
   exists k setup c,
     find_setup_by_dev env dev (setups st) = Some (k, setup) /\
     In c (setup_cb setup) /\ uint32 (cb_ident c) = id) /\
  (fst (a2dp_source_cancel_stream env dev id st) = false ->
   snd (a2dp_source_cancel_stream env dev id st) = st) /\
  (fst (a2dp_source_cancel_stream env dev id st) = true ->
   exists k setup before c after,
     find_setup_by_dev env dev (setups st) = Some (k, setup) /\
     setup_cb setup = before ++ c :: after /\
     uint32 (cb_ident c) = id /\
     (forall b, In b before -> uint32 (cb_ident b) <> id) /\
     snd (a2dp_source_cancel_stream env dev id st)
     = mk_a2dp_state (sources st)
         (update_nth k
            (mk_a2dp_stream_setup (setup_session setup)
               (match before ++ after with
                | [] => None
                | _ :: _ => setup_sep setup
                end)
               (setup_stream setup) (setup_media_codec setup)
               (setup_start setup)
               (match before ++ after with
                | [] => true
                | _ :: _ => setup_canceled setup
                end)
               (before ++ after))
            (setups st))
         (cb_id st)).
Proof.
  unfold a2dp_source_cancel_stream.
  destruct (find_setup_by_dev env dev (setups st)) as [[k setup] |] eqn:Hfind.
  - destruct (find (cb_has_id id) (setup_cb setup)) as [c |] eqn:Hcb.
    + cbn [fst snd]. split; [| split; [discriminate |]].
      * split; [| reflexivity]. intros _. exists k, setup, c.
        apply find_some in Hcb. destruct Hcb as [Hin Hid].
        apply Z.eqb_eq in Hid. auto.
      * intros _.
        destruct (find_split _ _ _ Hcb) as (before & after & Hl & Hc & Hb & Hr).
        exists k, setup, before, c, after.
        split; [reflexivity |]. split; [exact Hl |].
        split; [apply Z.eqb_eq; exact Hc |].
        split; [intros b Hin; apply Z.eqb_neq; exact (Hb b Hin) |].
        rewrite Hr. unfold set_setup_cb. cbn [setup_cb].
        destruct (before ++ after); reflexivity.
    + cbn [fst snd]. split; [| split; [reflexivity | discriminate]].
      split; [discriminate |]. intros (k' & s' & c & Hf & Hin & Hid).
      injection Hf as <- <-.
      assert (Hp : cb_has_id id c = true) by (apply Z.eqb_eq; exact Hid).
      rewrite (find_none _ _ Hcb c Hin) in Hp. discriminate.
  - cbn [fst snd]. split; [| split; [reflexivity | discriminate]].
    split; [discriminate |]. intros (k & s & c & Hf & _). discriminate.
Qed.

Lemma a2dp_source_cancel_stream_outcome_witness :
  exists k setup before c after,
    find_setup_by_dev (scenario_env true 0) (Some 100)
      [two_callbacks_setup true false] = Some (k, setup) /\
    setup_cb setup = before ++ c :: after /\
    uint32 (cb_ident c) = 2 /\
    (forall b, In b before -> uint32 (cb_ident b) <> 2) /\
    snd (a2dp_source_cancel_stream (scenario_env true 0) (Some 100) 2
           (scenario_state (idle_sep false) [two_callbacks_setup true false]
              2))
    = mk_a2dp_state [idle_sep false]
        (update_nth k
           (mk_a2dp_stream_setup (setup_session setup)
              (match before ++ after with
               | [] => None
               | _ :: _ => setup_sep setup
               end)
              (setup_stream setup) (setup_media_codec setup)
              (setup_start setup)
              (match before ++ after with
               | [] => true
               | _ :: _ => setup_canceled setup
               end)
              (before ++ after))
           [two_callbacks_setup true false])
        2.
Proof.
  apply (proj2 (proj2 (a2dp_source_cancel_stream_outcome
                         (scenario_env true 0) (Some 100) 2
                         (scenario_state (idle_sep false)
                            [two_callbacks_setup true false] 2)))).
  reflexivity.
Defined.






(** ** Starting and suspending by session *)

(** X14. [a2dp_source_suspend] acts on the first SEP bound to the
    session. With no such SEP it returns FALSE; when that SEP holds no
    stream or is not STREAMING it returns TRUE; in both cases it makes no
    call and stores nothing. Otherwise it makes exactly one call,
    [avdtp_suspend] on the session and the stream of that SEP, returns
    TRUE exactly when the call returned 0, and then, and only then, sets
    [suspending] on that SEP and on nothing else. *)
Theorem a2dp_source_suspend_outcome (env : environment) (session : avdtp)
    (l : list a2dp_sep) :
  (find_from (sep_bound_to session) l 0 = None ->
   a2dp_source_suspend env session l = (false, l, [])) /\
  (forall i sep,
      find_from (sep_bound_to session) l 0 = Some (i, sep) ->
      sep_stream sep = None \/
      avdtp_sep_get_state (sep_lsep sep) <> AVDTP_STATE_STREAMING ->
      a2dp_source_suspend env session l = (true, l, [])) /\
  (forall i sep stream,
      find_from (sep_bound_to session) l 0 = Some (i, sep) ->
      sep_stream sep = Some stream ->
      avdtp_sep_get_state (sep_lsep sep) = AVDTP_STATE_STREAMING ->
      a2dp_source_suspend env session l
      = (rc_suspend env (Some session) (Some stream) =? 0,
         if rc_suspend env (Some session) (Some stream) =? 0
         then update_nth i (set_sep_suspending sep true) l
         else l,
         [avdtp_suspend (Some session) (Some stream)])).
Proof.
  unfold a2dp_source_suspend. split; [| split].
  - intros ->. reflexivity.
  - intros i sep -> Hidle.
    destruct (sep_stream sep) as [stream |]; [| reflexivity].
    destruct Hidle as [Hidle | Hidle]; [discriminate |].
    destruct (avdtp_sep_get_state (sep_lsep sep)); try reflexivity.
    contradiction Hidle. reflexivity.
  - intros i sep stream -> -> ->. cbn [avdtp_state_is_streaming negb].
    destruct (rc_suspend env (Some session) (Some stream) =? 0); reflexivity.
Qed.

Lemma a2dp_source_suspend_outcome_witness :
  a2dp_source_suspend (scenario_env true 0) 7
    [idle_sep false; scenario_sep AVDTP_STATE_STREAMING false false 0]
  = (true,
     [idle_sep false; scenario_sep AVDTP_STATE_STREAMING false true 0],
     [avdtp_suspend (Some 7) (Some 7)]).
Proof.
  exact (proj2 (proj2 (a2dp_source_suspend_outcome (scenario_env true 0) 7
                         [idle_sep false;
                          scenario_sep AVDTP_STATE_STREAMING false false 0]))
           1%nat (scenario_sep AVDTP_STATE_STREAMING false false 0) 7
           eq_refl eq_refl eq_refl).
Defined.

(** X15. [a2dp_source_start_stream] acts on the first SEP bound to the
    session. With no such SEP, or with that SEP IDLE or CONFIGURED, it
    returns FALSE, and with that SEP STREAMING it returns TRUE, without
    a call. With that SEP OPEN, CLOSING or ABORTING it makes exactly one
    call, [avdtp_start] on the session and the stream of that SEP, and
    returns FALSE exactly when the call returned a negative code. *)
Theorem a2dp_source_start_stream_outcome (env : environment)
    (session : avdtp) (l : list a2dp_sep) :
  (find_from (sep_bound_to session) l 0 = None ->
   a2dp_source_start_stream env session l = (false, [])) /\
  (forall i sep,
      find_from (sep_bound_to session) l 0 = Some (i, sep) ->
      (avdtp_sep_get_state (sep_lsep sep) = AVDTP_STATE_IDLE \/
       avdtp_sep_get_state (sep_lsep sep) = AVDTP_STATE_CONFIGURED ->
       a2dp_source_start_stream env session l = (false, [])) /\
      (avdtp_sep_get_state (sep_lsep sep) = AVDTP_STATE_STREAMING ->
       a2dp_source_start_stream env session l = (true, [])) /\
      (avdtp_sep_get_state (sep_lsep sep) = AVDTP_STATE_OPEN \/
       avdtp_sep_get_state (sep_lsep sep) = AVDTP_STATE_CLOSING \/
       avdtp_sep_get_state (sep_lsep sep) = AVDTP_STATE_ABORTING ->
       a2dp_source_start_stream env session l
       = (negb (rc_start env session (sep_stream sep) <? 0),
          [avdtp_start session (sep_stream sep)]))).
Proof.
  unfold a2dp_source_start_stream. split.
  - intros ->. reflexivity.
  - intros i sep ->. split; [| split].
    + intros [-> | ->]; reflexivity.
    + intros ->. reflexivity.
    + intros [-> | [-> | ->]];
        cbn [avdtp_state_rank avdtp_state_is_streaming Z.ltb Z.compare];
        destruct (rc_start env session (sep_stream sep) <? 0); reflexivity.
Qed.

Lemma a2dp_source_start_stream_outcome_witness :
  a2dp_source_start_stream (scenario_env true (-1)) 7
    [idle_sep false; scenario_sep AVDTP_STATE_OPEN false false 0]
  = (false, [avdtp_start 7 (Some 7)]).
Proof.
  exact (proj2 (proj2 (proj2 (a2dp_source_start_stream_outcome
                                (scenario_env true (-1)) 7
                                [idle_sep false;
                                 scenario_sep AVDTP_STATE_OPEN false false 0])
                         1%nat (scenario_sep AVDTP_STATE_OPEN false false 0)
                         eq_refl))
           (or_introl eq_refl)).
Defined.

(** ** The stream listener and the idle-suspend timer *)

(** X16. When a stream goes IDLE, [stream_state_changed] empties the
    SEP's stream slot, session and timer and leaves [locked],
    [suspending] and [starting] as they were; run again on the result it
    changes nothing and makes no call. Any other new state leaves the SEP
    alone. *)
Theorem stream_state_changed_idle (sep : a2dp_sep) :
  let sep' := fst (stream_state_changed AVDTP_STATE_IDLE sep) in
  sep_stream sep' = None /\ sep_session sep' = None /\
  sep_suspend_timer sep' = 0 /\
  sep_locked sep' = sep_locked sep /\
  sep_suspending sep' = sep_suspending sep /\
  sep_starting sep' = sep_starting sep /\
  sep_type sep' = sep_type sep /\ sep_lsep sep' = sep_lsep sep /\
  stream_state_changed AVDTP_STATE_IDLE sep' = (sep', []) /\
  forall new_state,
    new_state <> AVDTP_STATE_IDLE ->
    stream_state_changed new_state sep = (sep, []).
Proof.
  destruct sep as [t ls se st tm lk sg sr].
  unfold stream_state_changed.
  cbn [avdtp_state_is_idle negb sep_suspend_timer].
  destruct (tm =? 0) eqn:Et; destruct se as [s |];
    cbn [negb sep_session set_sep_suspend_timer set_sep_session
         set_sep_stream fst sep_stream sep_suspend_timer sep_locked
         sep_suspending sep_starting sep_type sep_lsep Z.eqb];
    try (apply Z.eqb_eq in Et; subst tm);
    repeat (split; [reflexivity |]);
    intros [] H; try reflexivity; contradiction.
Qed.

Lemma ref_balance_app (session : avdtp) (a b : list effect) :
  ref_balance session (a ++ b) = ref_balance session a + ref_balance session b.
Proof.
  induction a as [| e a IH]; simpl; [reflexivity |].
  destruct e; rewrite ?IH; lia.
Qed.

(** X17. The reference [start_ind] takes on the session is released
    exactly once, by whichever comes first of the idle-suspend timeout
    and the stream going IDLE: either way references and releases of the
    session balance, the SEP's session and timer are cleared, and when
    the timeout came first the listener that follows releases nothing
    and removes no timer. *)
Theorem start_ind_reference_released (env : environment) (session : avdtp)
    (timer : guint) (sep : a2dp_sep) :
  let started := start_ind session timer sep in
  let timed_out := suspend_timeout env (snd (fst started)) in
  let idled := stream_state_changed AVDTP_STATE_IDLE (snd (fst started)) in
  ref_balance session (snd started ++ snd timed_out) = 0 /\
  sep_session (snd (fst timed_out)) = None /\
  sep_suspend_timer (snd (fst timed_out)) = 0 /\
  fst (fst timed_out) = false /\
  snd (stream_state_changed AVDTP_STATE_IDLE (snd (fst timed_out))) = [] /\
  ref_balance session (snd started ++ snd idled) = 0 /\
  sep_session (fst idled) = None /\
  sep_suspend_timer (fst idled) = 0 /\
  (timer <> 0 -> In (g_source_remove timer) (snd idled)).
Proof.
  destruct sep as [t ls se st tm lk sg sr].
  cbv zeta. unfold start_ind, suspend_timeout, stream_state_changed.
  cbn [fst snd set_sep_session set_sep_suspend_timer sep_session sep_stream
       sep_suspend_timer sep_lsep avdtp_state_is_idle negb].
  destruct (rc_suspend env (Some session) st =? 0);
    cbn [fst snd set_sep_session set_sep_suspend_timer set_sep_suspending
         sep_session sep_stream sep_suspend_timer sep_lsep Z.eqb negb
         set_sep_stream app ref_balance];
    rewrite !Z.eqb_refl;
    destruct (timer =? 0) eqn:Et;
    cbn [fst snd set_sep_session set_sep_suspend_timer set_sep_suspending
         sep_session sep_stream sep_suspend_timer sep_lsep Z.eqb negb
         set_sep_stream app ref_balance];
    rewrite ?Z.eqb_refl;
    try (apply Z.eqb_eq in Et; subst timer);
    repeat (split; [reflexivity |]);
    intros H; try contradiction; left; reflexivity.
Qed.

(** ** Discovery *)

Lemma effects_of_made (l : list effect) : effects_of (map made l) = l.
Proof.
  induction l as [| e l IH]; [reflexivity |].
  change (effects_of (map made (e :: l)))
    with (e :: effects_of (map made l)).
  rewrite IH. reflexivity.
Qed.

Lemma configurations_sent_made (l : list effect) :
  configurations_sent (map made l) = [].
Proof.
  induction l as [| e l IH]; [reflexivity |].
  change (configurations_sent (map made (e :: l)))
    with (configurations_sent (map made l)).
  exact IH.
Qed.

(** X18. How [discovery_complete] fails a setup that is not canceled.
    After a failed discovery (negative [err]) every waiting client is
    called back with a NULL stream. When the discovery succeeded but the
    session has no matching pair of SEPs, the clients are called back
    with the stream the setup already held, which is not cleared. In both
    cases the setup is freed and no configuration is sent. *)
Theorem discovery_complete_failures (denv : discovery_environment)
    (session : avdtp) (err : Z) (l : list a2dp_stream_setup) (i : nat)
    (setup : a2dp_stream_setup) :
  find_setup_by_session session l = Some (i, setup) ->
  setup_canceled setup = false ->
  err < 0 \/ avdtp_get_seps denv session = None ->
  fst (discovery_complete denv session err l) = remove_nth i l /\
  configurations_sent (snd (discovery_complete denv session err l)) = [] /\
  callbacks_invoked (effects_of (snd (discovery_complete denv session err l)))
  = map (fun c => (cb_fn c,
                   if err <? 0 then None else setup_stream setup,
                   cb_user_data c)) (setup_cb setup).
Proof.
  intros Hfind Hc Hwhy. unfold discovery_complete. rewrite Hfind, Hc.
  rewrite orb_false_r.
  destruct (err <? 0) eqn:Eerr.
  - unfold finalize_calls. cbn [fst snd].
    rewrite effects_of_made, configurations_sent_made,
      callbacks_invoked_finalize, finalize_stream_setup_list.
    repeat split.
  - destruct Hwhy as [Hneg | Hnone]; [apply Z.ltb_ge in Eerr; lia |].
    rewrite Hnone. unfold finalize_calls. cbn [fst snd].
    rewrite effects_of_made, configurations_sent_made,
      callbacks_invoked_finalize, finalize_stream_setup_list.
    repeat split.
Qed.

Lemma discovery_complete_failures_witness :
  fst (discovery_complete (scenario_denv false None 0) 7 0
         [two_callbacks_setup true false]) = [] /\
  configurations_sent
    (snd (discovery_complete (scenario_denv false None 0) 7 0
            [two_callbacks_setup true false])) = [] /\
  callbacks_invoked
    (effects_of (snd (discovery_complete (scenario_denv false None 0) 7 0
                        [two_callbacks_setup true false])))
  = [(11, Some 7, 12); (21, Some 7, 22)].
Proof.
  apply (discovery_complete_failures (scenario_denv false None 0) 7 0
           [two_callbacks_setup true false] 0%nat
           (two_callbacks_setup true false) eq_refl eq_refl).
  right. reflexivity.
Defined.

(** ** Registration *)

Lemma registered_app (a b : list registration_call) :
  registered (a ++ b) = registered a ++ registered b.
Proof. unfold registered. apply flat_map_app. Qed.

Lemma unregistered_app (a b : list registration_call) :
  unregistered (a ++ b) = unregistered a ++ unregistered b.
Proof. unfold unregistered. apply flat_map_app. Qed.

Lemma pooled_skip (type : avdtp_sep_type) (id : Z) (p : a2dp_pool) :
  pooled (pool_skip type id p) = pooled p.
Proof. destruct type; reflexivity. Qed.

Lemma pooled_add (type : avdtp_sep_type) (lsep : avdtp_local_sep) (id : Z)
    (p : a2dp_pool) :
  Permutation (lsep :: pooled p) (pooled (pool_add type (new_sep type lsep) id p)).
Proof.
  unfold pooled. destruct type; cbn [pool_add pool_sources pool_sinks].
  - rewrite map_app. cbn [map new_sep sep_lsep]. rewrite <- app_assoc.
    apply Permutation_cons_app. cbn [app]. apply Permutation_refl.
  - rewrite map_app. cbn [map new_sep sep_lsep]. rewrite app_assoc.
    apply Permutation_cons_append.
Qed.

Lemma create_record_silent (renv : registration_environment) (n : nat)
    (type : avdtp_sep_type) :
  registered (snd (create_record renv n type)) = [] /\
  unregistered (snd (create_record renv n type)) = [].
Proof. destruct type; split; reflexivity. Qed.

(** The source path always has a defined result: [a2dp_source_record]
    fills the buffer whenever it returns 0. *)
Lemma a2dp_add_sep_source_defined (renv : registration_environment)
    (p : a2dp_pool) :
  exists r p' c,
    a2dp_add_sep renv AVDTP_SEP_TYPE_SOURCE p = Some (r, p', c) /\
    attempts p' = S (attempts p) /\
    pool_sinks p' = pool_sinks p /\ sink_record_id p' = sink_record_id p.
Proof.
  unfold a2dp_add_sep.
  destruct (avdtp_register_sep_result renv (attempts p) AVDTP_SEP_TYPE_SOURCE)
    as [lsep |]; [| eexists _, _, _; split; [reflexivity |]; auto].
  destruct (negb (record_id_of AVDTP_SEP_TYPE_SOURCE p =? 0));
    [eexists _, _, _; split; [reflexivity |]; auto |].
  cbn [create_record].
  destruct (sdp_gen_record_pdu_result renv (attempts p) <? 0);
    cbn [Z.ltb Z.compare negb];
    [eexists _, _, _; split; [reflexivity |]; auto |].
  destruct (uint32 (add_service_record_result renv (attempts p)
                      AVDTP_SEP_TYPE_SOURCE) =? 0);
    eexists _, _, _; (split; [reflexivity |]); auto.
Qed.

(** The sink path while no sink record is published: a registration
    that yields no SEP returns NULL, one that yields a SEP runs into the
    buffer that [a2dp_sink_record] left unwritten. *)
Lemma a2dp_add_sep_sink (renv : registration_environment) (p : a2dp_pool) :
  sink_record_id p = 0 ->
  match avdtp_register_sep_result renv (attempts p) AVDTP_SEP_TYPE_SINK with
  | Some _ => a2dp_add_sep renv AVDTP_SEP_TYPE_SINK p = None
  | None =>
    a2dp_add_sep renv AVDTP_SEP_TYPE_SINK p
    = Some (None, pool_skip AVDTP_SEP_TYPE_SINK 0 p,
            [avdtp_register_sep AVDTP_SEP_TYPE_SINK None])
  end.
Proof.
  intros Hid. unfold a2dp_add_sep. cbn [record_id_of]. rewrite Hid.
  destruct (avdtp_register_sep_result renv (attempts p) AVDTP_SEP_TYPE_SINK);
    reflexivity.
Qed.

Lemma add_seps_source_defined (renv : registration_environment) (count : nat) :
  forall p,
    exists p' c,
      add_seps renv AVDTP_SEP_TYPE_SOURCE count p = Some (p', c) /\
      attempts p' = (attempts p + count)%nat /\
      pool_sinks p' = pool_sinks p /\ sink_record_id p' = sink_record_id p.
Proof.
  induction count as [| k IH]; intros p.
  - exists p, []. cbn [add_seps]. repeat split; auto; lia.
  - cbn [add_seps].
    destruct (a2dp_add_sep_source_defined renv p)
      as (r & p1 & c1 & -> & Ha & Hk & Hi).
    destruct (IH p1) as (p2 & c2 & -> & Ha2 & Hk2 & Hi2).
    exists p2, (c1 ++ c2). split; [reflexivity |].
    split; [lia |]. split; congruence.
Qed.

Lemma add_seps_sink (renv : registration_environment) (count : nat) :
  forall p,
    sink_record_id p = 0 ->
    (add_seps renv AVDTP_SEP_TYPE_SINK count p = None <->
     exists k, (k < count)%nat /\
               avdtp_register_sep_result renv (attempts p + k)
                 AVDTP_SEP_TYPE_SINK <> None) /\
    (forall p' c,
        add_seps renv AVDTP_SEP_TYPE_SINK count p = Some (p', c) ->
        pool_sinks p' = pool_sinks p /\ sink_record_id p' = 0).
Proof.
  induction count as [| n IH]; intros p Hid.
  - cbn [add_seps]. split.
    + split; [discriminate | intros (k & Hk & _); lia].
    + intros p' c H. injection H as <- _. auto.
  - cbn [add_seps]. pose proof (a2dp_add_sep_sink renv p Hid) as Hadd.
    destruct (avdtp_register_sep_result renv (attempts p) AVDTP_SEP_TYPE_SINK)
      as [lsep |] eqn:Hreg.
    + rewrite Hadd. split; [| discriminate].
      split; [| reflexivity]. intros _. exists 0%nat.
      rewrite Nat.add_0_r, Hreg. split; [lia | discriminate].
    + rewrite Hadd.
      set (q := pool_skip AVDTP_SEP_TYPE_SINK 0 p).
      destruct (IH q eq_refl) as [IHnone IHsome].
      change (attempts q) with (S (attempts p)) in IHnone.
      change (pool_sinks q) with (pool_sinks p) in IHsome.
      destruct (add_seps renv AVDTP_SEP_TYPE_SINK n q) as [[p2 c2] |].
      * split.
        -- split; [discriminate |]. intros (k & Hk & Hne).
           destruct k as [| k].
           ++ rewrite Nat.add_0_r, Hreg in Hne. contradiction.
           ++ enough (Some (p2, c2) = None) by discriminate.
              apply IHnone. exists k. split; [lia |].
              replace (S (attempts p) + k)%nat
                with (attempts p + S k)%nat by lia.
              exact Hne.
        -- intros p' c H. injection H as <- _.
           apply (IHsome p2 c2 eq_refl).
      * split; [| discriminate]. split; [| reflexivity]. intros _.
        destruct (proj1 IHnone eq_refl) as (k & Hk & Hne).
        exists (S k). split; [lia |].
        replace (attempts p + S k)%nat
          with (S (attempts p) + k)%nat by lia.
        exact Hne.
Qed.

Lemma a2dp_add_sep_accounts (renv : registration_environment)
    (type : avdtp_sep_type) (p p' : a2dp_pool) (r : option a2dp_sep)
    (c : list registration_call) :
  a2dp_add_sep renv type p = Some (r, p', c) ->
  Permutation (registered c ++ pooled p) (unregistered c ++ pooled p').
Proof.
  unfold a2dp_add_sep.
  destruct (avdtp_register_sep_result renv (attempts p) type) as [lsep |].
  - destruct (negb (record_id_of type p =? 0)).
    + intros H. injection H as _ <- <-.
      cbn [registered unregistered flat_map app]. apply pooled_add.
    + pose proof (create_record_silent renv (attempts p) type) as [Hr Hu].
      destruct (create_record renv (attempts p) type) as [[rc written] built].
      cbn [snd] in Hr, Hu.
      destruct (rc <? 0).
      * intros H. injection H as _ <- <-.
        change (avdtp_register_sep type (Some lsep)
                :: built ++ [avdtp_unregister_sep lsep])
          with ([avdtp_register_sep type (Some lsep)]
                ++ built ++ [avdtp_unregister_sep lsep]).
        rewrite !registered_app, !unregistered_app, Hr, Hu, pooled_skip.
        apply Permutation_refl.
      * destruct (negb written); [discriminate |].
        destruct (uint32 (add_service_record_result renv (attempts p) type)
                  =? 0); intros H; injection H as _ <- <-.
        -- change (avdtp_register_sep type (Some lsep)
                   :: built ++ [add_service_record type;
                                avdtp_unregister_sep lsep])
             with ([avdtp_register_sep type (Some lsep)]
                   ++ built ++ [add_service_record type;
                                avdtp_unregister_sep lsep]).
           rewrite !registered_app, !unregistered_app, Hr, Hu, pooled_skip.
           apply Permutation_refl.
        -- change (avdtp_register_sep type (Some lsep)
                   :: built ++ [add_service_record type])
             with ([avdtp_register_sep type (Some lsep)]
                   ++ built ++ [add_service_record type]).
           rewrite !registered_app, !unregistered_app, Hr, Hu.
           cbn [registered unregistered flat_map app]. apply pooled_add.
  - intros H. injection H as _ <- <-.
    cbn [registered unregistered flat_map app]. rewrite pooled_skip.
    apply Permutation_refl.
Qed.

Lemma add_seps_accounts (renv : registration_environment)
    (type : avdtp_sep_type) (count : nat) :
  forall p p' c,
    add_seps renv type count p = Some (p', c) ->
    Permutation (registered c ++ pooled p) (unregistered c ++ pooled p').
Proof.
  induction count as [| k IH]; intros p p' c.
  - cbn [add_seps]. intros H. injection H as <- <-. apply Permutation_refl.
  - cbn [add_seps].
    destruct (a2dp_add_sep renv type p) as [[[r p1] c1] |] eqn:Hadd;
      [| discriminate].
    pose proof (a2dp_add_sep_accounts renv type p p1 r c1 Hadd) as H1.
    destruct (add_seps renv type k p1) as [[p2 c2] |] eqn:Hrest;
      [| discriminate].
    specialize (IH p1 p2 c2 Hrest).
    intros H. injection H as <- <-.
    rewrite registered_app, unregistered_app.
    rewrite <- !app_assoc.
    apply Permutation_trans
      with (l' := registered c2 ++ unregistered c1 ++ pooled p1).
    + apply Permutation_trans
        with (l' := registered c2 ++ registered c1 ++ pooled p).
      * rewrite !app_assoc. apply Permutation_app_tail.
        apply Permutation_app_comm.
      * apply Permutation_app_head. exact H1.
    + apply Permutation_trans
        with (l' := unregistered c1 ++ registered c2 ++ pooled p1).
      * rewrite !app_assoc. apply Permutation_app_tail.
        apply Permutation_app_comm.
      * apply Permutation_app_head. exact IH.
Qed.

Lemma a2dp_exit_unregisters (p : a2dp_pool) :
  registered (snd (a2dp_exit p)) = [] /\
  Permutation (unregistered (snd (a2dp_exit p))) (pooled p).
Proof.
  unfold a2dp_exit, pooled. cbn [snd].
  assert (Hmap : forall l : list a2dp_sep,
             registered (map (fun s => avdtp_unregister_sep (sep_lsep s)) l)
             = [] /\
             unregistered (map (fun s => avdtp_unregister_sep (sep_lsep s)) l)
             = map sep_lsep l).
  { induction l as [| a l [IH1 IH2]]; [split; reflexivity |].
    split; [exact IH1 |].
    change (unregistered
              (map (fun s => avdtp_unregister_sep (sep_lsep s)) (a :: l)))
      with (sep_lsep a
            :: unregistered
                 (map (fun s => avdtp_unregister_sep (sep_lsep s)) l)).
    rewrite IH2. reflexivity. }
  destruct (Hmap (pool_sinks p)) as [Hr1 Hu1].
  destruct (Hmap (pool_sources p)) as [Hr2 Hu2].
  rewrite !registered_app, !unregistered_app, Hr1, Hr2, Hu1, Hu2.
  destruct (negb (source_record_id p =? 0)),
    (negb (sink_record_id p =? 0)); cbn [registered unregistered flat_map app];
    (split; [reflexivity |]); rewrite ?app_nil_r; apply Permutation_app_comm.
Qed.

(** X19. Registration is undone by [a2dp_exit]: over a run of
    [a2dp_init] that has a defined result (it never hands
    [add_service_record] the buffer that [a2dp_sink_record] left
    unwritten), started with empty pools and followed by [a2dp_exit], the
    SEPs that [avdtp_register_sep] handed out are exactly the SEPs passed
    to [avdtp_unregister_sep], each once, whatever registrations and
    record publications failed; the pools and both record ids end up
    empty. *)
Theorem a2dp_init_exit_balanced (renv : registration_environment)
    (n_sources n_sinks : Z) (p p1 : a2dp_pool) (rc : Z)
    (calls : list registration_call) :
  pool_sources p = [] -> pool_sinks p = [] ->
  a2dp_init renv n_sources n_sinks p = Some (rc, p1, calls) ->
  let stopped := a2dp_exit p1 in
  Permutation (registered (calls ++ snd stopped))
              (unregistered (calls ++ snd stopped)) /\
  pool_sources (fst stopped) = [] /\ pool_sinks (fst stopped) = [] /\
  source_record_id (fst stopped) = 0 /\ sink_record_id (fst stopped) = 0.
Proof.
  intros Hs Hk Hinit stopped.
  split; [| repeat split].
  subst stopped.
  assert (Hp : pooled p = []) by (unfold pooled; rewrite Hs, Hk; reflexivity).
  destruct (a2dp_exit_unregisters p1) as [Hr Hu].
  rewrite registered_app, unregistered_app, Hr, app_nil_r.
  assert (Hacc : Permutation (registered calls ++ pooled p)
                             (unregistered calls ++ pooled p1)).
  { revert Hinit. unfold a2dp_init.
    destruct ((n_sources =? 0) && (n_sinks =? 0)).
    - intros H. injection H as _ <- <-. apply Permutation_refl.
    - destruct (add_seps renv AVDTP_SEP_TYPE_SOURCE (Z.to_nat n_sources) p)
        as [[q1 c1] |] eqn:H1; [| discriminate].
      destruct (add_seps renv AVDTP_SEP_TYPE_SINK (Z.to_nat n_sinks) q1)
        as [[q2 c2] |] eqn:H2; [| discriminate].
      intros H. injection H as _ <- <-.
      apply add_seps_accounts in H1. apply add_seps_accounts in H2.
      change (dbus_connection_ref :: avdtp_init :: c1 ++ c2)
        with ([dbus_connection_ref; avdtp_init] ++ c1 ++ c2).
      rewrite !registered_app, !unregistered_app.
      cbn [registered unregistered flat_map app].
      rewrite <- !app_assoc.
      apply Permutation_trans
        with (l' := registered c2 ++ unregistered c1 ++ pooled q1).
      + apply Permutation_trans
          with (l' := registered c2 ++ registered c1 ++ pooled p).
        * rewrite !app_assoc. apply Permutation_app_tail.
          apply Permutation_app_comm.
        * apply Permutation_app_head. exact H1.
      + apply Permutation_trans
          with (l' := unregistered c1 ++ registered c2 ++ pooled q1).
        * rewrite !app_assoc. apply Permutation_app_tail.
          apply Permutation_app_comm.
        * apply Permutation_app_head. exact H2. }
  rewrite Hp, app_nil_r in Hacc.
  apply Permutation_trans with (l' := unregistered calls ++ pooled p1).
  - exact Hacc.
  - apply Permutation_app_head. apply Permutation_sym. exact Hu.
Qed.

Lemma a2dp_init_exit_balanced_witness :
  exists p1 calls,
    a2dp_init (scenario_renv 2) 2 1 empty_pool = Some (0, p1, calls) /\
    pool_sources p1 <> [] /\
    Permutation (registered (calls ++ snd (a2dp_exit p1)))
                (unregistered (calls ++ snd (a2dp_exit p1))).
Proof.
  eexists _, _. split; [reflexivity |]. split; [discriminate |].
  eapply (proj1 (a2dp_init_exit_balanced (scenario_renv 2) 2 1 empty_pool _ _
                   _ eq_refl eq_refl eq_refl)).
Defined.






(** X28. While no sink record is published ([sink_record_id] is 0, as it
    is at start-up and after [a2dp_exit]), [a2dp_init] has no defined
    result exactly when one of the sink registrations it attempts yields
    a SEP: [a2dp_add_sep] then passes [add_service_record] and [free] the
    buffer that [a2dp_sink_record] never wrote. The source registrations
    play no part in this, and a run that does have a result has pooled no
    sink and published no sink record. *)
Theorem a2dp_init_sink_undefined (renv : registration_environment)
    (n_sources n_sinks : Z) (p : a2dp_pool) :
  sink_record_id p = 0 ->
  (a2dp_init renv n_sources n_sinks p = None <->
   exists k, (k < Z.to_nat n_sinks)%nat /\
             avdtp_register_sep_result renv
               (attempts p + Z.to_nat n_sources + k) AVDTP_SEP_TYPE_SINK
             <> None) /\
  (forall rc p' calls,
      a2dp_init renv n_sources n_sinks p = Some (rc, p', calls) ->
      pool_sinks p' = pool_sinks p /\ sink_record_id p' = 0).
Proof.
  intros Hid. unfold a2dp_init.
  destruct ((n_sources =? 0) && (n_sinks =? 0)) eqn:Hzero.
  - apply andb_prop in Hzero. destruct Hzero as [_ Hk].
    apply Z.eqb_eq in Hk. subst n_sinks. split.
    + split; [discriminate |]. intros (k & Hlt & _). simpl in Hlt. lia.
    + intros rc p' calls H. injection H as _ <- _. auto.
  - destruct (add_seps_source_defined renv (Z.to_nat n_sources) p)
      as (p1 & c1 & -> & Ha & Hsinks & Hsid).
    rewrite Hid in Hsid.
    destruct (add_seps_sink renv (Z.to_nat n_sinks) p1 Hsid)
      as [Hnone Hsome].
    rewrite Ha in Hnone.
    destruct (add_seps renv AVDTP_SEP_TYPE_SINK (Z.to_nat n_sinks) p1)
      as [[p2 c2] |].
    + split.
      * split; [discriminate |]. intros H.
        apply Hnone in H. discriminate.
      * intros rc p' calls H. injection H as _ <- _.
        destruct (Hsome p2 c2 eq_refl) as [E1 E2].
        split; [congruence | exact E2].
    + split; [| discriminate].
      split; [intros _; apply Hnone; reflexivity | reflexivity].
Qed.

Lemma a2dp_init_sink_undefined_witness :
  a2dp_init (scenario_renv 5) 2 1 empty_pool = None.
Proof.
  apply (proj1 (a2dp_init_sink_undefined (scenario_renv 5) 2 1 empty_pool
                  eq_refl)).
  exists 0%nat. split; [vm_compute; lia | vm_compute; discriminate].
Defined.

(** ** Abort *)

(** X24. [abort_ind] only empties the stream slot: the SEP becomes
    eligible for a request of any session unless it is locked, while its
    session reference and its idle-suspend timer stay as they were; if
    that timer fires afterwards, [suspend_timeout] issues [avdtp_suspend]
    with a NULL stream. *)
Theorem abort_ind_frees_slot (env : environment) (session : avdtp)
    (sep : a2dp_sep) :
  let sep' := snd (abort_ind sep) in
  fst (abort_ind sep) = Accept /\
  sep_stream sep' = None /\
  sep_available env session sep' = negb (sep_locked sep) /\
  sep_session sep' = sep_session sep /\
  sep_suspend_timer sep' = sep_suspend_timer sep /\
  In (avdtp_suspend (sep_session sep) None) (snd (suspend_timeout env sep')).
Proof.
  destruct sep as [t ls se st tm lk sg sr]. cbv zeta.
  unfold abort_ind, sep_available, suspend_timeout, set_sep_stream.
  cbn [fst snd sep_stream sep_locked sep_session sep_suspend_timer].
  split; [reflexivity |]. split; [reflexivity |].
  split; [destruct lk; reflexivity |].
  split; [reflexivity |]. split; [reflexivity |].
  left. reflexivity.
Qed.

(** ** The configuration sent after discovery *)

(** X26. A client's preferred codec is sent as it is: when the setup
    carries a preferred media codec and the session has a matching pair
    of SEPs, [discovery_complete] sends exactly one configuration, a
    media transport followed by a media codec holding the preferred
    capability unchanged, whatever the remote SEP offers; the remote
    codec is not consulted and [select_sbc_params] is not run on it. *)
Theorem preferred_codec_sent_verbatim (denv : discovery_environment)
    (session : avdtp) (err : Z) (l : list a2dp_stream_setup) (i : nat)
    (setup : a2dp_stream_setup) (preferred : avdtp_service_capability)
    (lsep : avdtp_local_sep) (rsep : avdtp_remote_sep) :
  find_setup_by_session session l = Some (i, setup) ->
  setup_canceled setup = false ->
  setup_media_codec setup = Some preferred ->
  0 <= err ->
  avdtp_get_seps denv session = Some (lsep, rsep) ->
  configurations_sent (snd (discovery_complete denv session err l))
  = [[mk_avdtp_service_capability AVDTP_MEDIA_TRANSPORT sbc_cap_zero;
      mk_avdtp_service_capability AVDTP_MEDIA_CODEC (data preferred)]].
Proof.
  intros Hfind Hc Hpref Herr Hseps. unfold discovery_complete.
  rewrite Hfind, Hc, Hseps.
  destruct (Z.ltb_spec err 0) as [E | _]; [lia |]. cbn [orb].
  unfold a2dp_select_capabilities. rewrite Hfind, Hpref. cbn [app].
  destruct (set_configuration_result denv session rsep lsep _
              (setup_stream setup)) as [rc stream'].
  destruct (rc <? 0); [| reflexivity].
  unfold finalize_calls. cbn [fst snd configurations_sent flat_map app].
  change (flat_map _ (map made ?x)) with (configurations_sent (map made x)).
  rewrite configurations_sent_made. reflexivity.
Qed.

Lemma preferred_codec_sent_verbatim_witness :
  configurations_sent
    (snd (discovery_complete
            (scenario_denv true (Some codec_without_frequency) 0) 7 0
            [mk_a2dp_stream_setup (Some 7) (Some 0%nat) None
               (Some scenario_codec) true false
               [mk_a2dp_stream_cb 11 12 1]]))
  = [[mk_avdtp_service_capability AVDTP_MEDIA_TRANSPORT sbc_cap_zero;
      mk_avdtp_service_capability AVDTP_MEDIA_CODEC (data scenario_codec)]].
Proof.
  apply (preferred_codec_sent_verbatim
           (scenario_denv true (Some codec_without_frequency) 0) 7 0
           [mk_a2dp_stream_setup (Some 7) (Some 0%nat) None
              (Some scenario_codec) true false
              [mk_a2dp_stream_cb 11 12 1]]
           0%nat
           (mk_a2dp_stream_setup (Some 7) (Some 0%nat) None
              (Some scenario_codec) true false
              [mk_a2dp_stream_cb 11 12 1])
           scenario_codec (mk_avdtp_local_sep 1 AVDTP_STATE_IDLE) 9
           eq_refl eq_refl eq_refl ltac:(lia) eq_refl).
Defined.

(** ** Lock and unlock as a pair *)

Lemma a2dp_sep_lock_unlock_idle_witness :
  a2dp_sep_unlock (scenario_env true 0) (idle_sep true) 7
  = (true, idle_sep false, []).
Proof.
  apply (a2dp_sep_lock_unlock_idle (scenario_env true 0) (idle_sep false)
           (idle_sep true) 7 eq_refl eq_refl).
Defined.

(** ** What the set-configuration indication reads *)

(** X27. [setconf_ind] never looks at the sampling frequency, channel
    mode, block length, subbands or allocation method of a configuration:
    two configurations whose capabilities agree, one by one, on category,
    codec type and bitpool bytes get the same answer, the same SEP and
    the same calls. *)
Theorem setconf_ind_reads_bitpool_only (env : environment) (session : avdtp)
    (stream : option avdtp_stream)
    (caps caps' : list avdtp_service_capability) (sep : a2dp_sep) :
  Forall2 same_bitpool_view caps caps' ->
  setconf_ind env session stream caps sep
  = setconf_ind env session stream caps' sep.
Proof.
  intros H. unfold setconf_ind.
  assert (E : bitpool_out_of_range caps = bitpool_out_of_range caps').
  { induction H as [| a b l l' (Hc & Ht & Hlo & Hhi) _ IH]; [reflexivity |].
    cbn [bitpool_out_of_range]. rewrite Hc, Ht, Hlo, Hhi, IH. reflexivity. }
  rewrite E. reflexivity.
Qed.

Lemma setconf_ind_reads_bitpool_only_witness :
  setconf_ind (scenario_env true 0) 7 (Some 9) (scenario_caps 2 64)
    (idle_sep false)
  = setconf_ind (scenario_env true 0) 7 (Some 9)
      [mk_avdtp_service_capability AVDTP_MEDIA_TRANSPORT sbc_cap_zero;
       mk_avdtp_service_capability AVDTP_MEDIA_CODEC
         (mk_sbc_codec_cap 0 0 0 15 0 3 0 2 64)]
      (idle_sep false).
Proof.
  apply (setconf_ind_reads_bitpool_only (scenario_env true 0) 7 (Some 9)
           (scenario_caps 2 64)
           [mk_avdtp_service_capability AVDTP_MEDIA_TRANSPORT sbc_cap_zero;
            mk_avdtp_service_capability AVDTP_MEDIA_CODEC
              (mk_sbc_codec_cap 0 0 0 15 0 3 0 2 64)]
           (idle_sep false)).
  repeat constructor.
Defined.

(** * Further properties of the HID connector *)

Module HidMore.
Import Hid.
Import HidScenario.

(** ** Addresses in the table *)

Lemma g_slist_find_custom_none_inv (l : list hid_device) (addr : bdaddr_t) :
  g_slist_find_custom l addr = None -> ~ In addr (map dst l).
Proof.
  induction l as [| h t IH]; simpl; intros H; [tauto |].
  unfold device_cmp, bacmp in H.
  destruct (list_eq_dec Z.eq_dec (dst h) addr) as [E | E]; simpl in H;
    [discriminate |].
  intros [D | D]; [exact (E D) | exact (IH H D)].
Qed.

(** An event leaves the addresses of the table as they are or appends
    one that was not there. *)
Lemma dispatch_addresses (env : environment) (ev : event)
    (devices : list hid_device) :
  map dst (fst (dispatch env ev devices)) = map dst devices \/
  exists addr,
    map dst (fst (dispatch env ev devices)) = map dst devices ++ [addr] /\
    ~ In addr (map dst devices).
Proof.
  destruct ev as [io opcode buf len | i e | i e | i cond | i cond];
    cbn [dispatch].
  - unfold bt_hid_handle_cmd. destruct opcode; [| left; reflexivity ..].
    unfold bt_hid_connect.
    destruct (len <? sizeof_hal_cmd_hid_connect); [left; reflexivity |].
    destruct (g_slist_find_custom _ _) eqn:Hfind; [left; reflexivity |].
    destruct (bt_io_connect_ctrl env _) as [c err].
    destruct err; [left; reflexivity |].
    right. eexists. cbn [fst]. rewrite map_app. split; [reflexivity |].
    apply g_slist_find_custom_none_inv. exact Hfind.
  - left. apply HidFacts.on_device_keeps_addresses.
    intros h. unfold control_connect_cb. destruct e; [reflexivity |].
    cbn [intr_io set_intr_io]. destruct (bt_io_connect_intr env (dst h));
      reflexivity.
  - left. apply HidFacts.on_device_keeps_addresses.
    intros h. unfold interrupt_connect_cb. destruct e; [| reflexivity].
    cbn [ctrl_io set_intr_io]. destruct (ctrl_io h); reflexivity.
  - left. apply HidFacts.on_device_keeps_addresses.
    intros h. destruct (intr_io h) as [chan |]; [| reflexivity].
    pose proof (HidFacts.intr_watch_cb_keeps_address env chan cond h) as H.
    destruct (intr_watch_cb env chan cond h) as [[r h'] e]. exact H.
  - left. apply HidFacts.on_device_keeps_addresses.
    intros h. destruct (ctrl_io h) as [chan |]; [| reflexivity].
    pose proof (HidFacts.ctrl_watch_cb_keeps_address chan cond h) as H.
    destruct (ctrl_watch_cb chan cond h) as [[r h'] e]. exact H.
Qed.

Lemma NoDup_snoc {A : Type} (l : list A) (x : A) :
  NoDup l -> ~ In x l -> NoDup (l ++ [x]).
Proof.
  intros Hl Hx. apply NoDup_rev in Hl.
  rewrite <- (rev_involutive (l ++ [x])). apply NoDup_rev.
  rewrite rev_app_distr. simpl. constructor; [| exact Hl].
  rewrite <- in_rev. exact Hx.
Qed.

(** X21. The table never holds two devices with the same address: if it
    holds none before, it holds none after any sequence of commands,
    connect completions and watch callbacks. *)
Theorem one_device_per_address (env : environment) (evs : list event) :
  forall devices : list hid_device,
    NoDup (map dst devices) ->
    NoDup (map dst (fst (run env evs devices))).
Proof.
  induction evs as [| ev rest IH]; intros devices H; cbn [run].
  - exact H.
  - pose proof (dispatch_addresses env ev devices) as Hd.
    destruct (dispatch env ev devices) as [d1 e1]. cbn [fst] in Hd.
    specialize (IH d1).
    destruct (run env rest d1) as [d2 e2]. cbn [fst] in *.
    apply IH. destruct Hd as [-> | (addr & -> & Hnew)].
    + exact H.
    + apply NoDup_snoc; assumption.
Qed.

Lemma one_device_per_address_witness :
  NoDup (map dst (fst (run (scenario_env false)
                         (bring_up_and_hang_up
                          ++ [ev_cmd 1 HAL_OP_HID_CONNECT scenario_bdaddr 6])
                         []))).
Proof.
  apply (one_device_per_address (scenario_env false)
           (bring_up_and_hang_up
            ++ [ev_cmd 1 HAL_OP_HID_CONNECT scenario_bdaddr 6]) []).
  constructor.
Defined.

(** X22. An address once in the table is refused for good: whatever
    commands, connect completions and watch callbacks follow, hangups of
    both channels included, [bt_hid_connect] for that address returns
    FAILED and leaves the table alone. *)
Theorem connected_address_stays_refused (env : environment)
    (evs : list event) (devices : list hid_device) (cmd : list Z) (len : Z) :
  In (android2bdaddr env (firstn 6 cmd)) (map dst devices) ->
  sizeof_hal_cmd_hid_connect <= len ->
  bt_hid_connect env cmd len (fst (run env evs devices))
  = (HAL_STATUS_FAILED, fst (run env evs devices), []).
Proof.
  intros Hin Hlen.
  destruct (HidFacts.run_never_removes env evs devices) as (added & Hrun).
  assert (Hstill : In (android2bdaddr env (firstn 6 cmd))
                     (map dst (fst (run env evs devices)))).
  { rewrite Hrun. apply in_or_app. left. exact Hin. }
  apply in_map_iff in Hstill. destruct Hstill as (d & Hd & Hdin).
  destruct (HidFacts.g_slist_find_custom_some
              (fst (run env evs devices))
              (android2bdaddr env (firstn 6 cmd))) as (h & Hh).
  { exists d. split; assumption. }
  unfold bt_hid_connect. apply Z.ltb_ge in Hlen. rewrite Hlen, Hh.
  reflexivity.
Qed.

Lemma connected_address_stays_refused_witness :
  bt_hid_connect (scenario_env false) scenario_bdaddr 6
    (fst (run (scenario_env false)
            [ev_control_connect 0 false; ev_interrupt_connect 0 false;
             ev_intr_watch 0 G_IO_HUP; ev_ctrl_watch 0 G_IO_HUP]
            [mk_hid_device (rev scenario_bdaddr) (Some 50) None 0 0]))
  = (HAL_STATUS_FAILED,
     fst (run (scenario_env false)
            [ev_control_connect 0 false; ev_interrupt_connect 0 false;
             ev_intr_watch 0 G_IO_HUP; ev_ctrl_watch 0 G_IO_HUP]
            [mk_hid_device (rev scenario_bdaddr) (Some 50) None 0 0]),
     []).
Proof.
  apply (connected_address_stays_refused (scenario_env false)
           [ev_control_connect 0 false; ev_interrupt_connect 0 false;
            ev_intr_watch 0 G_IO_HUP; ev_ctrl_watch 0 G_IO_HUP]
           [mk_hid_device (rev scenario_bdaddr) (Some 50) None 0 0]
           scenario_bdaddr 6).
  - left. reflexivity.
  - unfold sizeof_hal_cmd_hid_connect. lia.
Defined.

(** ** Shutting the pair down *)

(** X23. No channel is shut down twice. For a connected device (both
    channels open on distinct handles, both watches armed), when one
    watch fires with a hangup or error and the other fires after it, on
    whatever condition, each of the two channels is shut down exactly
    once over the two callbacks, in either order of the watches, and the
    device ends with both handles and both watch ids cleared. *)
Theorem each_channel_shut_down_once (env : environment)
    (h : hid_device) (ctrl intr : GIOChannel) (cond cond' : Z) :
  ctrl_io h = Some ctrl -> intr_io h = Some intr -> ctrl <> intr ->
  ctrl_watch h <> 0 -> intr_watch h <> 0 ->
  has_bit cond (Z.lor G_IO_HUP G_IO_ERR) = true ->
  has_bit cond G_IO_NVAL = false ->
  has_bit cond G_IO_IN = false -> has_bit cond' G_IO_IN = false ->
  let first_intr := intr_watch_cb env intr cond h in
  let then_ctrl := ctrl_watch_cb ctrl cond' (snd (fst first_intr)) in
  let first_ctrl := ctrl_watch_cb ctrl cond h in
  let then_intr := intr_watch_cb env intr cond' (snd (fst first_ctrl)) in
  shutdowns ctrl (snd first_intr ++ snd then_ctrl) = 1%nat /\
  shutdowns intr (snd first_intr ++ snd then_ctrl) = 1%nat /\
  snd (fst then_ctrl) = mk_hid_device (dst h) None None 0 0 /\
  shutdowns ctrl (snd first_ctrl ++ snd then_intr) = 1%nat /\
  shutdowns intr (snd first_ctrl ++ snd then_intr) = 1%nat /\
  snd (fst then_intr) = mk_hid_device (dst h) None None 0 0.
Proof.
  destruct h as [d ci ii cw iw]. cbn [ctrl_io intr_io ctrl_watch intr_watch].
  intros -> -> Hne Hcw Hiw Hup Hnval Hin Hin'. cbv zeta.
  apply Z.eqb_neq in Hcw. apply Z.eqb_neq in Hiw.
  assert (Hci : (ctrl =? intr) = false) by (apply Z.eqb_neq; exact Hne).
  assert (Hic : (intr =? ctrl) = false)
    by (apply Z.eqb_neq; intros E; apply Hne; symmetry; exact E).
  unfold intr_watch_cb, ctrl_watch_cb, set_intr_watch, set_intr_io,
    set_ctrl_watch, set_ctrl_io, unref_opt.
  rewrite Hin, Hin'.
  cbn [ctrl_io intr_io ctrl_watch intr_watch dst fst snd].
  rewrite Hup, Hnval, Hcw, Hiw.
  cbn [negb andb app fst snd ctrl_io intr_io ctrl_watch intr_watch dst
       Z.eqb andb].
  rewrite !andb_false_r.
  cbn [app shutdowns]. rewrite !Z.eqb_refl, ?Hci, ?Hic.
  repeat split.
Qed.

Lemma each_channel_shut_down_once_witness :
  shutdowns 50
    (snd (intr_watch_cb (scenario_env false) 51 G_IO_HUP
            (mk_hid_device (rev scenario_bdaddr) (Some 50) (Some 51) 150 151))
     ++ snd (ctrl_watch_cb 50 G_IO_NVAL
               (snd (fst (intr_watch_cb (scenario_env false) 51 G_IO_HUP
                            (mk_hid_device (rev scenario_bdaddr) (Some 50)
                               (Some 51) 150 151)))))) = 1%nat.
Proof.
  apply (proj1 (each_channel_shut_down_once (scenario_env false)
                  (mk_hid_device (rev scenario_bdaddr) (Some 50) (Some 51)
                     150 151)
                  50 51 G_IO_HUP G_IO_NVAL eq_refl eq_refl
                  ltac:(discriminate) ltac:(discriminate) ltac:(discriminate)
                  eq_refl eq_refl eq_refl eq_refl)).
Defined.

(** ** Connecting *)

(** X25. What [bt_hid_connect] does to the table: on SUCCESS it has
    appended exactly one device, with the requested address, which was
    not in the table, with no interrupt channel and no watch; on any
    other status the table is as before, and on INVALID or on a known
    address no connect was started. *)
Theorem bt_hid_connect_table (env : environment) (cmd : list Z) (len : Z)
    (devices : list hid_device) :
  let addr := android2bdaddr env (firstn 6 cmd) in
  let status := fst (fst (bt_hid_connect env cmd len devices)) in
  let devices' := snd (fst (bt_hid_connect env cmd len devices)) in
  let calls := snd (bt_hid_connect env cmd len devices) in
  (status = HAL_STATUS_SUCCESS ->
   ~ In addr (map dst devices) /\
   devices'
   = devices
     ++ [mk_hid_device addr (fst (bt_io_connect_ctrl env addr)) None 0 0] /\
   calls = [bt_io_connect L2CAP_PSM_HIDP_CTRL addr]) /\
  (status <> HAL_STATUS_SUCCESS -> devices' = devices) /\
  (status = HAL_STATUS_INVALID \/ In addr (map dst devices) -> calls = []).
Proof.
  cbv zeta. unfold bt_hid_connect.
  destruct (len <? sizeof_hal_cmd_hid_connect).
  - cbn [fst snd]. split; [discriminate |]. split; reflexivity.
  - destruct (g_slist_find_custom devices _) as [found |] eqn:Hfind.
    + cbn [fst snd]. split; [discriminate |]. split; reflexivity.
    + pose proof (g_slist_find_custom_none_inv _ _ Hfind) as Hnew.
      destruct (bt_io_connect_ctrl env _) as [io err].
      destruct err; cbn [fst snd hid_device_free].
      * split; [discriminate |]. split; [reflexivity |].
        intros [H | H]; [discriminate | contradiction].
      * split; [intros _; repeat split; assumption |].
        split; [intros H; contradiction |].
        intros [H | H]; [discriminate | contradiction].
Qed.

End HidMore.
